(** * Order lifecycle and promotion pricing of the shopping system

    A shallow embedding of [Order], [OrderManager], [Promotion] and
    [PromotionManager] (C++), with the properties of the order lifecycle
    and of the pricing engine stated and proved over it.

    Conventions of the embedding:
    - [int] and [time_t] are [Z]; arithmetic the source performs on them
      goes through [CInt.wrap], the two's-complement result of the machine.
    - [double] is the kernel's binary64 [float]; no operation is idealised.
    - [std::string] is [string]; the source files are UTF-8, so a Chinese
      literal is the same byte sequence here as in the program.
    - a [std::shared_ptr<Item>] is an address into a heap of [Item]s, so
      two basket lines may alias one object.
    - [std::time(nullptr)] is an explicit argument of whoever reads it. *)

From Stdlib Require Import ZArith List String Ascii Floats Lia Bool.
From Stdlib Require Import DecimalString Permutation Sorted.
From Stdlib Require Import DecimalPos.
From stdpp Require Import base option list gmap strings.

Local Open Scope Z_scope.
Set Warnings "-inexact-float".

(** ** Machine integers *)

Module CInt.

Definition wrap (w z : Z) : Z := (z + 2 ^ (w - 1)) mod 2 ^ w - 2 ^ (w - 1).

Definition INT_MAX : Z := 2147483647.
Definition INT_MIN : Z := -2147483648.

Definition in_int (z : Z) : Prop := INT_MIN <= z <= INT_MAX.

(** [int] addition and subtraction, [time_t] (64-bit) subtraction. *)
Definition add (a b : Z) : Z := wrap 32 (a + b).
Definition sub (a b : Z) : Z := wrap 32 (a - b).
Definition time_sub (a b : Z) : Z := wrap 64 (a - b).

(** Conversion of an [int] to [double]; exact on the whole [int] range. *)
Definition to_double (z : Z) : float :=
  if z <? 0 then PrimFloat.opp (PrimFloat.of_uint63 (Uint63.of_Z (- z)))
  else PrimFloat.of_uint63 (Uint63.of_Z z).

(** [static_cast<int>(double)]: truncation toward zero. *)
Definition of_double (f : float) : Z :=
  match Prim2SF f with
  | S754_finite s m e =>
      let a := if 0 <=? e then Z.pos m * 2 ^ e else Z.pos m / 2 ^ (- e) in
      wrap 32 (if s then - a else a)
  | _ => 0
  end.

End CInt.

(** ** Text *)

Module Text.

(** [operator<<] on an integer, and [std::to_string]. *)
Definition to_string (z : Z) : string := NilZero.string_of_int (Z.to_int z).

Fixpoint replicate_char (n : nat) (c : ascii) : string :=
  match n with
  | O => EmptyString
  | S k => String c (replicate_char k c)
  end.

(** [std::setfill(c) << std::setw(w)] in front of one output. *)
Definition setw (w : nat) (c : ascii) (s : string) : string :=
  (replicate_char (w - String.length s) c ++ s)%string.

Definition is_digit (c : ascii) : bool :=
  let n := nat_of_ascii c in (48 <=? n)%nat && (n <=? 57)%nat.

Definition digit_value (c : ascii) : Z := Z.of_nat (nat_of_ascii c) - 48.

(** [std::isspace] in the C locale. *)
Definition is_space (c : ascii) : bool :=
  let n := nat_of_ascii c in (n =? 32)%nat || ((9 <=? n)%nat && (n <=? 13)%nat).

Fixpoint skip_space (s : string) : string :=
  match s with
  | String c r => if is_space c then skip_space r else s
  | EmptyString => s
  end.

(** The digits at the head of [s], accumulated in base ten; [None] when
    [s] does not begin with a digit. *)
Fixpoint digits_acc (acc : Z) (s : string) : Z :=
  match s with
  | String c r => if is_digit c then digits_acc (10 * acc + digit_value c) r else acc
  | EmptyString => acc
  end.

Definition leading_number (s : string) : option Z :=
  match s with
  | String c _ => if is_digit c then Some (digits_acc 0 s) else None
  | EmptyString => None
  end.

(** [strtol]-style parse shared by [std::stoi] and [std::stoll]: leading
    white space, an optional sign, then decimal digits; what follows the
    digits is ignored.  [None] stands for [std::invalid_argument] (no
    digit) and for [std::out_of_range] (outside [lo..hi]). *)
Definition parse_integer (lo hi : Z) (s : string) : option Z :=
  let t := skip_space s in
  let '(neg, u) :=
    match t with
    | String c r =>
        if Ascii.eqb c "-" then (true, r)
        else if Ascii.eqb c "+" then (false, r)
        else (false, t)
    | EmptyString => (false, t)
    end in
  match leading_number u with
  | Some n =>
      let v := if neg then - n else n in
      if (lo <=? v) && (v <=? hi) then Some v else None
  | None => None
  end.

Definition stoi : string -> option Z := parse_integer CInt.INT_MIN CInt.INT_MAX.
Definition stoll : string -> option Z :=
  parse_integer (- 9223372036854775808) 9223372036854775807.

(** [str.substr(0, n)] and [str.substr(n)]. *)
Fixpoint take (n : nat) (s : string) : string :=
  match n, s with
  | S k, String c r => String c (take k r)
  | _, _ => EmptyString
  end.

Fixpoint drop (n : nat) (s : string) : string :=
  match n, s with
  | S k, String _ r => drop k r
  | _, _ => s
  end.

(** The pieces [std::getline(stream, piece, delim)] yields until it fails:
    a trailing delimiter does not open a last empty piece, and the empty
    string yields nothing. *)
Fixpoint split_aux (delim : ascii) (cur : string) (s : string) : list string :=
  match s with
  | EmptyString => if String.eqb cur EmptyString then [] else [cur]
  | String c r =>
      if Ascii.eqb c delim then cur :: split_aux delim EmptyString r
      else split_aux delim (cur ++ String c EmptyString)%string r
  end.

Definition getlines (delim : ascii) (s : string) : list string :=
  split_aux delim EmptyString s.

(** [trim]: strips the characters of [" \t\n\r"] at both ends. *)
Definition is_blank (c : ascii) : bool :=
  let n := nat_of_ascii c in
  (n =? 32)%nat || (n =? 9)%nat || (n =? 10)%nat || (n =? 13)%nat.

Fixpoint trim_left (s : string) : string :=
  match s with
  | String c r => if is_blank c then trim_left r else s
  | EmptyString => s
  end.

Fixpoint trim_right (s : string) : string :=
  match s with
  | EmptyString => EmptyString
  | String c r =>
      let r' := trim_right r in
      if is_blank c && String.eqb r' EmptyString then EmptyString
      else String c r'
  end.

Definition trim (s : string) : string := trim_right (trim_left s).

(** [parseCSVLine]: the comma-separated fields, each trimmed. *)
Definition parseCSVLine (line : string) : list string :=
  map trim (getlines ","%char line).

(** [str.front()] and [str.back()], when there is one. *)
Definition front (s : string) : option ascii :=
  match s with
  | String c _ => Some c
  | EmptyString => None
  end.

Fixpoint back (s : string) : option ascii :=
  match s with
  | EmptyString => None
  | String c EmptyString => Some c
  | String _ r => back r
  end.

(** One [std::getline(stream, piece, delim)] on a stream that still holds
    [s]: the piece and what the stream holds afterwards; [None] when the
    stream is exhausted, the case in which [getline] fails. *)
Fixpoint untilDelim (delim : ascii) (s : string) : string * string :=
  match s with
  | EmptyString => (EmptyString, EmptyString)
  | String c r =>
      if Ascii.eqb c delim then (EmptyString, r)
      else (String c (fst (untilDelim delim r)), snd (untilDelim delim r))
  end.

Definition getlineFrom (delim : ascii) (s : string) : option (string * string) :=
  if String.eqb s EmptyString then None else Some (untilDelim delim s).

End Text.

(** ** Services of the C++ runtime the program calls

    [std::hash<std::string>], [std::stod] and [std::sort] are library code
    whose results the standard does not fix; they are taken as an interface.
    [std_sort] comes with the part of its contract the proofs use. *)

Class Runtime := {
  std_hash : string -> Z;
  std_stod : string -> option float;
  std_sort : forall {A : Type}, (A -> A -> bool) -> list A -> list A;
  std_sort_perm : forall (A : Type) (lt : A -> A -> bool) (l : list A),
      Permutation (std_sort lt l) l
}.

(** [operator<<] on a [double] with the default formatting of a stream
    (the [%g] conversion with six significant digits, in the classic
    locale).  Which digits it prints is left to the library; what the
    program relies on is the alphabet of the output: digits, sign, point,
    exponent mark and the letters of [inf] and [nan]. *)
Class Stream := {
  show_double : float -> string;
  show_double_alphabet : forall (f : float) (c : ascii),
      In c (list_ascii_of_string (show_double f)) ->
      In c (list_ascii_of_string "0123456789+-.einfa");
  show_double_nonempty : forall f : float, show_double f <> EmptyString
}.

(** ** Exceptions and the outcome of a call *)

Inductive exn : Type :=
  | InsufficientStockException (itemName : string) (requested available : Z)
  | std_exception (what : string).

(** A call returns, throws, or dereferences a pointer that addresses no
    object. *)
Inductive outcome (A : Type) : Type :=
  | Return (a : A)
  | Throw (e : exn)
  | NullDeref.

Arguments Return {A} a.
Arguments Throw {A} e.
Arguments NullDeref {A}.

(** Sequencing of calls that may throw. *)
Definition bind {A B : Type} (x : outcome A) (f : A -> outcome B) : outcome B :=
  match x with
  | Return a => f a
  | Throw e => Throw e
  | NullDeref => NullDeref
  end.

(** ** Item *)

Module Item.

Record t : Type := mk {
  itemId : string;
  itemName : string;
  category : string;
  price : float;
  description : string;
  stock : Z
}.

Definition setStock (s : Z) (i : t) : t :=
  mk (itemId i) (itemName i) (category i) (price i) (description i) s.

End Item.

(** The [Item] objects of the process, by address, with the catalogue of
    the [ItemManager] and the rows its [saveToFile] wrote last. *)
Record ItemWorld : Type := mkItemWorld {
  heap : gmap positive Item.t;
  catalogue : list positive;
  itemFile : list Item.t
}.

Definition ItemManager_saveToFile (w : ItemWorld) : ItemWorld :=
  mkItemWorld (heap w) (catalogue w) (omap (fun p => heap w !! p) (catalogue w)).

Definition stockOf (h : gmap positive Item.t) (p : positive) : Z :=
  match h !! p with
  | Some i => Item.stock i
  | None => 0
  end.

(** A basket: [std::vector<std::pair<std::shared_ptr<Item>, int>>]. *)
Definition Basket : Type := list (positive * Z).

(** [ItemManager::findItemById]: [std::find_if] over the catalogue,
    dereferencing every item it tests; [None] is [nullptr]. *)
Fixpoint findItemIn (h : gmap positive Item.t) (itemId : string) (items : list positive)
  : outcome (option positive) :=
  match items with
  | [] => Return None
  | p :: rest =>
      match h !! p with
      | None => NullDeref
      | Some item =>
          if String.eqb (Item.itemId item) itemId then Return (Some p)
          else findItemIn h itemId rest
      end
  end.

Definition ItemManager_findItemById (w : ItemWorld) (itemId : string)
  : outcome (option positive) :=
  findItemIn (heap w) itemId (catalogue w).

(** ** Order *)

Inductive OrderStatus : Type := PENDING | SHIPPED | DELIVERED.

Global Instance OrderStatus_eq_dec : EqDecision OrderStatus.
Proof. solve_decision. Defined.

Module OrderItem.

Record t : Type := mk {
  itemId : string;
  itemName : string;
  price : float;
  quantity : Z
}.

End OrderItem.

Module Order.

Record t : Type := mk {
  orderId : string;
  userId : string;
  items : list OrderItem.t;
  orderTime : Z;
  totalAmount : float;
  shippingAddress : string;
  status : OrderStatus;
  statusChangeTime : Z
}.

(** [Order::generateOrderId]. *)
Definition generateOrderId `{Runtime} (userId : string) (timestamp : Z) : string :=
  let combined := (userId ++ "_" ++ Text.to_string timestamp)%string in
  ("ORD" ++ Text.setw 16 "0" (Text.to_string (std_hash combined)))%string.

(** The loop of the creating constructor over the basket: [items] and
    [totalAmount] are the members being built, [h] the heap the
    [shared_ptr]s point into. *)
Fixpoint fill (cartItems : Basket) (h : gmap positive Item.t)
    (items : list OrderItem.t) (totalAmount : float)
  : outcome (list OrderItem.t * float) * gmap positive Item.t :=
  match cartItems with
  | [] => (Return (items, totalAmount), h)
  | (p, quantity) :: rest =>
      match h !! p with
      | None => (NullDeref, h)
      | Some item =>
          if Item.stock item <? quantity then
            (Throw (InsufficientStockException (Item.itemName item) quantity
                      (Item.stock item)), h)
          else
            let orderItem :=
              OrderItem.mk (Item.itemId item) (Item.itemName item)
                (Item.price item) quantity in
            let total' :=
              (totalAmount + Item.price item * CInt.to_double quantity)%float in
            let h' :=
              <[p := Item.setStock (CInt.sub (Item.stock item) quantity) item]> h in
            fill rest h' (items ++ [orderItem]) total'
      end
  end.

(** [Order::Order(userId, cartItems, shippingAddress, itemManager)];
    [now] is what [std::time(nullptr)] returns, [hasManager] whether
    [itemManager] is non-null. *)
Definition create `{Runtime} (userId : string) (cartItems : Basket)
    (shippingAddress : string) (hasManager : bool) (now : Z) (w : ItemWorld)
  : outcome t * ItemWorld :=
  let orderTime := now in
  let statusChangeTime := orderTime in
  let orderId := generateOrderId userId orderTime in
  match fill cartItems (heap w) [] 0%float with
  | (Return (items, totalAmount), h') =>
      let w' := mkItemWorld h' (catalogue w) (itemFile w) in
      (Return (mk orderId userId items orderTime totalAmount shippingAddress
                 PENDING statusChangeTime),
       if hasManager then ItemManager_saveToFile w' else w')
  | (Throw e, h') => (Throw e, mkItemWorld h' (catalogue w) (itemFile w))
  | (NullDeref, h') => (NullDeref, mkItemWorld h' (catalogue w) (itemFile w))
  end.

(** [Order::setStatus]; [now] is the clock reading it takes. *)
Definition setStatus (newStatus : OrderStatus) (now : Z) (o : t) : t :=
  mk (orderId o) (userId o) (items o) (orderTime o) (totalAmount o)
    (shippingAddress o) newStatus now.

Definition getStatusString (o : t) : string :=
  match status o with
  | PENDING => "待发货"
  | SHIPPED => "已发货"
  | DELIVERED => "已签收"
  end.

Definition stringToStatus (statusStr : string) : OrderStatus :=
  if String.eqb statusStr "待发货" || String.eqb statusStr "PENDING" then PENDING
  else if String.eqb statusStr "已发货" || String.eqb statusStr "SHIPPED" then SHIPPED
  else if String.eqb statusStr "已签收" || String.eqb statusStr "DELIVERED" then DELIVERED
  else PENDING.

End Order.

(** ** OrderManager *)

Module OrderManager.

(** [orders] is the vector of the manager; every slot owns its [Order].
    [file] holds the orders written by the last [saveToFile] that could
    open the file (how a row is rendered as text is not modelled),
    [writable] says whether opening it for writing succeeds, and
    [saveCalls] counts the calls of [saveToFile]. *)
Record t : Type := mk {
  orders : list Order.t;
  hasItemManager : bool;
  pendingToShippedSeconds : Z;
  shippedToDeliveredSeconds : Z;
  writable : bool;
  file : list Order.t;
  saveCalls : nat
}.

Definition with_orders (os : list Order.t) (m : t) : t :=
  mk os (hasItemManager m) (pendingToShippedSeconds m)
    (shippedToDeliveredSeconds m) (writable m) (file m) (saveCalls m).

(** [OrderManager::saveToFile]; the result is its [bool]. *)
Definition saveToFile (m : t) : bool * t :=
  if writable m then
    (true, mk (orders m) (hasItemManager m) (pendingToShippedSeconds m)
             (shippedToDeliveredSeconds m) (writable m) (orders m)
             (S (saveCalls m)))
  else
    (false, mk (orders m) (hasItemManager m) (pendingToShippedSeconds m)
              (shippedToDeliveredSeconds m) (writable m) (file m)
              (S (saveCalls m))).

(** [OrderManager::createOrder]: both [catch] clauses report on [cerr]
    and return [nullptr], here [None]. *)
Definition createOrder `{Runtime} (userId : string) (cartItems : Basket)
    (shippingAddress : string) (now : Z) (m : t) (w : ItemWorld)
  : outcome (option Order.t) * t * ItemWorld :=
  match Order.create userId cartItems shippingAddress (hasItemManager m) now w with
  | (Return order, w') =>
      let m1 := with_orders (orders m ++ [order]) m in
      let m2 := snd (saveToFile m1) in
      (Return (Some order), m2, w')
  | (Throw _, w') => (Return None, m, w')
  | (NullDeref, w') => (NullDeref, m, w')
  end.

(** [OrderManager::findOrderById], as the slot of the first match. *)
Fixpoint findIndex (orderId : string) (os : list Order.t) : option nat :=
  match os with
  | [] => None
  | o :: rest =>
      if String.eqb (Order.orderId o) orderId then Some O
      else option_map S (findIndex orderId rest)
  end.

Definition findOrderById (orderId : string) (m : t) : option Order.t :=
  match findIndex orderId (orders m) with
  | Some i => orders m !! i
  | None => None
  end.

(** [OrderManager::updateOrderStatus]. *)
Definition updateOrderStatus (orderId : string) (newStatus : OrderStatus)
    (now : Z) (m : t) : bool * t :=
  match findIndex orderId (orders m) with
  | None => (false, m)
  | Some i =>
      let os := alter (Order.setStatus newStatus now) i (orders m) in
      (true, snd (saveToFile (with_orders os m)))
  end.

(** The body of the [for] loop of [autoUpdateOrderStatus] on one order:
    the order afterwards and whether [needSave] was set. *)
Definition scanOrder (pendingToShipped shippedToDelivered currentTime now : Z)
    (order : Order.t) : Order.t * bool :=
  let timeSinceStatusChange :=
    CInt.time_sub currentTime (Order.statusChangeTime order) in
  if bool_decide (Order.status order = PENDING)
     && (pendingToShipped <=? timeSinceStatusChange) then
    (Order.setStatus SHIPPED now order, true)
  else if bool_decide (Order.status order = SHIPPED)
          && (shippedToDelivered <=? timeSinceStatusChange) then
    (Order.setStatus DELIVERED now order, true)
  else (order, false).

(** The [for] loop: [clock i] is the reading [setStatus] takes when the
    loop is at slot [i]. *)
Fixpoint scanOrders (pendingToShipped shippedToDelivered currentTime : Z)
    (clock : nat -> Z) (i : nat) (os : list Order.t) (needSave : bool)
  : list Order.t * bool :=
  match os with
  | [] => ([], needSave)
  | order :: rest =>
      let '(order', changed) :=
        scanOrder pendingToShipped shippedToDelivered currentTime (clock i) order in
      let '(rest', needSave') :=
        scanOrders pendingToShipped shippedToDelivered currentTime clock (S i)
          rest (changed || needSave) in
      (order' :: rest', needSave')
  end.

(** One turn of the [while] loop of [autoUpdateOrderStatus], after the
    sleep: [currentTime] is the reading taken before the scan. *)
Definition autoUpdateScan (currentTime : Z) (clock : nat -> Z) (m : t) : t :=
  let '(os, needSave) :=
    scanOrders (pendingToShippedSeconds m) (shippedToDeliveredSeconds m)
      currentTime clock O (orders m) false in
  let m' := with_orders os m in
  if needSave then snd (saveToFile m') else m'.

(** [OrderManager::parseOrderItems]. *)
Definition parseOrderItem `{Runtime} (itemStr : string) : option OrderItem.t :=
  let parts := Text.getlines ":"%char itemStr in
  let itemId := nth 0 parts EmptyString in
  let name := nth 1 parts EmptyString in
  let priceStr := nth 2 parts EmptyString in
  let quantityStr := nth 3 parts EmptyString in
  match std_stod priceStr, Text.stoi quantityStr with
  | Some price, Some quantity => Some (OrderItem.mk itemId name price quantity)
  | _, _ => None
  end.

Definition parseOrderItems `{Runtime} (itemsStr : string) : list OrderItem.t :=
  omap (fun itemStr =>
          if String.eqb itemStr EmptyString then None else parseOrderItem itemStr)
       (Text.getlines ";"%char itemsStr).

(** What [loadFromFile] makes of one data line: [None] when the line is
    skipped (empty, fewer than 8 fields, or a number that does not parse). *)
Definition loadLine `{Runtime} (line : string) : option Order.t :=
  if String.eqb line EmptyString then None
  else
    let fields := Text.parseCSVLine line in
    if (8 <=? List.length fields)%nat then
      let field i := nth i fields EmptyString in
      match Text.stoll (field 3%nat), std_stod (field 4%nat), Text.stoll (field 7%nat) with
      | Some orderTime, Some totalAmount, Some statusChangeTime =>
          Some (Order.mk (field 0%nat) (field 1%nat) (parseOrderItems (field 2%nat))
                  orderTime totalAmount (field 5%nat)
                  (Order.stringToStatus (field 6%nat)) statusChangeTime)
      | _, _, _ => None
      end
    else None.

(** [OrderManager::loadFromFile]; [content] is [None] when the file
    cannot be opened, else its lines. *)
Definition loadFromFile `{Runtime} (content : option (list string)) (m : t) : bool * t :=
  match content with
  | None => (true, m)
  | Some lines => (true, with_orders (omap loadLine (tail lines)) m)
  end.

(** [OrderManager::orderItemsToString]. *)
Fixpoint orderItemsToString `{Stream} (items : list OrderItem.t) : string :=
  match items with
  | [] => EmptyString
  | item :: rest =>
      (OrderItem.itemId item ++ ":" ++ OrderItem.itemName item ++ ":"
       ++ show_double (OrderItem.price item) ++ ":"
       ++ Text.to_string (OrderItem.quantity item)
       ++ match rest with
          | [] => orderItemsToString rest
          | _ :: _ => ";" ++ orderItemsToString rest
          end)%string
  end.

Definition header : string :=
  "order_id,user_id,items,order_time,total_amount,shipping_address,status,status_change_time".

(** The row [saveToFile] writes for one order, before [std::endl]. *)
Definition row `{Stream} (order : Order.t) : string :=
  (Order.orderId order ++ ","
   ++ Order.userId order ++ ","
   ++ orderItemsToString (Order.items order) ++ ","
   ++ Text.to_string (Order.orderTime order) ++ ","
   ++ show_double (Order.totalAmount order) ++ ","
   ++ Order.shippingAddress order ++ ","
   ++ Order.getStatusString order ++ ","
   ++ Text.to_string (Order.statusChangeTime order))%string.

(** The text a [saveToFile] that could open the file leaves in it, for
    the orders [os]: the header row, then one row per order. *)
Definition fileText `{Stream} (os : list Order.t) : string :=
  (header ++ String "010" (fold_right (fun order text => row order ++ String "010" text)
                             EmptyString os))%string.

(** The lines [loadFromFile] reads with [std::getline(file, line)]. *)
Definition readLines (text : string) : list string := Text.getlines "010"%char text.

(** [OrderManager::getOrdersByUserId]. *)
Fixpoint ordersOf (userId : string) (os : list Order.t) : list Order.t :=
  match os with
  | [] => []
  | order :: rest =>
      if String.eqb (Order.userId order) userId then order :: ordersOf userId rest
      else ordersOf userId rest
  end.

Definition getOrdersByUserId (userId : string) (m : t) : list Order.t :=
  ordersOf userId (orders m).

End OrderManager.

(** ** Promotion *)

Inductive PromotionType : Type := DISCOUNT | FULL_REDUCTION.

Global Instance PromotionType_eq_dec : EqDecision PromotionType.
Proof. solve_decision. Defined.

Module Promotion.

Record t : Type := mk {
  promotionId : string;
  promotionName : string;
  promotionType : PromotionType;
  isActive : bool;
  startTime : Z;
  endTime : Z;
  targetItemId : string;
  discountRate : float;
  thresholdAmount : float;
  reductionAmount : float
}.

(** [Promotion::isValid]; [now] is its [time(nullptr)]. *)
Definition isValid (now : Z) (p : t) : bool :=
  if negb (isActive p) then false
  else (startTime p <=? now) && (now <=? endTime p).

Definition isApplicableToItem (itemId : string) (p : t) : bool :=
  if negb (bool_decide (promotionType p = DISCOUNT)) then false
  else if String.eqb (targetItemId p) "-1" then true
  else String.eqb (targetItemId p) itemId.

Definition calculateDiscountForItem (originalPrice : float) (p : t) : float :=
  if negb (bool_decide (promotionType p = DISCOUNT)) then originalPrice
  else (originalPrice * discountRate p)%float.

Definition calculateReduction (totalAmount : float) (p : t) : float :=
  if negb (bool_decide (promotionType p = FULL_REDUCTION)) then 0%float
  else if (thresholdAmount p <=? totalAmount)%float then reductionAmount p
  else 0%float.

Definition getDisplayTag (p : t) : string :=
  match promotionType p with
  | DISCOUNT =>
      let discountDisplay := CInt.of_double (discountRate p * 10)%float in
      (Text.to_string discountDisplay ++ "折")%string
  | FULL_REDUCTION =>
      ("满" ++ Text.to_string (CInt.of_double (thresholdAmount p))
       ++ "减" ++ Text.to_string (CInt.of_double (reductionAmount p)))%string
  end.

(** The constructors of a discount and of a full reduction. *)
Definition discount (promotionId promotionName : string) (isActive : bool)
    (startTime endTime : Z) (targetItemId : string) (discountRate : float) : t :=
  mk promotionId promotionName DISCOUNT isActive startTime endTime
    targetItemId discountRate 0 0.

Definition fullReduction (promotionId promotionName : string) (isActive : bool)
    (startTime endTime : Z) (thresholdAmount reductionAmount : float) : t :=
  mk promotionId promotionName FULL_REDUCTION isActive startTime endTime
    EmptyString 1 thresholdAmount reductionAmount.

Definition setPromotionName (name : string) (p : t) : t :=
  mk (promotionId p) name (promotionType p) (isActive p) (startTime p) (endTime p)
    (targetItemId p) (discountRate p) (thresholdAmount p) (reductionAmount p).

Definition setIsActive (active : bool) (p : t) : t :=
  mk (promotionId p) (promotionName p) (promotionType p) active (startTime p) (endTime p)
    (targetItemId p) (discountRate p) (thresholdAmount p) (reductionAmount p).

Definition setStartTime (time : Z) (p : t) : t :=
  mk (promotionId p) (promotionName p) (promotionType p) (isActive p) time (endTime p)
    (targetItemId p) (discountRate p) (thresholdAmount p) (reductionAmount p).

Definition setEndTime (time : Z) (p : t) : t :=
  mk (promotionId p) (promotionName p) (promotionType p) (isActive p) (startTime p) time
    (targetItemId p) (discountRate p) (thresholdAmount p) (reductionAmount p).

Definition setTargetItemId (id : string) (p : t) : t :=
  mk (promotionId p) (promotionName p) (promotionType p) (isActive p) (startTime p)
    (endTime p) id (discountRate p) (thresholdAmount p) (reductionAmount p).

Definition setDiscountRate (rate : float) (p : t) : t :=
  mk (promotionId p) (promotionName p) (promotionType p) (isActive p) (startTime p)
    (endTime p) (targetItemId p) rate (thresholdAmount p) (reductionAmount p).

Definition setThresholdAmount (amount : float) (p : t) : t :=
  mk (promotionId p) (promotionName p) (promotionType p) (isActive p) (startTime p)
    (endTime p) (targetItemId p) (discountRate p) amount (reductionAmount p).

Definition setReductionAmount (amount : float) (p : t) : t :=
  mk (promotionId p) (promotionName p) (promotionType p) (isActive p) (startTime p)
    (endTime p) (targetItemId p) (discountRate p) (thresholdAmount p) amount.

End Promotion.

(** ** PromotionManager *)

Record PromotionResult : Type := mkPromotionResult {
  originalTotal : float;
  afterDiscountTotal : float;
  finalTotal : float;
  totalSavings : float;
  appliedPromotions : list string;
  itemDiscounts : list (string * float);
  totalReduction : float
}.

Module PromotionManager.

(** The manager's [promotions] vector, in storage order. *)
Definition t : Type := list Promotion.t.

(** The test of the [for] loop of [getActiveDiscountForItem]. *)
Definition isCandidate (now : Z) (itemId : string) (p : Promotion.t) : bool :=
  bool_decide (Promotion.promotionType p = DISCOUNT)
  && Promotion.isValid now p
  && Promotion.isApplicableToItem itemId p.

Fixpoint bestDiscountFrom (now : Z) (itemId : string) (ps : t)
    (bestDiscount : option Promotion.t) (bestRate : float) : option Promotion.t :=
  match ps with
  | [] => bestDiscount
  | p :: rest =>
      if isCandidate now itemId p then
        if (Promotion.discountRate p <? bestRate)%float then
          bestDiscountFrom now itemId rest (Some p) (Promotion.discountRate p)
        else bestDiscountFrom now itemId rest bestDiscount bestRate
      else bestDiscountFrom now itemId rest bestDiscount bestRate
  end.

(** [PromotionManager::getActiveDiscountForItem]; [None] is [nullptr]. *)
Definition getActiveDiscountForItem (now : Z) (itemId : string) (ps : t)
  : option Promotion.t :=
  bestDiscountFrom now itemId ps None 1%float.

Definition isActiveFullReduction (now : Z) (p : Promotion.t) : bool :=
  bool_decide (Promotion.promotionType p = FULL_REDUCTION)
  && Promotion.isValid now p.

(** [PromotionManager::getActiveFullReductions]. *)
Definition getActiveFullReductions `{Runtime} (now : Z) (ps : t) : list Promotion.t :=
  std_sort
    (fun a b => (Promotion.thresholdAmount a <? Promotion.thresholdAmount b)%float)
    (List.filter (isActiveFullReduction now) ps).

(** First step of [calculatePromotionResult]: the loop over the basket
    lines, here the items already dereferenced. *)
Fixpoint applyDiscounts (now : Z) (ps : t) (items : list (Item.t * Z))
    (result : PromotionResult) : PromotionResult :=
  match items with
  | [] => result
  | (item, quantity) :: rest =>
      let itemOriginalPrice := (Item.price item * CInt.to_double quantity)%float in
      let original' := (originalTotal result + itemOriginalPrice)%float in
      match getActiveDiscountForItem now (Item.itemId item) ps with
      | Some discount =>
          let discountedPrice :=
            (Promotion.calculateDiscountForItem (Item.price item) discount
             * CInt.to_double quantity)%float in
          let savingsForItem := (itemOriginalPrice - discountedPrice)%float in
          applyDiscounts now ps rest
            (mkPromotionResult original'
               (afterDiscountTotal result + discountedPrice)%float
               (finalTotal result) (totalSavings result)
               (appliedPromotions result
                ++ [(Item.itemName item ++ " " ++ Promotion.getDisplayTag discount)%string])
               (itemDiscounts result ++ [(Item.itemName item, savingsForItem)])
               (totalReduction result))
      | None =>
          applyDiscounts now ps rest
            (mkPromotionResult original'
               (afterDiscountTotal result + itemOriginalPrice)%float
               (finalTotal result) (totalSavings result)
               (appliedPromotions result) (itemDiscounts result)
               (totalReduction result))
      end
  end.

(** Second step: the loop over the active full reductions. *)
Fixpoint applyReductions (fullReductions : list Promotion.t)
    (result : PromotionResult) : PromotionResult :=
  match fullReductions with
  | [] => result
  | reduction :: rest =>
      let reductionAmount :=
        Promotion.calculateReduction (afterDiscountTotal result) reduction in
      if (0 <? reductionAmount)%float then
        applyReductions rest
          (mkPromotionResult (originalTotal result) (afterDiscountTotal result)
             (finalTotal result) (totalSavings result)
             (appliedPromotions result ++ [Promotion.getDisplayTag reduction])
             (itemDiscounts result)
             (totalReduction result + reductionAmount)%float)
      else applyReductions rest result
  end.

(** [PromotionManager::calculatePromotionResult].  [finalTotal] and
    [totalSavings] are unset until the end; the placeholder written here
    is never read. *)
Definition calculatePromotionResult `{Runtime} (now : Z) (ps : t)
    (items : list (Item.t * Z)) : PromotionResult :=
  let result0 := mkPromotionResult 0%float 0%float 0%float 0%float [] [] 0%float in
  let result1 := applyDiscounts now ps items result0 in
  let result2 := applyReductions (getActiveFullReductions now ps) result1 in
  let final := (afterDiscountTotal result2 - totalReduction result2)%float in
  mkPromotionResult (originalTotal result2) (afterDiscountTotal result2)
    final (originalTotal result2 - final)%float
    (appliedPromotions result2) (itemDiscounts result2) (totalReduction result2).

(** The loop of [generatePromotionId]. *)
Fixpoint maxSuffix (ps : t) (maxNum : Z) : Z :=
  match ps with
  | [] => maxNum
  | p :: rest =>
      let id := Promotion.promotionId p in
      if (8 <=? String.length id)%nat && String.eqb (Text.take 5 id) "PROMO" then
        match Text.stoi (Text.drop 5 id) with
        | Some num => if maxNum <? num then maxSuffix rest num else maxSuffix rest maxNum
        | None => maxSuffix rest maxNum
        end
      else maxSuffix rest maxNum
  end.

(** [PromotionManager::generatePromotionId]. *)
Definition generatePromotionId (ps : t) : string :=
  let maxNum := maxSuffix ps 0 in
  ("PROMO" ++ Text.setw 3 "0" (Text.to_string (CInt.add maxNum 1)))%string.

(** *** The promotions file and the edits of the catalogue

    The file is what the manager's [filePath] names: whether it can be
    opened for writing, and its text.  A [shared_ptr<Promotion>] of the
    vector is owned by its slot, so an edit through the pointer that
    [findPromotionById] returns is an edit of the slot it was found in. *)

Record File : Type := mkFile {
  opens : bool;
  text : string
}.

Definition header : string :=
  "promotion_id,promotion_name,promotion_type,is_active,start_time,end_time,target_item_id,discount_rate,threshold_amount,reduction_amount".

Definition timeToString (time : Z) : string := Text.to_string time.

Definition stringToTime (str : string) : Z :=
  if String.eqb str EmptyString then 0
  else match Text.stoll str with
       | Some time => time
       | None => 0
       end.

(** What [saveToFile] writes for one promotion, before the line end. *)
Definition row `{Stream} (promotion : Promotion.t) : string :=
  (Promotion.promotionId promotion ++ ","
   ++ Promotion.promotionName promotion ++ ","
   ++ (if bool_decide (Promotion.promotionType promotion = DISCOUNT)
       then "DISCOUNT," else "FULL_REDUCTION,")
   ++ (if Promotion.isActive promotion then "1" else "0") ++ ","
   ++ timeToString (Promotion.startTime promotion) ++ ","
   ++ timeToString (Promotion.endTime promotion) ++ ","
   ++ (if bool_decide (Promotion.promotionType promotion = DISCOUNT)
       then Promotion.targetItemId promotion ++ ","
            ++ show_double (Promotion.discountRate promotion) ++ "_,_,"
       else ",_,_" ++ show_double (Promotion.thresholdAmount promotion) ++ ","
            ++ show_double (Promotion.reductionAmount promotion)))%string.

Definition fileText `{Stream} (ps : t) : string :=
  (header ++ String "010" (fold_right (fun promotion text =>
                                         row promotion ++ String "010" text)
                             EmptyString ps))%string.

(** [PromotionManager::saveToFile]. *)
Definition saveToFile `{Stream} (ps : t) (f : File) : bool * File :=
  if opens f then (true, mkFile true (fileText ps)) else (false, f).

(** The end of every edit: [return saveToFile();] with the catalogue as
    the edit left it. *)
Definition saving `{Stream} (ps : t) (f : File) : bool * t * File :=
  let '(saved, f') := saveToFile ps f in (saved, ps, f').

(** The [for] loop of [findPromotionById]: the first promotion with the
    id, and the slot it is in. *)
Fixpoint find (promotionId : string) (ps : t) : option (nat * Promotion.t) :=
  match ps with
  | [] => None
  | p :: rest =>
      if String.eqb (Promotion.promotionId p) promotionId then Some (O, p)
      else option_map (fun r => (S (fst r), snd r)) (find promotionId rest)
  end.

(** [PromotionManager::findPromotionById]; [None] is [nullptr]. *)
Definition findPromotionById (promotionId : string) (ps : t) : option Promotion.t :=
  option_map snd (find promotionId ps).

(** [PromotionManager::addPromotion]; a null [promotion] is [None]. *)
Definition addPromotion `{Stream} (promotion : option Promotion.t) (ps : t) (f : File)
  : bool * t * File :=
  match promotion with
  | None => (false, ps, f)
  | Some promotion =>
      if existsb (fun p => String.eqb (Promotion.promotionId p)
                             (Promotion.promotionId promotion)) ps
      then (false, ps, f)
      else saving (ps ++ [promotion]) f
  end.

(** [PromotionManager::deletePromotion]: [std::remove_if] keeps the
    others in order, and returns [end()] exactly when all are kept. *)
Definition deletePromotion `{Stream} (promotionId : string) (ps : t) (f : File)
  : bool * t * File :=
  let kept :=
    List.filter (fun p => negb (String.eqb (Promotion.promotionId p) promotionId)) ps in
  if (List.length kept =? List.length ps)%nat then (false, ps, f)
  else saving kept f.

(** [PromotionManager::updatePromotion]. *)
Definition updatePromotion `{Stream} (promotion : option Promotion.t) (ps : t) (f : File)
  : bool * t * File :=
  match promotion with
  | None => (false, ps, f)
  | Some promotion =>
      match find (Promotion.promotionId promotion) ps with
      | Some (i, _) => saving (<[i := promotion]> ps) f
      | None => (false, ps, f)
      end
  end.

Definition updatePromotionName `{Stream} (promotionId newName : string) (ps : t) (f : File)
  : bool * t * File :=
  match find promotionId ps with
  | None => (false, ps, f)
  | Some (i, _) => saving (alter (Promotion.setPromotionName newName) i ps) f
  end.

Definition updatePromotionTime `{Stream} (promotionId : string)
    (newStartTime newEndTime : Z) (ps : t) (f : File) : bool * t * File :=
  match find promotionId ps with
  | None => (false, ps, f)
  | Some (i, _) =>
      if newEndTime <=? newStartTime then (false, ps, f)
      else
        saving (alter (fun p => Promotion.setEndTime newEndTime
                                  (Promotion.setStartTime newStartTime p)) i ps) f
  end.

Definition updateDiscountRate `{Stream} (promotionId : string) (newRate : float)
    (ps : t) (f : File) : bool * t * File :=
  match find promotionId ps with
  | Some (i, promotion) =>
      if negb (bool_decide (Promotion.promotionType promotion = DISCOUNT))
      then (false, ps, f)
      else if (newRate <=? 0)%float || (1 <=? newRate)%float then (false, ps, f)
      else saving (alter (Promotion.setDiscountRate newRate) i ps) f
  | None => (false, ps, f)
  end.

Definition updateDiscountTargetItem `{Stream} (promotionId newItemId : string)
    (ps : t) (f : File) : bool * t * File :=
  match find promotionId ps with
  | Some (i, promotion) =>
      if negb (bool_decide (Promotion.promotionType promotion = DISCOUNT))
      then (false, ps, f)
      else saving (alter (Promotion.setTargetItemId newItemId) i ps) f
  | None => (false, ps, f)
  end.

Definition updateFullReductionThreshold `{Stream} (promotionId : string)
    (newThreshold : float) (ps : t) (f : File) : bool * t * File :=
  match find promotionId ps with
  | Some (i, promotion) =>
      if negb (bool_decide (Promotion.promotionType promotion = FULL_REDUCTION))
      then (false, ps, f)
      else if (newThreshold <=? 0)%float then (false, ps, f)
      else if (newThreshold <=? Promotion.reductionAmount promotion)%float
      then (false, ps, f)
      else saving (alter (Promotion.setThresholdAmount newThreshold) i ps) f
  | None => (false, ps, f)
  end.

Definition updateFullReductionAmount `{Stream} (promotionId : string)
    (newReduction : float) (ps : t) (f : File) : bool * t * File :=
  match find promotionId ps with
  | Some (i, promotion) =>
      if negb (bool_decide (Promotion.promotionType promotion = FULL_REDUCTION))
      then (false, ps, f)
      else if (newReduction <=? 0)%float then (false, ps, f)
      else if (Promotion.thresholdAmount promotion <=? newReduction)%float
      then (false, ps, f)
      else saving (alter (Promotion.setReductionAmount newReduction) i ps) f
  | None => (false, ps, f)
  end.

Definition setPromotionActive `{Stream} (promotionId : string) (isActive : bool)
    (ps : t) (f : File) : bool * t * File :=
  match find promotionId ps with
  | None => (false, ps, f)
  | Some (i, _) => saving (alter (Promotion.setIsActive isActive) i ps) f
  end.

(** *** Loading the promotions file *)

(** [field.empty() ? fallback : std::stod(field)]; the exception of
    [std::stod] is not caught by [loadFromFile]. *)
Definition amountOr `{Runtime} (fallback : float) (field : string) : outcome float :=
  if String.eqb field EmptyString then Return fallback
  else match std_stod field with
       | Some amount => Return amount
       | None => Throw (std_exception "stod")
       end.

(** The body of the [while] loop of [loadFromFile] on one line: the
    promotion it pushes, if any. *)
Definition loadLine `{Runtime} (line : string) : outcome (option Promotion.t) :=
  if String.eqb line EmptyString
     || match line with
        | String c _ => Ascii.eqb c "#"
        | EmptyString => false
        end
  then Return None
  else
    let fields := Text.parseCSVLine line in
    if (List.length fields <? 10)%nat then Return None
    else
      let field i := nth i fields EmptyString in
      let promotionId := field 0%nat in
      let promotionName := field 1%nat in
      let typeStr := field 2%nat in
      let isActive := String.eqb (field 3%nat) "1" || String.eqb (field 3%nat) "true" in
      let startTime := stringToTime (field 4%nat) in
      let endTime := stringToTime (field 5%nat) in
      if String.eqb typeStr "DISCOUNT" then
        bind (amountOr 1 (field 7%nat)) (fun discountRate =>
          Return (Some (Promotion.discount promotionId promotionName isActive
                          startTime endTime (field 6%nat) discountRate)))
      else if String.eqb typeStr "FULL_REDUCTION" then
        bind (amountOr 0 (field 8%nat)) (fun thresholdAmount =>
          bind (amountOr 0 (field 9%nat)) (fun reductionAmount =>
            Return (Some (Promotion.fullReduction promotionId promotionName isActive
                            startTime endTime thresholdAmount reductionAmount))))
      else Return None.

(** The [while] loop over the lines after the header; [promotions] is
    the vector being filled.  A throw leaves it as far as it got. *)
Fixpoint loadLines `{Runtime} (lines : list string) (promotions : t) : outcome bool * t :=
  match lines with
  | [] => (Return true, promotions)
  | line :: rest =>
      match loadLine line with
      | Return (Some promotion) => loadLines rest (promotions ++ [promotion])
      | Return None => loadLines rest promotions
      | Throw e => (Throw e, promotions)
      | NullDeref => (NullDeref, promotions)
      end
  end.

(** [PromotionManager::loadFromFile]; [content] is [None] when the file
    cannot be opened, else its text. *)
Definition loadFromFile `{Runtime} (content : option string) (ps : t) : outcome bool * t :=
  match content with
  | None => (Return false, ps)
  | Some text => loadLines (tail (Text.getlines "010"%char text)) []
  end.

End PromotionManager.

(** ** ShoppingCart *)

Module ShoppingCart.

(** [cartItems]: lines of an item pointer and a quantity.  A pointer that
    addresses no item of the heap is a null pointer. *)
Definition t : Type := Basket.

(** [ShoppingCart::findItemById]: [std::find_if] from the first line,
    dereferencing every line it tests; [None] is [cartItems.end()]. *)
Fixpoint findItemById (h : gmap positive Item.t) (itemId : string) (cartItems : t)
  : outcome (option nat) :=
  match cartItems with
  | [] => Return None
  | (p, _) :: rest =>
      match h !! p with
      | None => NullDeref
      | Some item =>
          if String.eqb (Item.itemId item) itemId then Return (Some O)
          else bind (findItemById h itemId rest) (fun it => Return (option_map S it))
      end
  end.

(** The answer read from [std::cin] counts as yes when it is y or Y. *)
Definition yes (choice : ascii) : bool := Ascii.eqb choice "y" || Ascii.eqb choice "Y".

Definition setQuantity (quantity : Z) (line : positive * Z) : positive * Z :=
  (fst line, quantity).

(** [ShoppingCart::addItem]; [choice] is the character the user types
    when asked whether to raise the quantity of a line already there. *)
Definition addItem (h : gmap positive Item.t) (item : positive) (quantity : Z)
    (choice : ascii) (cartItems : t) : outcome (bool * t) :=
  match h !! item with
  | None => Return (false, cartItems)
  | Some i =>
      if quantity <=? 0 then Return (false, cartItems)
      else if Item.stock i <? quantity then Return (false, cartItems)
      else
        bind (findItemById h (Item.itemId i) cartItems) (fun it =>
          match it with
          | Some k =>
              if yes choice then
                let newQuantity := CInt.add (snd (nth k cartItems (item, 0))) quantity in
                if Item.stock i <? newQuantity then Return (false, cartItems)
                else Return (true, alter (setQuantity newQuantity) k cartItems)
              else Return (false, cartItems)
          | None => Return (true, cartItems ++ [(item, quantity)])
          end)
  end.

(** [ShoppingCart::removeItem]. *)
Definition removeItem (h : gmap positive Item.t) (itemId : string) (cartItems : t)
  : outcome (bool * t) :=
  bind (findItemById h itemId cartItems) (fun it =>
    match it with
    | Some k => Return (true, delete k cartItems)
    | None => Return (false, cartItems)
    end).

(** [ShoppingCart::removeMultipleItems]: the count and the cart left. *)
Fixpoint removeMultipleItems (h : gmap positive Item.t) (itemIds : list string)
    (successCount : Z) (cartItems : t) : outcome (Z * t) :=
  match itemIds with
  | [] => Return (successCount, cartItems)
  | itemId :: rest =>
      bind (removeItem h itemId cartItems) (fun r =>
        removeMultipleItems h rest
          (if fst r then CInt.add successCount 1 else successCount) (snd r))
  end.

(** [ShoppingCart::updateItemQuantity]; [choice] is the answer to the
    question asked when the new quantity is 0. *)
Definition updateItemQuantity (h : gmap positive Item.t) (itemId : string)
    (newQuantity : Z) (choice : ascii) (cartItems : t) : outcome (bool * t) :=
  bind (findItemById h itemId cartItems) (fun it =>
    match it with
    | None => Return (false, cartItems)
    | Some k =>
        if newQuantity =? 0 then
          if yes choice then Return (true, delete k cartItems)
          else Return (false, cartItems)
        else if newQuantity <? 0 then Return (false, cartItems)
        else if stockOf h (fst (nth k cartItems (1%positive, 0))) <? newQuantity
        then Return (false, cartItems)
        else Return (true, alter (setQuantity newQuantity) k cartItems)
    end).

(** [ShoppingCart::getTotalItemCount]. *)
Definition getTotalItemCount (cartItems : t) : Z :=
  fold_left (fun totalCount line => CInt.add totalCount (snd line)) cartItems 0.

(** [ShoppingCart::getTotalPrice]: the loop from the running total. *)
Fixpoint totalPriceFrom (h : gmap positive Item.t) (cartItems : t) (totalPrice : float)
  : outcome float :=
  match cartItems with
  | [] => Return totalPrice
  | (p, quantity) :: rest =>
      match h !! p with
      | None => NullDeref
      | Some item =>
          totalPriceFrom h rest
            (totalPrice + Item.price item * CInt.to_double quantity)%float
      end
  end.

Definition getTotalPrice (h : gmap positive Item.t) (cartItems : t) : outcome float :=
  totalPriceFrom h cartItems 0%float.

Definition clear (cartItems : t) : t := [].

(** [ShoppingCart::addItemDirect]: no test for a line already there. *)
Definition addItemDirect (h : gmap positive Item.t) (item : positive) (quantity : Z)
    (cartItems : t) : t :=
  if bool_decide (is_Some (h !! item)) && (0 <? quantity)
  then cartItems ++ [(item, quantity)]
  else cartItems.

End ShoppingCart.

(** ** ShoppingCartManager *)

Module ShoppingCartManager.

Definition quote : ascii := "034"%char.

(** [ShoppingCartManager::parseArrayString]. *)
Definition parseArrayString (arrayStr : string) : list Z :=
  let str := Text.trim arrayStr in
  let str :=
    if bool_decide (Text.front str = Some quote) then Text.drop 1 str else str in
  let str :=
    if bool_decide (Text.back str = Some quote)
    then Text.take (String.length str - 1) str else str in
  if String.eqb str EmptyString
     || negb (bool_decide (Text.front str = Some "["%char))
     || negb (bool_decide (Text.back str = Some "]"%char))
  then []
  else
    let str := Text.take (String.length str - 2) (Text.drop 1 str) in
    if String.eqb (Text.trim str) EmptyString then []
    else
      omap (fun item =>
              let item := Text.trim item in
              if String.eqb item EmptyString then None else Text.stoi item)
        (Text.getlines ","%char str).

(** The [for] loop of [vectorToArrayString]. *)
Fixpoint commaSeparated (vec : list Z) : string :=
  match vec with
  | [] => EmptyString
  | x :: rest =>
      (Text.to_string x
       ++ match rest with
          | [] => commaSeparated rest
          | _ :: _ => "," ++ commaSeparated rest
          end)%string
  end.

(** [ShoppingCartManager::vectorToArrayString]. *)
Definition vectorToArrayString (vec : list Z) : string :=
  match vec with
  | [] => "[]"%string
  | _ :: _ => ("[" ++ commaSeparated vec ++ "]")%string
  end.

(** The two vectors [saveToFile] builds from the lines of a cart;
    [std::stoi] on an item id that is no number throws, and nothing in
    [saveToFile] catches it. *)
Fixpoint vectorsOf (h : gmap positive Item.t) (items : Basket)
    (itemIds quantities : list Z) : outcome (list Z * list Z) :=
  match items with
  | [] => Return (itemIds, quantities)
  | (p, quantity) :: rest =>
      match h !! p with
      | None => NullDeref
      | Some item =>
          match Text.stoi (Item.itemId item) with
          | None => Throw (std_exception "stoi")
          | Some id => vectorsOf h rest (itemIds ++ [id]) (quantities ++ [quantity])
          end
      end
  end.

(** The row [saveToFile] writes for the cart of one user, before
    [std::endl]. *)
Definition row (h : gmap positive Item.t) (username : string) (items : Basket)
  : outcome string :=
  match items with
  | [] =>
      Return (username ++ String "," (String quote ("[]" ++ String quote
                (String "," (String quote ("[]" ++ String quote EmptyString))))))%string
  | _ :: _ =>
      bind (vectorsOf h items [] []) (fun vs =>
        Return (username ++ String "," (String quote (vectorToArrayString (fst vs)
                  ++ String quote (String "," (String quote
                       (vectorToArrayString (snd vs)
                        ++ String quote EmptyString))))))%string)
  end.

(** The [for] loop of [loadFromFile] that fills the cart of one row. *)
Fixpoint fillCart (w : ItemWorld) (lines : list (Z * Z)) (cart : Basket)
  : outcome Basket :=
  match lines with
  | [] => Return cart
  | (id, quantity) :: rest =>
      bind (ItemManager_findItemById w (Text.to_string id)) (fun item =>
        match item with
        | Some p => fillCart w rest (ShoppingCart.addItemDirect (heap w) p quantity cart)
        | None => fillCart w rest cart
        end)
  end.

(** What the body of the [while] loop of [loadFromFile] does with a line
    that is not empty and not the header: it goes on to the next line,
    stops with [return false], or stores a cart under a user name. *)
Inductive step : Type :=
  | Skip
  | Stop
  | Store (username : string) (cart : Basket).

Definition loadLine (itemManager : option ItemWorld) (line : string) : outcome step :=
  match Text.getlineFrom "," line with
  | None => Return Skip
  | Some (username, afterName) =>
      let username := Text.trim username in
      match Text.getlineFrom "," afterName with
      | None => Return Skip
      | Some (itemIdsStr, quantitiesStr) =>
          let itemIds := parseArrayString itemIdsStr in
          let quantities := parseArrayString quantitiesStr in
          if negb (List.length itemIds =? List.length quantities)%nat then Return Skip
          else
            match itemManager with
            | None => Return Stop
            | Some w =>
                bind (fillCart w (combine itemIds quantities) [])
                  (fun cart => Return (Store username cart))
            end
      end
  end.

(** The [while] loop of [loadFromFile] over the lines of the file;
    [carts] is the map being filled. *)
Fixpoint loadLines (itemManager : option ItemWorld) (lines : list string)
    (isFirstLine : bool) (carts : gmap string Basket)
  : outcome bool * gmap string Basket :=
  match lines with
  | [] => (Return true, carts)
  | line :: rest =>
      if String.eqb line EmptyString then loadLines itemManager rest isFirstLine carts
      else if isFirstLine then loadLines itemManager rest false carts
      else
        match loadLine itemManager line with
        | Return Skip => loadLines itemManager rest false carts
        | Return Stop => (Return false, carts)
        | Return (Store username cart) =>
            loadLines itemManager rest false (<[username := cart]> carts)
        | Throw e => (Throw e, carts)
        | NullDeref => (NullDeref, carts)
        end
  end.

(** [ShoppingCartManager::loadFromFile]; [content] is [None] when the
    file cannot be opened, else its lines. *)
Definition loadFromFile (itemManager : option ItemWorld) (content : option (list string))
    (carts : gmap string Basket) : outcome bool * gmap string Basket :=
  match content with
  | None => (Return true, carts)
  | Some lines => loadLines itemManager lines true ∅
  end.

End ShoppingCartManager.

(** ** CustomerReportService *)

Module CategoryStatistics.

Record t : Type := mk {
  category : string;
  totalAmount : float;
  purchaseFrequency : Z
}.

End CategoryStatistics.

Module ItemStatistics.

Record t : Type := mk {
  itemId : string;
  itemName : string;
  category : string;
  totalAmount : float;
  purchaseQuantity : Z;
  purchaseFrequency : Z
}.

End ItemStatistics.

Module CustomerReportService.

(** [getCustomerOrders]. *)
Definition getCustomerOrders (username : string) (orderManager : OrderManager.t)
  : list Order.t :=
  OrderManager.getOrdersByUserId username orderManager.

Definition unknownCategory : string := "未知类别".

(** The category [analyzeOrders] finds for an order line; [itemManager]
    is [None] when the pointer is null. *)
Definition categoryOf (itemManager : option ItemWorld) (itemId : string)
  : outcome string :=
  match itemManager with
  | None => Return unknownCategory
  | Some w =>
      bind (ItemManager_findItemById w itemId) (fun item =>
        match item with
        | Some p =>
            match heap w !! p with
            | Some i => Return (Item.category i)
            | None => NullDeref
            end
        | None => Return unknownCategory
        end)
  end.

(** The two maps the analysis fills, and the two sets it keeps while it
    is in one order. *)
Record Scan : Type := mkScan {
  categoryStats : gmap string CategoryStatistics.t;
  itemStats : gmap string ItemStatistics.t;
  categoriesInOrder : gset string;
  itemsInOrder : gset string
}.

Definition bumpItem (s : ItemStatistics.t) : ItemStatistics.t :=
  ItemStatistics.mk (ItemStatistics.itemId s) (ItemStatistics.itemName s)
    (ItemStatistics.category s) (ItemStatistics.totalAmount s)
    (ItemStatistics.purchaseQuantity s)
    (CInt.add (ItemStatistics.purchaseFrequency s) 1).

Definition bumpCategory (s : CategoryStatistics.t) : CategoryStatistics.t :=
  CategoryStatistics.mk (CategoryStatistics.category s)
    (CategoryStatistics.totalAmount s)
    (CInt.add (CategoryStatistics.purchaseFrequency s) 1).

(** The body of the inner loop of [analyzeOrders], on one order line. *)
Definition countLine (itemManager : option ItemWorld) (orderItem : OrderItem.t)
    (s : Scan) : outcome Scan :=
  let itemId := OrderItem.itemId orderItem in
  let itemName := OrderItem.itemName orderItem in
  bind (categoryOf itemManager itemId) (fun category =>
    let itemTotalPrice :=
      (OrderItem.price orderItem * CInt.to_double (OrderItem.quantity orderItem))%float in
    let itemStats1 :=
      match itemStats s !! itemId with
      | None =>
          <[itemId := ItemStatistics.mk itemId itemName category itemTotalPrice
                        (OrderItem.quantity orderItem) 0]> (itemStats s)
      | Some st =>
          <[itemId := ItemStatistics.mk (ItemStatistics.itemId st)
                        (ItemStatistics.itemName st) (ItemStatistics.category st)
                        (ItemStatistics.totalAmount st + itemTotalPrice)%float
                        (CInt.add (ItemStatistics.purchaseQuantity st)
                           (OrderItem.quantity orderItem))
                        (ItemStatistics.purchaseFrequency st)]> (itemStats s)
      end in
    let itemStats2 :=
      if bool_decide (itemId ∈ itemsInOrder s) then itemStats1
      else alter bumpItem itemId itemStats1 in
    let itemsInOrder2 :=
      if bool_decide (itemId ∈ itemsInOrder s) then itemsInOrder s
      else {[itemId]} ∪ itemsInOrder s in
    let categoryStats1 :=
      match categoryStats s !! category with
      | None =>
          <[category := CategoryStatistics.mk category itemTotalPrice 0]> (categoryStats s)
      | Some st =>
          <[category := CategoryStatistics.mk (CategoryStatistics.category st)
                          (CategoryStatistics.totalAmount st + itemTotalPrice)%float
                          (CategoryStatistics.purchaseFrequency st)]> (categoryStats s)
      end in
    let categoryStats2 :=
      if bool_decide (category ∈ categoriesInOrder s) then categoryStats1
      else alter bumpCategory category categoryStats1 in
    let categoriesInOrder2 :=
      if bool_decide (category ∈ categoriesInOrder s) then categoriesInOrder s
      else {[category]} ∪ categoriesInOrder s in
    Return (mkScan categoryStats2 itemStats2 categoriesInOrder2 itemsInOrder2)).

Fixpoint countLines (itemManager : option ItemWorld) (orderItems : list OrderItem.t)
    (s : Scan) : outcome Scan :=
  match orderItems with
  | [] => Return s
  | orderItem :: rest =>
      bind (countLine itemManager orderItem s) (countLines itemManager rest)
  end.

(** [CustomerReportService::analyzeOrders]: the maps passed by reference
    go in and come out. *)
Fixpoint analyzeOrders (itemManager : option ItemWorld) (orders : list Order.t)
    (categoryStats : gmap string CategoryStatistics.t)
    (itemStats : gmap string ItemStatistics.t)
  : outcome (gmap string CategoryStatistics.t * gmap string ItemStatistics.t) :=
  match orders with
  | [] => Return (categoryStats, itemStats)
  | order :: rest =>
      bind (countLines itemManager (Order.items order)
              (mkScan categoryStats itemStats ∅ ∅))
        (fun s => analyzeOrders itemManager rest
                    (CustomerReportService.categoryStats s)
                    (CustomerReportService.itemStats s))
  end.

End CustomerReportService.

(** ** A platform to run the embedding on

    Insertion sort stands for [std::sort]; the hash and the decimal parser
    are the simplest functions of the right type.  Only the concrete runs
    below use it; every general statement is over any [Runtime]. *)

Module Demo.

Fixpoint insert {A : Type} (lt : A -> A -> bool) (x : A) (l : list A) : list A :=
  match l with
  | [] => [x]
  | y :: r => if lt x y then x :: l else y :: insert lt x r
  end.

Definition isort {A : Type} (lt : A -> A -> bool) (l : list A) : list A :=
  fold_right (insert lt) [] l.

Definition hash (s : string) : Z := Z.of_nat (String.length s).

Definition stod (s : string) : option float :=
  option_map CInt.to_double (Text.stoi s).

(** The integer part, printed in decimal, stands for the printing of a
    [double]. *)
Definition show (f : float) : string := Text.to_string (CInt.of_double f).

End Demo.

(** ** The routines of OrderManager as threads

    The statements of the routines that touch [orders] or the order file,
    in program order, with the scope of every [std::lock_guard] on
    [ordersMutex] made explicit, and an interleaving semantics over them. *)

Module Threads.

#[warnings="-register-all"]
Inductive instr : Type :=
  | Lock                             (* std::lock_guard<std::mutex> lock(ordersMutex) *)
  | Unlock                           (* the guard goes out of scope *)
  | PushBack (order : Order.t)       (* orders.push_back(order) *)
  | Find (orderId : string)          (* std::find_if over orders *)
  | Collect (userId : string)        (* the for loop of getOrdersByUserId *)
  | ReturnIfNotFound                 (* if (order == nullptr) return false *)
  | SetStatus (newStatus : OrderStatus) (now : Z)   (* order->setStatus(newStatus) *)
  | ReadFound                        (* order->getStatusString(), order->displayOrderInfo() *)
  | ReadCollected                    (* the caller's loop over the orders it was given *)
  | ScanAll (currentTime : Z) (clock : nat -> Z)    (* the for loop of the scheduler *)
  | IfNeedSave (body : list instr)   (* if (needSave) { body } *)
  | Snapshot                         (* the for loop of displayAllOrders *)
  | OpenFile                         (* std::ofstream file(filePath) *)
  | WriteHeader
  | WriteOrders                      (* the for loop of saveToFile *)
  | CloseFile.

(** [saveToFile], when the file opens.  The guard is declared after the
    header is written and lives to the end of the function, so it is
    released after [file.close()]. *)
Definition saveToFile : list instr :=
  [OpenFile; WriteHeader; Lock; WriteOrders; CloseFile; Unlock].

(** [createOrder] from the point where the [Order] is constructed. *)
Definition createOrder (order : Order.t) : list instr :=
  [Lock; PushBack order; Unlock] ++ saveToFile.

(** [updateOrderStatus]: [findOrderById], then the status, then the
    file, then the status once more for the message. *)
Definition updateOrderStatus (orderId : string) (newStatus : OrderStatus) (now : Z)
  : list instr :=
  [Lock; Find orderId; Unlock; ReturnIfNotFound; SetStatus newStatus now]
  ++ saveToFile ++ [ReadFound].

(** One turn of [autoUpdateOrderStatus]. *)
Definition autoUpdateTurn (currentTime : Z) (clock : nat -> Z) : list instr :=
  [Lock; ScanAll currentTime clock; Unlock; IfNeedSave saveToFile].

(** [displayAllOrders] and [displayUserOrders]: the guard is taken
    first and lives to the end, so the whole loop is inside. *)
Definition reader : list instr := [Lock; Snapshot; Unlock].

(** The menus that ask for an order id: [findOrderById], whose guard
    ends when it returns, then [getStatusString] or [displayOrderInfo]
    on the order it returned. *)
Definition lookup (orderId : string) : list instr :=
  [Lock; Find orderId; Unlock; ReturnIfNotFound; ReadFound].

(** The purchase report: [getOrdersByUserId], whose guard ends when it
    returns, then the analysis of the orders it returned. *)
Definition listing (userId : string) : list instr :=
  [Lock; Collect userId; Unlock; ReadCollected].

(** Whether a statement goes through the [orders] vector: appends to it
    or loops over it. *)
Definition usesVector (i : instr) : bool :=
  match i with
  | PushBack _ | Find _ | Collect _ | ScanAll _ _ | Snapshot | WriteOrders => true
  | _ => false
  end.

(** Whether a statement uses an order through a pointer that an earlier
    search of the vector returned. *)
Definition usesPointer (i : instr) : bool :=
  match i with
  | SetStatus _ _ | ReadFound | ReadCollected => true
  | _ => false
  end.

(** Whether a statement reads or writes the [orders] vector or an order
    in it. *)
Definition touchesOrders (i : instr) : bool := usesVector i || usesPointer i.

(** The statements of a routine with the body of its conditional
    written in place (the path on which [needSave] holds). *)
Fixpoint inline (code : list instr) : list instr :=
  match code with
  | [] => []
  | IfNeedSave body :: rest => body ++ inline rest
  | i :: rest => i :: inline rest
  end.

(** The critical sections of a routine (the statements between a [Lock]
    and its [Unlock]) and the statements outside every section. *)
Fixpoint sectionsFrom (code : list instr) (cur : option (list instr))
  : list (list instr) * list instr :=
  match code with
  | [] => (match cur with Some body => [body] | None => [] end, [])
  | Lock :: rest => sectionsFrom rest (Some [])
  | Unlock :: rest =>
      let '(ss, out) := sectionsFrom rest None in
      (match cur with Some body => body :: ss | None => ss end, out)
  | i :: rest =>
      match cur with
      | Some body => sectionsFrom rest (Some (body ++ [i]))
      | None => let '(ss, out) := sectionsFrom rest None in (ss, i :: out)
      end
  end.

Definition sections (code : list instr) : list (list instr) :=
  fst (sectionsFrom (inline code) None).

Definition unguarded (code : list instr) : list instr :=
  snd (sectionsFrom (inline code) None).

(** Lock discipline of straight-line code: starting with the mutex held
    or not, whether it is held at the end; [None] when the code locks a
    mutex it holds, unlocks one it does not hold, goes through the
    vector without holding it, or may return while holding it. *)
Fixpoint after (held : bool) (code : list instr) : option bool :=
  match code with
  | [] => Some held
  | Lock :: rest => if held then None else after true rest
  | Unlock :: rest => if held then after false rest else None
  | IfNeedSave _ :: _ => None
  | ReturnIfNotFound :: rest => if held then None else after held rest
  | i :: rest => if usesVector i && negb held then None else after held rest
  end.

(** The same for a routine: the body of a conditional must leave the
    mutex as it found it, and the routine must end without it. *)
Fixpoint guarded (held : bool) (code : list instr) : bool :=
  match code with
  | [] => negb held
  | Lock :: rest => negb held && guarded true rest
  | Unlock :: rest => held && guarded false rest
  | IfNeedSave body :: rest =>
      bool_decide (after held body = Some held) && guarded held rest
  | ReturnIfNotFound :: rest => negb held && guarded held rest
  | i :: rest => negb (usesVector i && negb held) && guarded held rest
  end.

(** The state the threads share, and what a thread keeps to itself.  An
    order is never taken out of the vector, so the place of an order in
    it stands for the pointer to the order. *)
Record shared : Type := mkShared {
  mutex : option nat;                (* the thread holding ordersMutex *)
  orders : list Order.t;
  file : list Order.t;               (* the order rows in the file *)
  pendingToShippedSeconds : Z;
  shippedToDeliveredSeconds : Z
}.

Record thread : Type := mkThread {
  code : list instr;
  needSave : bool;
  found : option nat;                (* the order findOrderById returned *)
  collected : list nat;              (* the orders getOrdersByUserId returned *)
  seen : list (list Order.t * list Order.t);  (* what its snapshots saw: memory, file *)
  reads : list Order.t               (* what it read through the pointers it holds *)
}.

Definition spawn (c : list instr) : thread := mkThread c false None [] [] [].

Definition setMutex (h : option nat) (s : shared) : shared :=
  mkShared h (orders s) (file s) (pendingToShippedSeconds s) (shippedToDeliveredSeconds s).
Definition setOrders (os : list Order.t) (s : shared) : shared :=
  mkShared (mutex s) os (file s) (pendingToShippedSeconds s) (shippedToDeliveredSeconds s).
Definition setFile (f : list Order.t) (s : shared) : shared :=
  mkShared (mutex s) (orders s) f (pendingToShippedSeconds s) (shippedToDeliveredSeconds s).

(** The places, from [k] on, of the orders of the user. *)
Fixpoint placesFrom (k : nat) (userId : string) (os : list Order.t) : list nat :=
  match os with
  | [] => []
  | order :: rest =>
      if String.eqb (Order.userId order) userId then k :: placesFrom (S k) userId rest
      else placesFrom (S k) userId rest
  end.

(** The orders now at the places. *)
Definition through (places : list nat) (os : list Order.t) : list Order.t :=
  omap (fun k => os !! k) places.

(** One statement of thread [tid]; [None] when it cannot run ([Lock] on
    a held mutex, a null pointer) or has nothing left to run. *)
Definition exec (tid : nat) (th : thread) (s : shared) : option (thread * shared) :=
  match code th with
  | [] => None
  | i :: rest =>
      let th' := mkThread rest (needSave th) (found th) (collected th) (seen th) (reads th) in
      match i with
      | Lock =>
          match mutex s with
          | None => Some (th', setMutex (Some tid) s)
          | Some _ => None
          end
      | Unlock => Some (th', setMutex None s)
      | PushBack order => Some (th', setOrders (orders s ++ [order]) s)
      | Find orderId =>
          Some (mkThread rest (needSave th)
                  (OrderManager.findIndex orderId (orders s))
                  (collected th) (seen th) (reads th), s)
      | Collect userId =>
          Some (mkThread rest (needSave th) (found th)
                  (placesFrom O userId (orders s)) (seen th) (reads th), s)
      | ReturnIfNotFound =>
          match found th with
          | Some _ => Some (th', s)
          | None =>
              Some (mkThread [] (needSave th) (found th) (collected th) (seen th)
                      (reads th), s)
          end
      | SetStatus newStatus now =>
          match found th with
          | Some k =>
              Some (th', setOrders (alter (Order.setStatus newStatus now) k (orders s)) s)
          | None => None
          end
      | ReadFound =>
          match found th with
          | Some k =>
              Some (mkThread rest (needSave th) (found th) (collected th) (seen th)
                      (reads th ++ through [k] (orders s)), s)
          | None => None
          end
      | ReadCollected =>
          Some (mkThread rest (needSave th) (found th) (collected th) (seen th)
                  (reads th ++ through (collected th) (orders s)), s)
      | ScanAll currentTime clock =>
          let '(os, b) :=
            OrderManager.scanOrders (pendingToShippedSeconds s)
              (shippedToDeliveredSeconds s) currentTime clock O (orders s) false in
          Some (mkThread rest b (found th) (collected th) (seen th) (reads th),
                setOrders os s)
      | IfNeedSave body =>
          if needSave th
          then Some (mkThread (body ++ rest) (needSave th) (found th) (collected th)
                       (seen th) (reads th), s)
          else Some (th', s)
      | Snapshot =>
          Some (mkThread rest (needSave th) (found th) (collected th)
                  (seen th ++ [(orders s, file s)]) (reads th), s)
      | OpenFile => Some (th', setFile [] s)
      | WriteHeader => Some (th', s)
      | WriteOrders => Some (th', setFile (orders s) s)
      | CloseFile => Some (th', s)
      end
  end.

(** A schedule names, step by step, the thread that runs next. *)
Fixpoint run (schedule : list nat) (pool : list thread) (s : shared)
  : option (list thread * shared) :=
  match schedule with
  | [] => Some (pool, s)
  | tid :: later =>
      match pool !! tid with
      | None => None
      | Some th =>
          match exec tid th s with
          | None => None
          | Some (th', s') => run later (<[tid := th']> pool) s'
          end
      end
  end.

(** The routines of the program that use the orders: the ones that add
    an order, set a status, run the scheduler and save, the displays,
    and the callers of [findOrderById] and [getOrdersByUserId]. *)
Definition routine (c : list instr) : Prop :=
  (exists order, c = createOrder order)
  \/ (exists orderId newStatus now, c = updateOrderStatus orderId newStatus now)
  \/ (exists currentTime clock, c = autoUpdateTurn currentTime clock)
  \/ c = saveToFile
  \/ c = reader
  \/ (exists orderId, c = lookup orderId)
  \/ (exists userId, c = listing userId).

(** Memory and file agree whenever a reader looks: in every run of the
    routine [c] next to a reader, from a state where they agree, every
    snapshot the reader takes under the mutex shows the file equal to the
    vector. *)
Definition atomicWithPersistence (c : list instr) : Prop :=
  forall (s : shared) (schedule : list nat) (pool : list thread) (s' : shared),
    mutex s = None ->
    file s = orders s ->
    run schedule [spawn c; spawn reader] s = Some (pool, s') ->
    forall (th : thread) (view : list Order.t * list Order.t),
      pool !! 1%nat = Some th ->
      In view (seen th) ->
      snd view = fst view.

End Threads.

(** * Notions the statements are written with *)

(** ** Baskets and stock *)

(** Total quantity the basket requests of the item object at [p]. *)
Fixpoint demand (p : positive) (cartItems : Basket) : Z :=
  match cartItems with
  | [] => 0
  | (p', q) :: rest => (if decide (p' = p) then q else 0) + demand p rest
  end.

(** What the constructor may assume of its caller: every line points at
    an item, asks for a non-negative quantity, and stocks are [int]s. *)
Record wellFormed (cartItems : Basket) (h : gmap positive Item.t) : Prop := {
  wf_refs : forall p q, In (p, q) cartItems -> is_Some (h !! p);
  wf_quantity : forall p q, In (p, q) cartItems -> 0 <= q;
  wf_stock : forall p i, h !! p = Some i -> CInt.in_int (Item.stock i)
}.

(** ** The life of an order *)

(** The states an order goes through under a series of [setStatus] calls,
    each with the clock reading it takes. *)
Fixpoint history (o : Order.t) (calls : list (OrderStatus * Z)) : list Order.t :=
  match calls with
  | [] => [o]
  | (newStatus, now) :: rest => o :: history (Order.setStatus newStatus now o) rest
  end.

Definition recognised (statusStr : string) : Prop :=
  statusStr = "待发货" \/ statusStr = "PENDING"
  \/ statusStr = "已发货" \/ statusStr = "SHIPPED"
  \/ statusStr = "已签收" \/ statusStr = "DELIVERED".




(** ** Lock discipline of a pool of threads *)

(** Every thread of the pool keeps the lock discipline from where it
    stands, holding the mutex exactly when it is the one recorded. *)
Definition disciplined (pool : list Threads.thread) (s : Threads.shared) : Prop :=
  forall tid th,
    pool !! tid = Some th ->
    Threads.guarded (bool_decide (Threads.mutex s = Some tid)) (Threads.code th) = true.

(** ** Keys of binary64 values

    A value that is not NaN has a key, and [<] on values is the
    lexicographic order of the keys. *)

Definition floatKey (f : float) : option (Z * Z * Z) :=
  match Prim2SF f with
  | S754_nan => None
  | S754_zero _ => Some (0, 0, 0)
  | S754_infinity s => Some (if s then -2 else 2, 0, 0)
  | S754_finite s m e => Some (if s then (-1, - e, - Z.pos m) else (1, e, Z.pos m))
  end.

Definition keyLt (a b : Z * Z * Z) : Prop :=
  let '(a1, a2, a3) := a in
  let '(b1, b2, b3) := b in
  a1 < b1 \/ (a1 = b1 /\ (a2 < b2 \/ (a2 = b2 /\ a3 < b3))).

(** ** Discounts *)

(** The promotions the query considers: Discount kind, valid at [now],
    applicable to the item. *)
Definition eligible (now : Z) (itemId : string) (p : Promotion.t) : Prop :=
  Promotion.promotionType p = DISCOUNT
  /\ Promotion.isValid now p = true
  /\ Promotion.isApplicableToItem itemId p = true.

(** Those of them that lower the price: a rate below the 1.0 the search
    starts from. *)
Definition discounting (now : Z) (itemId : string) (p : Promotion.t) : Prop :=
  eligible now itemId p /\ (Promotion.discountRate p <? 1)%float = true.

(** ** Promotion ids *)

Fixpoint allDigits (s : string) : bool :=
  match s with
  | EmptyString => true
  | String c r => Text.is_digit c && allDigits r
  end.

(** The number a string of digits denotes. *)
Fixpoint decimal (s : string) : Z :=
  match s with
  | EmptyString => 0
  | String c r => Text.digit_value c * 10 ^ Z.of_nat (String.length r) + decimal r
  end.

Definition suffixOf (p : Promotion.t) : string := Text.drop 5 (Promotion.promotionId p).

(** An id of the form PROMO<digits>, with a suffix of any length. *)
Definition matchesPattern (p : Promotion.t) : bool :=
  String.eqb (Text.take 5 (Promotion.promotionId p)) "PROMO"
  && negb (String.eqb (suffixOf p) EmptyString)
  && allDigits (suffixOf p).

(** The claim's reading of the generator: every such id is scanned. *)
Definition idFromAnySuffix (ps : PromotionManager.t) : string :=
  ("PROMO" ++ Text.setw 3 "0"
     (Text.to_string
        (1 + fold_right Z.max 0 (map (fun p => decimal (suffixOf p))
                                    (List.filter matchesPattern ps)))))%string.

(** The ids the loop looks at: eight characters or more, beginning with
    PROMO. *)
Definition scanned (p : Promotion.t) : bool :=
  (8 <=? String.length (Promotion.promotionId p))%nat
  && String.eqb (Text.take 5 (Promotion.promotionId p)) "PROMO".

(** Whether the text begins with a digit. *)
Definition startsWithDigit (s : string) : bool :=
  match s with
  | String c _ => Text.is_digit c
  | EmptyString => false
  end.

(** The number the loop gets from an id: none from an id it does not
    look at, else what [std::stoi] makes of the text after PROMO (none
    when [std::stoi] throws). *)
Definition numberRead (p : Promotion.t) : option Z :=
  if scanned p then Text.stoi (suffixOf p) else None.

Definition largestRead (ps : PromotionManager.t) : Z :=
  fold_right Z.max 0 (omap numberRead ps).

(** ** Text of the data files *)

(** Whether the character occurs in the string. *)
Fixpoint occurs (c : ascii) (s : string) : bool :=
  match s with
  | EmptyString => false
  | String a r => Ascii.eqb a c || occurs c r
  end.

Fixpoint allBlank (s : string) : bool :=
  match s with
  | EmptyString => true
  | String c r => Text.is_blank c && allBlank r
  end.

(** The pieces written one after the other, each followed by the
    delimiter, and [last] at the end. *)
Definition joinedTo (delim : ascii) (pieces : list string) (last : string) : string :=
  fold_right (fun piece text => (piece ++ String delim text)%string) last pieces.

(** A value that comes back from a CSV row as it went in: no comma, no
    line feed, no blank at either end. *)
Definition csvField (s : string) : Prop :=
  occurs "," s = false /\ occurs "010" s = false /\ Text.trim s = s.

(** The same for the id and the name of an order line, which also sit
    between colons and semicolons. *)
Definition lineField (s : string) : Prop :=
  occurs "," s = false /\ occurs "010" s = false
  /\ occurs ":" s = false /\ occurs ";" s = false.

Definition in_time (z : Z) : Prop := - 9223372036854775808 <= z <= 9223372036854775807.

Definition startsBlank (s : string) : bool :=
  match s with
  | String c _ => Text.is_blank c
  | EmptyString => false
  end.

Definition storableItem (i : OrderItem.t) : Prop :=
  lineField (OrderItem.itemId i) /\ lineField (OrderItem.itemName i)
  /\ startsBlank (OrderItem.itemId i) = false
  /\ CInt.in_int (OrderItem.quantity i).

(** The text of one order line in the items column. *)
Definition itemText `{Stream} (i : OrderItem.t) : string :=
  (OrderItem.itemId i ++ ":" ++ OrderItem.itemName i ++ ":"
   ++ show_double (OrderItem.price i) ++ ":"
   ++ Text.to_string (OrderItem.quantity i))%string.

Definition storable (o : Order.t) : Prop :=
  csvField (Order.orderId o) /\ csvField (Order.userId o)
  /\ csvField (Order.shippingAddress o)
  /\ Forall storableItem (Order.items o)
  /\ in_time (Order.orderTime o) /\ in_time (Order.statusChangeTime o).

(** An amount after it was printed by [operator<<] and parsed by
    [std::stod]. *)
Definition reread `{Runtime} `{Stream} (amount : float) : option float :=
  std_stod (show_double amount).

Definition rereadItem `{Runtime} `{Stream} (i : OrderItem.t) : option OrderItem.t :=
  option_map (fun price => OrderItem.mk (OrderItem.itemId i) (OrderItem.itemName i)
                             price (OrderItem.quantity i))
    (reread (OrderItem.price i)).

Definition rereadOrder `{Runtime} `{Stream} (o : Order.t) : option Order.t :=
  option_map (fun total =>
                Order.mk (Order.orderId o) (Order.userId o)
                  (omap rereadItem (Order.items o)) (Order.orderTime o) total
                  (Order.shippingAddress o) (Order.status o) (Order.statusChangeTime o))
    (reread (Order.totalAmount o)).

(** A promotion whose texts keep to their columns: no comma and no line
    feed in the id, the name and the target, and an id that does not
    begin with the comment mark. *)
Definition plainPromotion (p : Promotion.t) : Prop :=
  (occurs "," (Promotion.promotionId p) = false
   /\ occurs "010" (Promotion.promotionId p) = false)
  /\ (occurs "," (Promotion.promotionName p) = false
      /\ occurs "010" (Promotion.promotionName p) = false)
  /\ (occurs "," (Promotion.targetItemId p) = false
      /\ occurs "010" (Promotion.targetItemId p) = false)
  /\ Text.front (Promotion.promotionId p) <> Some "#"%char.

Definition isDiscount (p : Promotion.t) : bool :=
  bool_decide (Promotion.promotionType p = DISCOUNT).

(** ** The catalogue of promotions *)

Definition ids (ps : PromotionManager.t) : list string := map Promotion.promotionId ps.

(** A value that is not NaN compares to itself. *)
Definition isNumber (f : float) : bool := (f <=? f)%float.

(** What the edits of the amounts check: a rate strictly between 0 and
    1, a reduction strictly between 0 and its threshold. *)
Definition sound (p : Promotion.t) : Prop :=
  match Promotion.promotionType p with
  | DISCOUNT =>
      (0 <? Promotion.discountRate p)%float = true
      /\ (Promotion.discountRate p <? 1)%float = true
  | FULL_REDUCTION =>
      (0 <? Promotion.reductionAmount p)%float = true
      /\ (Promotion.reductionAmount p <? Promotion.thresholdAmount p)%float = true
  end.

(** ** Carts *)

(** The lines of a basket with their items, as [calculatePromotionResult]
    reads them through the pointers; [None] when a pointer is null. *)
Fixpoint resolve (h : gmap positive Item.t) (cartItems : Basket)
  : option (list (Item.t * Z)) :=
  match cartItems with
  | [] => Some []
  | (p, quantity) :: rest =>
      match h !! p, resolve h rest with
      | Some item, Some items => Some ((item, quantity) :: items)
      | _, _ => None
      end
  end.

(** The sum of price times quantity over the lines, in line order. *)
Definition sumLines (items : list (Item.t * Z)) : float :=
  fold_left (fun acc line =>
               (acc + Item.price (fst line) * CInt.to_double (snd line))%float)
    items 0%float.

(** No two items of the heap carry the same id. *)
Definition uniqueIds (h : gmap positive Item.t) : Prop :=
  forall p p' i i',
    h !! p = Some i -> h !! p' = Some i' -> Item.itemId i = Item.itemId i' -> p = p'.

(** What [ShoppingCart] keeps of its lines: one line per item, every
    line on an item of the heap, with a quantity that is positive and
    within the stock. *)
Definition cartOk (h : gmap positive Item.t) (cartItems : Basket) : Prop :=
  NoDup (map fst cartItems)
  /\ forall p q, In (p, q) cartItems ->
                 exists item, h !! p = Some item /\ 0 < q <= Item.stock item.

(** The heap [h] has the items of [h0] at the same prices. *)
Definition samePrices (h h0 : gmap positive Item.t) : Prop :=
  forall p, option_map Item.price (h !! p) = option_map Item.price (h0 !! p).

(** Stocks small enough for the sum of two quantities within stock to
    be an [int]. *)
Definition smallStocks (h : gmap positive Item.t) : Prop :=
  forall p i, h !! p = Some i -> Item.stock i <= 1073741823.

(** ** The purchase report *)

Definition isLineOf (itemId : string) (line : OrderItem.t) : bool :=
  String.eqb (OrderItem.itemId line) itemId.

(** The quantities of the lines of an order that are lines of the item. *)
Definition quantitiesOf (itemId : string) (order : Order.t) : list Z :=
  map OrderItem.quantity (List.filter (isLineOf itemId) (Order.items order)).

(** The orders with at least one line of the item. *)
Definition ordersWith (itemId : string) (orders : list Order.t) : list Order.t :=
  List.filter (fun order => existsb (isLineOf itemId) (Order.items order)) orders.

Definition totalQuantity (itemId : string) (orders : list Order.t) : Z :=
  fold_right Z.add 0 (concat (map (quantitiesOf itemId) orders)).

(** What the analysis holds of one item: its quantity and frequency if
    it has an entry, and whether it was seen in the order at hand. *)
Definition glimpse (itemId : string) (s : CustomerReportService.Scan)
  : option (Z * Z) * bool :=
  (option_map (fun st => (ItemStatistics.purchaseQuantity st,
                          ItemStatistics.purchaseFrequency st))
     (CustomerReportService.itemStats s !! itemId),
   bool_decide (itemId ∈ CustomerReportService.itemsInOrder s)).

(** The effect on it of one line of the item, of quantity [q]. *)
Definition tally (g : option (Z * Z) * bool) (q : Z) : option (Z * Z) * bool :=
  let seen := snd g in
  match fst g with
  | None => (Some (q, if seen then 0 else CInt.add 0 1), true)
  | Some (quantity, frequency) =>
      (Some (CInt.add quantity q, if seen then frequency else CInt.add frequency 1), true)
  end.

(** The effect of one order, given the quantities of its lines of the
    item. *)
Definition tallyOrder (e : option (Z * Z)) (qs : list Z) : option (Z * Z) :=
  fst (fold_left tally qs (e, false)).

(** The entry of an item in the item statistics, as quantity and
    frequency. *)
Definition entryOf (itemId : string) (itemStats : gmap string ItemStatistics.t)
  : option (Z * Z) :=
  option_map (fun st => (ItemStatistics.purchaseQuantity st,
                         ItemStatistics.purchaseFrequency st))
    (itemStats !! itemId).
(** * Data for the concrete runs *)

(** The platform of the concrete runs: [Demo] as the [Runtime]. *)
Definition demo_runtime : Runtime.
Proof.
  refine {| std_hash := Demo.hash; std_stod := Demo.stod;
            std_sort := @Demo.isort; std_sort_perm := _ |}.
  intros A lt l. induction l as [|x r IH]; [reflexivity|].
  unfold Demo.isort in *. simpl.
  transitivity (x :: fold_right (Demo.insert lt) [] r); [|now constructor].
  generalize (fold_right (Demo.insert lt) [] r). clear.
  intros l. induction l as [|y r IH]; simpl; [reflexivity|].
  destruct (lt x y); [reflexivity|]. rewrite IH. apply perm_swap.
Defined.

Module Sample.

Definition apple : Item.t := Item.mk "A" "Apple" "fruit" 100 "red" 10.
Definition berry : Item.t := Item.mk "B" "Berry" "fruit" 30 "blue" 3.

Definition world : ItemWorld :=
  mkItemWorld (<[1%positive := apple]> (<[2%positive := berry]> ∅))
    [1%positive; 2%positive] [apple; berry].

Definition manager : OrderManager.t :=
  OrderManager.mk [] true 10 20 true [] 0.

End Sample.

Module SampleOrder.

Definition order : Order.t :=
  Order.mk "ORD0000000000000007" "u1" [OrderItem.mk "A" "Apple" 100 2]
    1000 200 "addr" PENDING 1000.

Definition start : Threads.shared := Threads.mkShared None [] [] 10 20.

(** The same store with the order in it and in the file. *)
Definition stored : Threads.shared := Threads.mkShared None [order] [order] 10 20.

End SampleOrder.

Module Catalogue.

Definition fullPrice : Promotion.t :=
  Promotion.mk "PROMO001" "no discount" DISCOUNT true 0 2000 "-1" 1 0 0.

Definition tenOff : Promotion.t :=
  Promotion.mk "PROMO002" "ten off" DISCOUNT true 0 2000 "-1" 0.9 0 0.

Definition twentyOff : Promotion.t :=
  Promotion.mk "PROMO003" "twenty off A" DISCOUNT true 0 2000 "A" 0.8 0 0.

Definition twentyOffAgain : Promotion.t :=
  Promotion.mk "PROMO004" "twenty off everything" DISCOUNT true 0 2000 "-1" 0.8 0 0.

Definition spend300 : Promotion.t :=
  Promotion.mk "PROMO005" "300-50" FULL_REDUCTION true 0 2000 "" 1 300 50.

Definition spend500 : Promotion.t :=
  Promotion.mk "PROMO006" "500-100" FULL_REDUCTION true 0 2000 "" 1 500 100.

(** A full reduction as [loadFromFile] builds it from a row whose last
    field is -50. *)
Definition charge50 : Promotion.t :=
  Promotion.mk "PROMO007" "300 plus 50" FULL_REDUCTION true 0 2000 "" 1 300 (-50).

End Catalogue.

Module Priced.

Definition sofa : Item.t := Item.mk "S" "Sofa" "home" 600 "grey" 4.

Definition catalogue : PromotionManager.t := [Catalogue.spend500; Catalogue.spend300].

Definition charged : PromotionManager.t := [Catalogue.charge50; Catalogue.spend500].

End Priced.

Module Ids.

Definition short : Promotion.t :=
  Promotion.mk "PROMO12" "short id" DISCOUNT true 0 2000 "-1" 0.9 0 0.

Definition seven : Promotion.t :=
  Promotion.mk "PROMO007" "seven" DISCOUNT true 0 2000 "-1" 0.9 0 0.

Definition thousand : Promotion.t :=
  Promotion.mk "PROMO1000" "thousand" DISCOUNT true 0 2000 "-1" 0.9 0 0.

Definition other : Promotion.t :=
  Promotion.mk "SUMMER-SALE" "other scheme" DISCOUNT true 0 2000 "-1" 0.9 0 0.

Definition trailing : Promotion.t :=
  Promotion.mk "PROMO099x" "text after the digits" DISCOUNT true 0 2000 "-1" 0.9 0 0.

Definition huge : Promotion.t :=
  Promotion.mk "PROMO99999999999" "beyond int" DISCOUNT true 0 2000 "-1" 0.9 0 0.

Definition word : Promotion.t :=
  Promotion.mk "PROMOTION" "no digits" DISCOUNT true 0 2000 "-1" 0.9 0 0.

Definition five : Promotion.t :=
  Promotion.mk "PROMO005" "five" DISCOUNT true 0 2000 "-1" 0.9 0 0.

End Ids.

(** The stream of the concrete runs: [Demo.show] for [operator<<]. *)
Definition demo_stream : Stream.
Proof.
  refine {| show_double := Demo.show;
            show_double_alphabet := _; show_double_nonempty := _ |}.
  - assert (Hu : forall (d : Decimal.uint) (c : ascii),
               In c (list_ascii_of_string (NilEmpty.string_of_uint d)) ->
               In c (list_ascii_of_string "0123456789+-.einfa")).
    { induction d; simpl; intros c Hc; [destruct Hc| | | | | | | | | |];
        (destruct Hc as [<-|Hc]; [simpl; tauto | exact (IHd c Hc)]). }
    assert (Hz : forall (d : Decimal.uint) (c : ascii),
               In c (list_ascii_of_string (NilZero.string_of_uint d)) ->
               In c (list_ascii_of_string "0123456789+-.einfa")).
    { intros d c. destruct d; try exact (Hu _ c).
      simpl. intros [<-|[]]. tauto. }
    intros f c. unfold Demo.show, Text.to_string.
    destruct (Z.to_int (CInt.of_double f)) as [d|d]; simpl.
    + exact (Hz d c).
    + intros [<-|Hc]; [tauto | exact (Hz d c Hc)].
  - intros f. unfold Demo.show, Text.to_string.
    destruct (Z.to_int (CInt.of_double f)) as [d|d]; simpl; [|discriminate].
    destruct d; simpl; discriminate.
Defined.

Module Shop.

(** A shop with two users' worth of orders to come: the items of
    [Sample], an order store that can write its file. *)
Definition basket1 : Basket := [(1%positive, 2)].
Definition basket2 : Basket := [(1%positive, 1); (2%positive, 3)].

Definition promotionsFile : PromotionManager.File := PromotionManager.mkFile true EmptyString.

Definition lockedFile : PromotionManager.File := PromotionManager.mkFile false "old".

Definition newcomer : Promotion.t :=
  Promotion.discount "PROMO008" "newcomer" true 0 2000 "-1" 0.5.

Definition mailed : Order.t :=
  Order.mk "ORD0000000000000007" "u1" [OrderItem.mk "A" "Apple" 100 2]
    1000 200 "Main Street 1, Springfield" PENDING 1000.

End Shop.

Module Numbered.

(** A catalogue whose item ids are numbers, as the cart file needs. *)
Definition pen : Item.t := Item.mk "1" "Pen" "office" 2 "blue" 50.
Definition ink : Item.t := Item.mk "2" "Ink" "office" 7 "black" 20.

Definition world : ItemWorld :=
  mkItemWorld (<[1%positive := pen]> (<[2%positive := ink]> ∅))
    [1%positive; 2%positive] [pen; ink].

End Numbered.

Module Bought.

(** Two orders of one customer; the first has two lines of item A. *)
Definition first : Order.t :=
  Order.mk "ORD0000000000000001" "u1"
    [OrderItem.mk "A" "Apple" 100 2; OrderItem.mk "A" "Apple" 100 3]
    1000 500 "addr" PENDING 1000.

Definition second : Order.t :=
  Order.mk "ORD0000000000000002" "u1"
    [OrderItem.mk "A" "Apple" 100 1; OrderItem.mk "B" "Bread" 50 4]
    2000 300 "addr" PENDING 2000.

Definition orders : list Order.t := [first; second].

End Bought.
(** * Properties *)

(** ** Machine integers *)

Lemma wrap32_id (z : Z) : CInt.in_int z -> CInt.wrap 32 z = z.
Proof.
  unfold CInt.in_int, CInt.INT_MIN, CInt.INT_MAX, CInt.wrap; intros Hz.
  change (2 ^ (32 - 1)) with 2147483648; change (2 ^ 32) with 4294967296.
  rewrite Z.mod_small; lia.
Qed.

Lemma sub_in_range (a b : Z) :
  CInt.in_int a -> 0 <= b <= a -> CInt.sub a b = a - b.
Proof.
  intros Ha Hb. unfold CInt.sub. apply wrap32_id.
  unfold CInt.in_int, CInt.INT_MIN, CInt.INT_MAX in *. lia.
Qed.

(** ** Order construction and the stock *)

Lemma demand_nonneg (p : positive) (cartItems : Basket) :
  (forall p' q, In (p', q) cartItems -> 0 <= q) -> 0 <= demand p cartItems.
Proof.
  induction cartItems as [|[p' q] rest IH]; simpl; intros Hq; [lia|].
  assert (0 <= q) by (apply (Hq p'); now left).
  assert (0 <= demand p rest) by (apply IH; intros; eapply Hq; right; eauto).
  destruct (decide (p' = p)); lia.
Qed.

Lemma stockOf_insert (h : gmap positive Item.t) (p p' : positive) (i : Item.t) :
  stockOf (<[p := i]> h) p' = if decide (p = p') then Item.stock i else stockOf h p'.
Proof.
  unfold stockOf. destruct (decide (p = p')) as [->|Hne].
  - now rewrite lookup_insert_eq.
  - now rewrite lookup_insert_ne.
Qed.

Lemma wellFormed_step (p : positive) (q : Z) (rest : Basket)
    (h : gmap positive Item.t) (i : Item.t) :
  wellFormed ((p, q) :: rest) h ->
  h !! p = Some i ->
  q <= Item.stock i ->
  wellFormed rest (<[p := Item.setStock (CInt.sub (Item.stock i) q) i]> h)
  /\ CInt.sub (Item.stock i) q = Item.stock i - q.
Proof.
  intros [Hr Hq Hs] Hi Hle.
  assert (0 <= q) by (apply (Hq p); now left).
  assert (Hsub : CInt.sub (Item.stock i) q = Item.stock i - q)
    by (apply sub_in_range; [eapply Hs; eauto | lia]).
  split; [|exact Hsub]. split.
  - intros p' q' Hin. destruct (decide (p = p')) as [->|Hne].
    + rewrite lookup_insert_eq. eauto.
    + rewrite lookup_insert_ne by done. apply (Hr p' q'). now right.
  - intros p' q' Hin. apply (Hq p' q'). now right.
  - intros p' i'. destruct (decide (p = p')) as [->|Hne].
    + rewrite lookup_insert_eq. intros [= <-]. simpl. rewrite Hsub.
      pose proof (Hs _ _ Hi) as Hrng.
      unfold CInt.in_int, CInt.INT_MIN, CInt.INT_MAX in *. lia.
    + rewrite lookup_insert_ne by done. apply Hs.
Qed.

(** A line that asks for more than the stock its item has makes the loop
    throw, at that line or before. *)
Lemma fill_throws (cartItems : Basket) :
  forall (h : gmap positive Item.t) (items : list OrderItem.t) (total : float),
    wellFormed cartItems h ->
    (exists p q, In (p, q) cartItems /\ stockOf h p < q) ->
    exists name requested available,
      fst (Order.fill cartItems h items total)
      = Throw (InsufficientStockException name requested available).
Proof.
  induction cartItems as [|[p q] rest IH]; intros h items total Hwf (p0 & q0 & Hin & Hlt).
  - destruct Hin.
  - simpl. destruct (wf_refs _ _ Hwf p q (or_introl eq_refl)) as [i Hi]. rewrite Hi.
    destruct (Z.ltb_spec (Item.stock i) q) as [Hs|Hs]; [simpl; eauto|].
    destruct (wellFormed_step _ _ _ _ _ Hwf Hi Hs) as [Hwf' Hsub].
    apply IH; [exact Hwf'|].
    destruct Hin as [[= -> ->]|Hin].
    + unfold stockOf in Hlt. rewrite Hi in Hlt. lia.
    + exists p0, q0. split; [exact Hin|].
      rewrite stockOf_insert. destruct (decide (p = p0)) as [->|]; [|exact Hlt].
      simpl. rewrite Hsub. unfold stockOf in Hlt. rewrite Hi in Hlt.
      assert (0 <= q) by (apply (wf_quantity _ _ Hwf p0); now left). lia.
Qed.

(** When the stock of every item covers what the whole basket asks of it,
    the loop runs to its end, and takes exactly that from the stock. *)
Lemma fill_returns (cartItems : Basket) :
  forall (h : gmap positive Item.t) (items : list OrderItem.t) (total : float),
    wellFormed cartItems h ->
    (forall p, demand p cartItems <= stockOf h p) ->
    exists items' total' h',
      Order.fill cartItems h items total = (Return (items', total'), h')
      /\ map OrderItem.quantity items'
         = map OrderItem.quantity items ++ map snd cartItems
      /\ forall p, stockOf h' p = stockOf h p - demand p cartItems.
Proof.
  induction cartItems as [|[p q] rest IH]; intros h items total Hwf Hd.
  - simpl. exists items, total, h. rewrite app_nil_r. repeat split; intros; lia.
  - simpl. destruct (wf_refs _ _ Hwf p q (or_introl eq_refl)) as [i Hi]. rewrite Hi.
    assert (Hq : 0 <= q) by (apply (wf_quantity _ _ Hwf p); now left).
    assert (Hrest : 0 <= demand p rest).
    { apply demand_nonneg. intros p' q' ?. apply (wf_quantity _ _ Hwf p'). now right. }
    pose proof (Hd p) as Hp. simpl in Hp. rewrite decide_True in Hp by done.
    unfold stockOf in Hp. rewrite Hi in Hp.
    destruct (Z.ltb_spec (Item.stock i) q) as [Hs|Hs]; [lia|].
    destruct (wellFormed_step _ _ _ _ _ Hwf Hi Hs) as [Hwf' Hsub].
    set (h1 := <[p := _]> h) in *.
    assert (Hstock : forall p', stockOf h1 p'
                     = stockOf h p' - (if decide (p = p') then q else 0)).
    { intros p'. unfold h1. rewrite stockOf_insert.
      destruct (decide (p = p')) as [<-|]; [|lia].
      simpl. rewrite Hsub. unfold stockOf. rewrite Hi. lia. }
    destruct (IH h1 (items ++ [OrderItem.mk (Item.itemId i) (Item.itemName i)
                                 (Item.price i) q])
                (total + Item.price i * CInt.to_double q)%float Hwf')
      as (items' & total' & h' & Hfill & Hqs & Hst).
    { intros p'. rewrite Hstock. specialize (Hd p'). simpl in Hd. lia. }
    exists items', total', h'. split; [exact Hfill|]. split.
    + rewrite Hqs, map_app. simpl. now rewrite <- app_assoc.
    + intros p'. rewrite Hst, Hstock. lia.
Qed.

(** C1, evaluated on the code: a basket whose second line asks for 5 of an
    item with 3 in stock makes the constructor throw
    InsufficientStockException, but the 2 units its first line took from
    the other item stay taken (stock 10 before, 8 after), while the item
    file is not rewritten. *)
Theorem create_failure_keeps_earlier_decrement :
  let basket := [(1%positive, 2); (2%positive, 5)] in
  let r := Order.create (H := demo_runtime) "u1" basket "addr" true 1000 Sample.world in
  fst r = Throw (InsufficientStockException "Berry" 5 3)
  /\ stockOf (heap Sample.world) 1%positive = 10
  /\ stockOf (heap (snd r)) 1%positive = 8
  /\ itemFile (snd r) = itemFile Sample.world.
Proof. vm_compute. repeat split; reflexivity. Qed.

(** ** createOrder *)

(** C2 as stated fails: with a line that asks for 5 of an item with 3 in
    stock, createOrder returns nullptr; no exception reaches the caller. *)
Lemma createOrder_swallows_exception :
  let basket := [(1%positive, 2); (2%positive, 5)] in
  let r := OrderManager.createOrder (H := demo_runtime) "u1" basket "addr" 1000
             Sample.manager Sample.world in
  (exists p q, In (p, q) basket /\ stockOf (heap Sample.world) p < q)
  /\ fst (fst r) = Return None
  /\ forall e, fst (fst r) <> Throw e.
Proof.
  split; [|split].
  - exists 2%positive, 5. split; [right; now left | vm_compute; reflexivity].
  - vm_compute. reflexivity.
  - intros e. vm_compute. discriminate.
Qed.

(** C2, amended: createOrder never lets InsufficientStockException reach
    its caller.  For a well-formed basket, when some line asks for more
    than the stock of its item the call returns nullptr and leaves the
    order collection and the order file as they were; when the stock of
    every item covers what the basket asks of it, the call returns the
    newly constructed order, Pending and stamped with the creation time,
    after appending it to the collection and saving the collection. *)
Theorem createOrder_returns `{Runtime} (userId shippingAddress : string)
    (cartItems : Basket) (now : Z) (m : OrderManager.t) (w : ItemWorld) :
  wellFormed cartItems (heap w) ->
  let r := OrderManager.createOrder userId cartItems shippingAddress now m w in
  ((exists p q, In (p, q) cartItems /\ stockOf (heap w) p < q) ->
     fst (fst r) = Return None /\ snd (fst r) = m)
  /\ ((forall p, demand p cartItems <= stockOf (heap w) p) ->
      exists order,
        fst (fst r) = Return (Some order)
        /\ OrderManager.orders (snd (fst r)) = OrderManager.orders m ++ [order]
        /\ OrderManager.saveCalls (snd (fst r)) = S (OrderManager.saveCalls m)
        /\ (OrderManager.writable m = true ->
            OrderManager.file (snd (fst r)) = OrderManager.orders m ++ [order])
        /\ Order.userId order = userId
        /\ Order.status order = PENDING
        /\ Order.orderTime order = now
        /\ Order.statusChangeTime order = now
        /\ map OrderItem.quantity (Order.items order) = map snd cartItems
        /\ forall p, stockOf (heap (snd r)) p = stockOf (heap w) p - demand p cartItems).
Proof.
  intros Hwf r. subst r. unfold OrderManager.createOrder, Order.create. split.
  - intros Hex.
    destruct (fill_throws cartItems (heap w) [] 0%float Hwf Hex) as (n & rq & av & Hthrow).
    destruct (Order.fill cartItems (heap w) [] 0%float) as [o h'].
    simpl in Hthrow. subst o. simpl. split; reflexivity.
  - intros Hd.
    destruct (fill_returns cartItems (heap w) [] 0%float Hwf Hd)
      as (items' & total' & h' & Hfill & Hqs & Hst).
    rewrite Hfill. simpl.
    eexists. split; [reflexivity|].
    unfold OrderManager.saveToFile, OrderManager.with_orders. cbn.
    assert (Hheap : forall p, stockOf (heap (if OrderManager.hasItemManager m
                      then ItemManager_saveToFile (mkItemWorld h' (catalogue w) (itemFile w))
                      else mkItemWorld h' (catalogue w) (itemFile w))) p
                    = stockOf (heap w) p - demand p cartItems).
    { intros p. destruct (OrderManager.hasItemManager m); simpl; apply Hst. }
    destruct (OrderManager.writable m) eqn:Hw; cbn;
      repeat split; try reflexivity; try congruence; try exact Hqs; exact Hheap.
Qed.

Lemma createOrder_returns_witness :
  let basket := [(1%positive, 2); (2%positive, 3)] in
  exists order,
    fst (fst (OrderManager.createOrder (H := demo_runtime) "u1" basket "addr" 1000
                Sample.manager Sample.world)) = Return (Some order)
    /\ Order.status order = PENDING.
Proof.
  assert (Hwf : wellFormed [(1%positive, 2); (2%positive, 3)] (heap Sample.world)).
  { split.
    - intros p q [[= <- <-]|[[= <- <-]|[]]]; vm_compute; eauto.
    - intros p q [[= <- <-]|[[= <- <-]|[]]]; lia.
    - intros p i Hp. unfold Sample.world in Hp. simpl in Hp.
      destruct (decide (p = 1%positive)) as [->|];
        [rewrite lookup_insert_eq in Hp; injection Hp as <-; vm_compute; split; discriminate|].
      rewrite lookup_insert_ne in Hp by done.
      destruct (decide (p = 2%positive)) as [->|];
        [rewrite lookup_insert_eq in Hp; injection Hp as <-; vm_compute; split; discriminate|].
      rewrite lookup_insert_ne in Hp by done. rewrite lookup_empty in Hp. discriminate. }
  destruct (createOrder_returns (H := demo_runtime) "u1" "addr" _ 1000 Sample.manager Sample.world Hwf)
    as [_ Hok].
  destruct Hok as (order & Hr & _ & _ & _ & _ & Hst & _).
  - intros p. simpl.
    destruct (decide (1%positive = p)) as [<-|]; [vm_compute; discriminate|].
    destruct (decide (2%positive = p)) as [<-|]; [vm_compute; discriminate|].
    unfold stockOf, Sample.world. simpl.
    rewrite !lookup_insert_ne by done. rewrite lookup_empty. lia.
  - exists order. split; assumption.
Defined.

(** ** The status of an order and its time stamp *)

Lemma history_times (calls : list (OrderStatus * Z)) :
  forall o,
    map Order.statusChangeTime (history o calls)
    = Order.statusChangeTime o :: map snd calls.
Proof.
  induction calls as [|[st t] rest IH]; intros o; simpl; [reflexivity|].
  now rewrite IH.
Qed.

Lemma create_stamps `{Runtime} (userId shippingAddress : string) (cartItems : Basket)
    (hasManager : bool) (now : Z) (w w' : ItemWorld) (o : Order.t) :
  Order.create userId cartItems shippingAddress hasManager now w = (Return o, w') ->
  Order.orderTime o = now /\ Order.statusChangeTime o = now /\ Order.status o = PENDING.
Proof.
  unfold Order.create.
  destruct (Order.fill cartItems (heap w) [] 0%float) as [[[items total]|e|] h'];
    intros [= <- _] || intros [= ]. simpl. auto.
Qed.

(** C7 as stated fails: the stamp is the reading of [std::time], the wall
    clock, and follows it when it is set back.  An order created at 1000
    whose status is set at the readings 1010 and 1005 carries the stamps
    1000, 1010, 1005. *)
Lemma clock_set_back_lowers_the_stamp :
  exists o w',
    Order.create (H := demo_runtime) "u1" [(1%positive, 2)] "addr" true 1000 Sample.world
    = (Return o, w')
    /\ map Order.statusChangeTime (history o [(SHIPPED, 1010); (DELIVERED, 1005)])
       = [1000; 1010; 1005]
    /\ ~ Sorted Z.le
          (map Order.statusChangeTime (history o [(SHIPPED, 1010); (DELIVERED, 1005)])).
Proof.
  pose (r := Order.create (H := demo_runtime) "u1" [(1%positive, 2)] "addr" true 1000
               Sample.world).
  destruct (fst r) as [o| |] eqn:Ho; try (vm_compute in Ho; discriminate).
  assert (Hc : r = (Return o, snd r)) by (rewrite <- Ho; now destruct r).
  exists o, (snd r). split; [exact Hc|].
  destruct (create_stamps _ _ _ _ _ _ _ _ Hc) as (_ & Hs & _).
  assert (Hh : map Order.statusChangeTime
                 (history o [(SHIPPED, 1010); (DELIVERED, 1005)])
               = [1000; 1010; 1005])
    by (rewrite history_times, Hs; reflexivity).
  split; [exact Hh|]. rewrite Hh. intros Hsorted.
  apply Sorted_inv in Hsorted as [Hrest _].
  apply Sorted_inv in Hrest as [_ Hhd].
  apply HdRel_inv in Hhd. lia.
Qed.

(** C7, amended: an order is created with statusChangeTime equal to its
    creation time, the reading of the clock at creation; every setStatus
    call sets statusChangeTime to the reading taken at the call, so after
    any series of calls the stamps the order has carried are exactly the
    creation reading followed by the readings of the calls.  The stamps
    never decrease exactly when these readings of the clock do not. *)
Theorem statusChangeTime_follows_transitions `{Runtime}
    (userId shippingAddress : string) (cartItems : Basket) (hasManager : bool)
    (now : Z) (w w' : ItemWorld) (o : Order.t) (calls : list (OrderStatus * Z)) :
  Order.create userId cartItems shippingAddress hasManager now w = (Return o, w') ->
  Order.statusChangeTime o = Order.orderTime o
  /\ Order.orderTime o = now
  /\ (forall newStatus t o', Order.statusChangeTime (Order.setStatus newStatus t o') = t)
  /\ map Order.statusChangeTime (history o calls) = Order.orderTime o :: map snd calls
  /\ (Sorted Z.le (map Order.statusChangeTime (history o calls))
      <-> Sorted Z.le (now :: map snd calls)).
Proof.
  intros Hc. destruct (create_stamps _ _ _ _ _ _ _ _ Hc) as (Ht & Hs & _).
  assert (Hh := history_times calls o). rewrite Hs in Hh.
  split; [congruence|]. split; [exact Ht|]. split; [reflexivity|].
  split; [now rewrite Hh, Ht|]. now rewrite Hh.
Qed.

Lemma statusChangeTime_follows_transitions_witness :
  exists o,
    map Order.statusChangeTime (history o [(SHIPPED, 1010); (DELIVERED, 1030)])
    = [1000; 1010; 1030].
Proof.
  pose (r := Order.create (H := demo_runtime) "u1" [(1%positive, 2)] "addr" true 1000 Sample.world).
  destruct (fst r) as [o| |] eqn:Ho; try (vm_compute in Ho; discriminate).
  exists o.
  assert (Hc : r = (Return o, snd r)) by (rewrite <- Ho; now destruct r).
  destruct (statusChangeTime_follows_transitions (H := demo_runtime) "u1" "addr" [(1%positive, 2)] true
              1000 Sample.world (snd r) o [(SHIPPED, 1010); (DELIVERED, 1030)] Hc)
    as (_ & Hnow & _ & Hh & _).
  rewrite Hh, Hnow. reflexivity.
Defined.

(** ** Loading orders *)

Lemma stringToStatus_default (statusStr : string) :
  ~ recognised statusStr -> Order.stringToStatus statusStr = PENDING.
Proof.
  intros Hn. unfold Order.stringToStatus.
  repeat match goal with
  | |- context [String.eqb statusStr ?s] =>
      destruct (String.eqb_spec statusStr s);
      [exfalso; apply Hn; unfold recognised; tauto|]
  end.
  reflexivity.
Qed.

(** C10: stringToStatus sends every string that is none of the six status
    names to Pending; hence a line of the order file whose status field is
    unknown, and whose other fields parse, is loaded without any failure
    as an order in status Pending. *)
Theorem unknown_status_loads_as_pending `{Runtime} :
  (forall statusStr, ~ recognised statusStr -> Order.stringToStatus statusStr = PENDING)
  /\ forall (header line : string) (lines : list string) (m : OrderManager.t),
      let fields := Text.parseCSVLine line in
      In line lines ->
      line <> EmptyString ->
      (8 <= List.length fields)%nat ->
      ~ recognised (nth 6 fields EmptyString) ->
      is_Some (Text.stoll (nth 3 fields EmptyString)) ->
      is_Some (std_stod (nth 4 fields EmptyString)) ->
      is_Some (Text.stoll (nth 7 fields EmptyString)) ->
      exists o,
        OrderManager.loadLine line = Some o
        /\ Order.status o = PENDING
        /\ In o (OrderManager.orders
                   (snd (OrderManager.loadFromFile (Some (header :: lines)) m))).
Proof.
  split; [exact stringToStatus_default|].
  intros header line lines m fields Hin Hne Hlen Hst [t3 H3] [a4 H4] [t7 H7].
  assert (Hload : exists o, OrderManager.loadLine line = Some o /\ Order.status o = PENDING).
  { unfold OrderManager.loadLine.
    destruct (String.eqb_spec line EmptyString) as [|_]; [contradiction|].
    fold fields. apply Nat.leb_le in Hlen. rewrite Hlen, H3, H4, H7.
    eexists. split; [reflexivity|]. simpl. now apply stringToStatus_default. }
  destruct Hload as (o & Hl & Hs). exists o. repeat split; try assumption.
  simpl. apply list_elem_of_In, list_elem_of_omap.
  exists line. split; [now apply list_elem_of_In | exact Hl].
Qed.

Lemma unknown_status_loads_as_pending_witness :
  exists o,
    OrderManager.loadLine (H := demo_runtime)
      "ORD0000000000000042,u1,A:Apple:100:2,1700000000,200,Main Street 1,CANCELLED,1700000005"
    = Some o
    /\ Order.status o = PENDING.
Proof.
  pose proof (proj2 (@unknown_status_loads_as_pending demo_runtime)) as Hload.
  destruct (Hload "header"
              "ORD0000000000000042,u1,A:Apple:100:2,1700000000,200,Main Street 1,CANCELLED,1700000005"
              ["ORD0000000000000042,u1,A:Apple:100:2,1700000000,200,Main Street 1,CANCELLED,1700000005"]
              Sample.manager) as (o & Ho & Hs & _).
  - now left.
  - intros [=].
  - vm_compute. lia.
  - vm_compute. intros [H|[H|[H|[H|[H|H]]]]]; discriminate H.
  - vm_compute. eauto.
  - vm_compute. eauto.
  - vm_compute. eauto.
  - exists o. split; assumption.
Defined.

(** ** The scheduler *)

Section Scan.

Variables (P S currentTime : Z) (clock : nat -> Z).





End Scan.




(** An order created at 1000 is Pending at 1005 and Shipped, stamped with
    the reading [setStatus] takes, once 10 seconds have passed. *)
Example pending_becomes_shipped :
  let m := OrderManager.mk [SampleOrder.order] true 10 20 true [] 0 in
  map Order.status (OrderManager.orders (OrderManager.autoUpdateScan 1005 (fun _ => 1005) m))
  = [PENDING]
  /\ map Order.status (OrderManager.orders (OrderManager.autoUpdateScan 1010 (fun _ => 1011) m))
     = [SHIPPED]
  /\ map Order.statusChangeTime
       (OrderManager.orders (OrderManager.autoUpdateScan 1010 (fun _ => 1011) m))
     = [1011].
Proof. vm_compute. repeat split; reflexivity. Qed.


(** ** The mutex and the order file *)

Lemma guarded_app (body : list Threads.instr) :
  forall (h1 h2 : bool) (rest : list Threads.instr),
    Threads.after h1 body = Some h2 ->
    Threads.guarded h2 rest = true ->
    Threads.guarded h1 (body ++ rest) = true.
Proof.
  induction body as [|i body IH]; intros h1 h2 rest Ha Hg; simpl in *.
  - now injection Ha as ->.
  - destruct i; simpl in *;
      try (destruct h1; simpl in *; try discriminate; eauto);
      try discriminate.
Qed.

Lemma routine_guarded (c : list Threads.instr) :
  Threads.routine c -> Threads.guarded false c = true.
Proof.
  intros [[o ->]|[(orderId & newStatus & now & ->)|[(t & clock & ->)|[->|[->|
            [[orderId ->]|[userId ->]]]]]]]; reflexivity.
Qed.

(** What is left of [guarded] after a statement that is neither [Lock]
    nor [Unlock]. *)
Lemma guarded_tail (held : bool) (i : Threads.instr) (rest : list Threads.instr) :
  Threads.guarded held (i :: rest) = true ->
  i <> Threads.Lock -> i <> Threads.Unlock ->
  Threads.guarded held rest = true.
Proof.
  intros Hg Hl Hu. destruct i; cbn [Threads.guarded] in Hg;
    try (apply andb_true_iff in Hg as [_ Hg]; exact Hg);
    contradiction.
Qed.

Lemma exec_disciplined (pool : list Threads.thread) (s s' : Threads.shared)
    (tid : nat) (th th' : Threads.thread) :
  disciplined pool s ->
  pool !! tid = Some th ->
  Threads.exec tid th s = Some (th', s') ->
  disciplined (<[tid := th']> pool) s'.
Proof.
  intros Hinv Hth Hexec.
  pose proof (Hinv tid th Hth) as Hown.
  assert (Hlt : (tid < List.length pool)%nat) by (eapply lookup_lt_Some; eauto).
  unfold Threads.exec in Hexec.
  destruct (Threads.code th) as [|i rest] eqn:Hcode; [discriminate|].
  assert (Hother : forall t th0, t <> tid -> pool !! t = Some th0 ->
            Threads.mutex s' = Threads.mutex s \/
            (Threads.mutex s = None /\ Threads.mutex s' = Some tid) \/
            (Threads.mutex s = Some tid /\ Threads.mutex s' = None) ->
            Threads.guarded (bool_decide (Threads.mutex s' = Some t)) (Threads.code th0) = true).
  { intros t th0 Hne Ht Hm. specialize (Hinv t th0 Ht).
    destruct Hm as [->|[[Hm ->]|[Hm ->]]]; [exact Hinv| |]; rewrite Hm in Hinv;
      repeat case_bool_decide; congruence. }
  intros t th0 Hlook.
  destruct (decide (t = tid)) as [->|Hne].
  - rewrite list_lookup_insert_eq in Hlook by exact Hlt. injection Hlook as <-.
    destruct i;
      try (pose proof (guarded_tail _ _ _ Hown ltac:(discriminate) ltac:(discriminate))
             as Htail);
      cbn [Threads.guarded] in Hown; cbv zeta in Hexec.
    + destruct (Threads.mutex s) eqn:Hm; [discriminate|]. injection Hexec as <- <-.
      cbn. apply andb_true_iff in Hown as [_ Hown].
      rewrite bool_decide_eq_true_2 by reflexivity. exact Hown.
    + injection Hexec as <- <-. cbn. apply andb_true_iff in Hown as [_ Hown]. exact Hown.
    + injection Hexec as <- <-. exact Htail.
    + injection Hexec as <- <-. exact Htail.
    + injection Hexec as <- <-. exact Htail.
    + apply andb_true_iff in Hown as [Hfree Hrest].
      destruct (Threads.found th); injection Hexec as <- <-; cbn; [exact Hrest|].
      exact Hfree.
    + destruct (Threads.found th); [|discriminate]. injection Hexec as <- <-. exact Htail.
    + destruct (Threads.found th); [|discriminate]. injection Hexec as <- <-. exact Htail.
    + injection Hexec as <- <-. exact Htail.
    + destruct (OrderManager.scanOrders _ _ _ _ _ _ _) as [os b].
      injection Hexec as <- <-. exact Htail.
    + apply andb_true_iff in Hown as [Hbody Hrest].
      apply bool_decide_eq_true in Hbody.
      destruct (Threads.needSave th); injection Hexec as <- <-; cbn; [|exact Hrest].
      eapply guarded_app; eauto.
    + injection Hexec as <- <-. exact Htail.
    + injection Hexec as <- <-. exact Htail.
    + injection Hexec as <- <-. exact Htail.
    + injection Hexec as <- <-. exact Htail.
    + injection Hexec as <- <-. exact Htail.
  - rewrite list_lookup_insert_ne in Hlook by congruence.
    apply (Hother t th0 Hne Hlook).
    destruct i; cbn [Threads.guarded] in Hown; cbv zeta in Hexec;
      repeat match type of Hexec with
      | context [match ?x with _ => _ end] => destruct x eqn:?; try discriminate
      end;
      injection Hexec as <- <-; cbn; auto.
    apply andb_true_iff in Hown as [Hheld _].
    apply bool_decide_eq_true in Hheld. auto.
Qed.

Lemma run_disciplined (schedule : list nat) :
  forall (pool pool' : list Threads.thread) (s s' : Threads.shared),
    disciplined pool s ->
    Threads.run schedule pool s = Some (pool', s') ->
    disciplined pool' s'.
Proof.
  induction schedule as [|tid later IH]; intros pool pool' s s' Hinv Hrun; simpl in Hrun.
  - now injection Hrun as <- <-.
  - destruct (pool !! tid) as [th|] eqn:Hth; [|discriminate].
    destruct (Threads.exec tid th s) as [[th1 s1]|] eqn:Hexec; [|discriminate].
    eapply IH; [|exact Hrun]. eapply exec_disciplined; eauto.
Qed.

(** C3 as stated fails: between the two critical sections of createOrder
    a reader that takes the mutex sees the new order in the collection
    and not in the file. *)
Lemma createOrder_leaves_file_behind :
  exists order, ~ Threads.atomicWithPersistence (Threads.createOrder order).
Proof.
  exists SampleOrder.order. intros Hatomic.
  destruct (Threads.run [0; 0; 0; 1; 1; 1]%nat
              [Threads.spawn (Threads.createOrder SampleOrder.order);
               Threads.spawn Threads.reader] SampleOrder.start)
    as [[pool s']|] eqn:Hrun; [|vm_compute in Hrun; discriminate].
  assert (Hseen : exists th, pool !! 1%nat = Some th
                    /\ In ([SampleOrder.order], []) (Threads.seen th)).
  { vm_compute in Hrun. injection Hrun as <- <-.
    eexists. split; [reflexivity|]. now left. }
  destruct Hseen as (th & Hth & Hin).
  specialize (Hatomic SampleOrder.start _ _ _ eq_refl eq_refl Hrun th _ Hth Hin).
  discriminate Hatomic.
Qed.

(** C3, amended: createOrder appends to the order collection, and the
    scheduler changes statuses, inside a critical section of the orders
    mutex; saveToFile writes the rows inside a second critical section,
    entered after the first was left and after the file was opened.  In
    every interleaving of the routines of the program that use the
    orders, a thread about to append to the collection or to loop over it
    (to search it, to scan it, to write its rows) holds the mutex.  The
    readers that call findOrderById or getOrdersByUserId read the orders
    they were given outside every critical section, and can come to do
    so while the scheduler holds the mutex. *)
Theorem orders_touched_under_mutex :
  (forall order,
     Threads.sections (Threads.createOrder order)
     = [[Threads.PushBack order]; [Threads.WriteOrders; Threads.CloseFile]]
     /\ existsb Threads.touchesOrders (Threads.unguarded (Threads.createOrder order)) = false)
  /\ (forall currentTime clock,
        Threads.sections (Threads.autoUpdateTurn currentTime clock)
        = [[Threads.ScanAll currentTime clock]; [Threads.WriteOrders; Threads.CloseFile]]
        /\ existsb Threads.touchesOrders
             (Threads.unguarded (Threads.autoUpdateTurn currentTime clock)) = false)
  /\ (forall (pool pool' : list Threads.thread) (s s' : Threads.shared)
             (schedule : list nat),
        (forall th, In th pool -> exists c, Threads.routine c /\ th = Threads.spawn c) ->
        Threads.mutex s = None ->
        Threads.run schedule pool s = Some (pool', s') ->
        forall tid th i rest,
          pool' !! tid = Some th ->
          Threads.code th = i :: rest ->
          Threads.usesVector i = true ->
          Threads.mutex s' = Some tid)
  /\ (forall orderId userId,
        Threads.unguarded (Threads.lookup orderId)
        = [Threads.ReturnIfNotFound; Threads.ReadFound]
        /\ Threads.unguarded (Threads.listing userId) = [Threads.ReadCollected])
  /\ forall (s : Threads.shared) (orderId : string) (k : nat)
            (currentTime : Z) (clock : nat -> Z),
      Threads.mutex s = None ->
      OrderManager.findIndex orderId (Threads.orders s) = Some k ->
      exists pool' s' th,
        Threads.run [1; 1; 1; 1; 0]%nat
          [Threads.spawn (Threads.autoUpdateTurn currentTime clock);
           Threads.spawn (Threads.lookup orderId)] s
        = Some (pool', s')
        /\ pool' !! 1%nat = Some th
        /\ Threads.code th = [Threads.ReadFound]
        /\ Threads.found th = Some k
        /\ Threads.mutex s' = Some 0%nat.
Proof.
  split; [|split; [|split; [|split]]].
  - intros order. split; reflexivity.
  - intros currentTime clock. split; reflexivity.
  - intros pool pool' s s' schedule Hpool Hfree Hrun tid th i rest Hth Hcode Htouch.
    assert (Hinit : disciplined pool s).
    { intros t th0 Ht. rewrite Hfree. simpl.
      destruct (Hpool th0) as (c & Hc & ->).
      - eapply list_elem_of_In, list_elem_of_lookup_2; eauto.
      - now apply routine_guarded. }
    pose proof (run_disciplined schedule pool pool' s s' Hinit Hrun tid th Hth) as Hg.
    rewrite Hcode in Hg.
    destruct (bool_decide (Threads.mutex s' = Some tid)) eqn:Hb;
      [now apply bool_decide_eq_true in Hb|].
    exfalso. destruct i; simpl in Htouch, Hg; discriminate.
  - intros orderId userId. split; reflexivity.
  - intros s orderId k currentTime clock Hfree Hfound.
    cbn [Threads.run Threads.spawn Threads.lookup Threads.autoUpdateTurn lookup
           list_lookup Threads.exec Threads.code Threads.found Threads.needSave
           Threads.collected Threads.seen Threads.reads insert list_insert].
    rewrite Hfree.
    cbn [Threads.run Threads.setMutex Threads.mutex Threads.orders Threads.exec
           Threads.code Threads.found Threads.needSave Threads.collected
           Threads.seen Threads.reads lookup list_lookup insert list_insert].
    rewrite Hfound.
    cbn [Threads.run Threads.setMutex Threads.mutex Threads.orders Threads.exec
           Threads.code Threads.found Threads.needSave Threads.collected
           Threads.seen Threads.reads lookup list_lookup insert list_insert].
    eexists _, _, _. split; [reflexivity|]. repeat split.
Qed.

(** [updateOrderStatus] sets the status, and reads it for its message,
    through the pointer [findOrderById] returned, after the section of
    [findOrderById] has ended. *)
Example updateOrderStatus_sets_status_unlocked :
  Threads.unguarded (Threads.updateOrderStatus "ORD1" SHIPPED 1000)
  = [Threads.ReturnIfNotFound; Threads.SetStatus SHIPPED 1000;
     Threads.OpenFile; Threads.WriteHeader; Threads.ReadFound]
  /\ existsb Threads.touchesOrders
       (Threads.unguarded (Threads.updateOrderStatus "ORD1" SHIPPED 1000)) = true.
Proof. split; reflexivity. Qed.

Lemma orders_touched_under_mutex_witness :
  (exists pool' s',
     Threads.run [0%nat] [Threads.spawn (Threads.createOrder SampleOrder.order);
                          Threads.spawn (Threads.lookup "ORD1")] SampleOrder.start
     = Some (pool', s')
     /\ Threads.mutex s' = Some 0%nat)
  /\ exists pool' s' th,
       Threads.run [1; 1; 1; 1; 0]%nat
         [Threads.spawn (Threads.autoUpdateTurn 1030 (fun _ => 1030));
          Threads.spawn (Threads.lookup "ORD0000000000000007")] SampleOrder.stored
       = Some (pool', s')
       /\ pool' !! 1%nat = Some th
       /\ Threads.code th = [Threads.ReadFound]
       /\ Threads.found th = Some 0%nat
       /\ Threads.mutex s' = Some 0%nat.
Proof.
  split.
  - destruct (Threads.run [0%nat] [Threads.spawn (Threads.createOrder SampleOrder.order);
                                   Threads.spawn (Threads.lookup "ORD1")]
                SampleOrder.start)
      as [[pool' s']|] eqn:Hrun; [|vm_compute in Hrun; discriminate].
    exists pool', s'. split; [reflexivity|].
    assert (Hth : exists th rest, pool' !! 0%nat = Some th
              /\ Threads.code th = Threads.PushBack SampleOrder.order :: rest).
    { vm_compute in Hrun. injection Hrun as <- <-. eexists _, _. split; reflexivity. }
    destruct Hth as (th & rest & Hth & Hcode).
    refine (proj1 (proj2 (proj2 orders_touched_under_mutex)) _ _ SampleOrder.start _ _ _
              eq_refl Hrun 0%nat th _ rest Hth Hcode eq_refl).
    intros th0 [<-|[<-|[]]].
    + exists (Threads.createOrder SampleOrder.order). split; [left; eauto | reflexivity].
    + exists (Threads.lookup "ORD1"). split; [|reflexivity].
      do 5 right. left. eauto.
  - exact (proj2 (proj2 (proj2 (proj2 orders_touched_under_mutex)))
             SampleOrder.stored "ORD0000000000000007" 0%nat 1030 (fun _ => 1030)
             eq_refl eq_refl).
Defined.

(** ** The order of binary64 values *)

Lemma compare_key (x y : float) :
  SFcompare (Prim2SF x) (Prim2SF y)
  = match floatKey x, floatKey y with
    | Some (a1, a2, a3), Some (b1, b2, b3) =>
        Some match a1 ?= b1 with
             | Eq => match a2 ?= b2 with Eq => a3 ?= b3 | c => c end
             | c => c
             end
    | _, _ => None
    end.
Proof.
  unfold floatKey.
  destruct (Prim2SF x) as [[]|[]| |[] m1 e1], (Prim2SF y) as [[]|[]| |[] m2 e2];
    try reflexivity; cbn - [Z.compare].
  f_equal. change (-1 ?= -1) with Eq. cbv iota.
  destruct (Z.compare_spec e1 e2), (Z.compare_spec (- e1) (- e2));
    try lia; reflexivity.
Qed.

Lemma ltb_key (x y : float) :
  (x <? y)%float = true
  <-> match floatKey x, floatKey y with
      | Some a, Some b => keyLt a b
      | _, _ => False
      end.
Proof.
  rewrite ltb_spec. unfold SFltb. rewrite compare_key.
  destruct (floatKey x) as [[[a1 a2] a3]|], (floatKey y) as [[[b1 b2] b3]|];
    try (split; [discriminate | contradiction]).
  unfold keyLt.
  destruct (Z.compare_spec a1 b1), (Z.compare_spec a2 b2), (Z.compare_spec a3 b3);
    split; intros; try discriminate; try reflexivity; lia.
Qed.

Lemma leb_key (x y : float) :
  (x <=? y)%float = true
  <-> match floatKey x, floatKey y with
      | Some a, Some b => keyLt a b \/ a = b
      | _, _ => False
      end.
Proof.
  rewrite leb_spec. unfold SFleb. rewrite compare_key.
  destruct (floatKey x) as [[[a1 a2] a3]|], (floatKey y) as [[[b1 b2] b3]|];
    try (split; [discriminate | contradiction]).
  unfold keyLt.
  destruct (Z.compare_spec a1 b1), (Z.compare_spec a2 b2), (Z.compare_spec a3 b3);
    split; intros Hk; try discriminate; try reflexivity;
    try (right; congruence); try (left; lia);
    (exfalso; destruct Hk as [Hk|Hk]; [lia | injection Hk; lia]).
Qed.

Lemma float_lt_trans (x y z : float) :
  (x <? y)%float = true -> (y <? z)%float = true -> (x <? z)%float = true.
Proof.
  rewrite !ltb_key.
  destruct (floatKey x) as [[[a1 a2] a3]|], (floatKey y) as [[[b1 b2] b3]|],
    (floatKey z) as [[[c1 c2] c3]|]; simpl; try tauto; lia.
Qed.

Lemma float_lt_le_trans (x y z : float) :
  (x <? y)%float = true -> (y <=? z)%float = true -> (x <? z)%float = true.
Proof.
  rewrite !ltb_key, leb_key.
  destruct (floatKey x) as [[[a1 a2] a3]|], (floatKey y) as [[[b1 b2] b3]|],
    (floatKey z) as [[[c1 c2] c3]|]; simpl; try tauto.
  intros H [H'|[= -> -> ->]]; [lia | exact H].
Qed.

Lemma float_lt_le (x y : float) :
  (x <? y)%float = true -> (x <=? y)%float = true.
Proof.
  rewrite ltb_key, leb_key.
  destruct (floatKey x) as [[[a1 a2] a3]|], (floatKey y) as [[[b1 b2] b3]|]; tauto.
Qed.

Lemma float_le_refl (x y : float) :
  (x <? y)%float = true -> (x <=? x)%float = true.
Proof.
  rewrite ltb_key, leb_key.
  destruct (floatKey x) as [[[a1 a2] a3]|], (floatKey y) as [[[b1 b2] b3]|];
    try tauto; intros _; now right.
Qed.

(** Two values that are both below some value are comparable. *)
Lemma float_not_lt_le (x y u v : float) :
  (x <=? u)%float = true -> (y <=? v)%float = true ->
  (x <? y)%float = false -> (y <=? x)%float = true.
Proof.
  intros Hx Hy Hn. apply leb_key.
  apply leb_key in Hx, Hy.
  assert (Hn' : ~ (x <? y)%float = true) by (rewrite Hn; discriminate).
  rewrite ltb_key in Hn'.
  destruct (floatKey x) as [[[a1 a2] a3]|], (floatKey y) as [[[b1 b2] b3]|],
    (floatKey u) as [[[c1 c2] c3]|], (floatKey v) as [[[d1 d2] d3]|];
    simpl in *; try tauto.
  destruct (Z.compare_spec b1 a1), (Z.compare_spec b2 a2), (Z.compare_spec b3 a3);
    try (left; lia); try (right; congruence); exfalso; apply Hn'; lia.
Qed.

Lemma float_le_lt_false (x y : float) :
  (x <=? y)%float = true -> (y <? x)%float = true -> False.
Proof.
  rewrite ltb_key, leb_key.
  destruct (floatKey x) as [[[a1 a2] a3]|], (floatKey y) as [[[b1 b2] b3]|];
    simpl; try tauto.
  intros [H|[= -> -> ->]] H'; lia.
Qed.

(** ** The best discount for an item *)

Lemma isCandidate_eligible (now : Z) (itemId : string) (p : Promotion.t) :
  PromotionManager.isCandidate now itemId p = true <-> eligible now itemId p.
Proof.
  unfold PromotionManager.isCandidate, eligible.
  rewrite !andb_true_iff, bool_decide_eq_true. tauto.
Qed.

(** C5 as stated fails: a valid, applicable Discount promotion of rate 1.0
    is the only candidate, and the query returns none. *)
Lemma rate_one_is_never_returned :
  let ps := [Catalogue.fullPrice] in
  (exists p, In p ps /\ eligible 1000 "A" p)
  /\ PromotionManager.getActiveDiscountForItem 1000 "A" ps = None.
Proof.
  split; [|reflexivity].
  exists Catalogue.fullPrice. split; [now left|]. repeat split.
Qed.

Lemma bestDiscountFrom_spec (now : Z) (itemId : string) (ps : PromotionManager.t) :
  forall (best : option Promotion.t) (B : float),
    (B <=? 1)%float = true ->
    let r := PromotionManager.bestDiscountFrom now itemId ps best B in
    (r = best
     /\ forall q, In q ps -> discounting now itemId q ->
                  (B <=? Promotion.discountRate q)%float = true)
    \/ (exists i p,
          r = Some p /\ ps !! i = Some p /\ discounting now itemId p
          /\ (Promotion.discountRate p <? B)%float = true
          /\ forall j q,
               ps !! j = Some q -> discounting now itemId q ->
               (Promotion.discountRate p <=? Promotion.discountRate q)%float = true
               /\ ((j < i)%nat ->
                   (Promotion.discountRate p <? Promotion.discountRate q)%float = true)).
Proof.
  induction ps as [|p0 rest IH]; intros best B HB; simpl.
  - left. split; [reflexivity|]. intros q [].
  - destruct (PromotionManager.isCandidate now itemId p0) eqn:Hc.
    + apply isCandidate_eligible in Hc.
      destruct (Promotion.discountRate p0 <? B)%float eqn:Hlt.
      * assert (H1 : (Promotion.discountRate p0 <? 1)%float = true)
          by (eapply float_lt_le_trans; eauto).
        destruct (IH (Some p0) (Promotion.discountRate p0) (float_lt_le _ _ H1))
          as [[Hr Hall]|(i & p & Hr & Hi & Hp & Hpl & Hmin)].
        -- right. exists O, p0.
           split; [exact Hr|]. split; [reflexivity|]. split; [now split|].
           split; [exact Hlt|]. intros [|j] q Hj Hq; simpl in Hj.
           ++ injection Hj as <-. split; [eapply float_le_refl; eauto | lia].
           ++ split; [|lia]. apply Hall; [|assumption].
              eapply list_elem_of_In, list_elem_of_lookup_2; eauto.
        -- right. exists (S i), p.
           split; [exact Hr|]. split; [exact Hi|]. split; [exact Hp|].
           split; [eapply float_lt_trans; eauto|].
           intros [|j] q Hj Hq; simpl in Hj.
           ++ injection Hj as <-. split; [now apply float_lt_le | now intros _].
           ++ destruct (Hmin j q Hj Hq) as [Hle Hfirst].
              split; [exact Hle | intros; apply Hfirst; lia].
      * assert (Hp0 : discounting now itemId p0 ->
                      (B <=? Promotion.discountRate p0)%float = true).
        { intros [_ Hd]. eapply float_not_lt_le; eauto using float_lt_le. }
        destruct (IH best B HB) as [[Hr Hall]|(i & p & Hr & Hi & Hp & Hpl & Hmin)].
        -- left. split; [assumption|]. intros q [<-|Hq] Hd; [now apply Hp0 | now apply Hall].
        -- right. exists (S i), p.
           split; [exact Hr|]. split; [exact Hi|]. split; [exact Hp|].
           split; [exact Hpl|].
           intros [|j] q Hj Hq; simpl in Hj.
           ++ injection Hj as <-.
              assert ((Promotion.discountRate p <? Promotion.discountRate p0)%float = true)
                by (eapply float_lt_le_trans; [exact Hpl | now apply Hp0]).
              split; [now apply float_lt_le | now intros _].
           ++ destruct (Hmin j q Hj Hq) as [Hle Hfirst].
              split; [exact Hle | intros; apply Hfirst; lia].
    + assert (Hne : ~ discounting now itemId p0).
      { intros [He _]. apply isCandidate_eligible in He. congruence. }
      destruct (IH best B HB) as [[Hr Hall]|(i & p & Hr & Hi & Hp & Hpl & Hmin)].
      * left. split; [assumption|]. intros q [<-|Hq] Hd; [contradiction | now apply Hall].
      * right. exists (S i), p.
        split; [exact Hr|]. split; [exact Hi|]. split; [exact Hp|].
        split; [exact Hpl|].
        intros [|j] q Hj Hq; simpl in Hj.
        -- injection Hj as <-. contradiction.
        -- destruct (Hmin j q Hj Hq) as [Hle Hfirst].
           split; [exact Hle | intros; apply Hfirst; lia].
Qed.

(** C5, amended: getActiveDiscountForItem returns, among the promotions
    that are of Discount kind, currently valid, applicable to the item and
    of a discountRate below 1.0, the one with the lowest discountRate,
    the first in storage order when several tie, and returns none when no
    such promotion exists. *)
Theorem best_discount_is_lowest_below_one (now : Z) (itemId : string)
    (ps : PromotionManager.t) :
  match PromotionManager.getActiveDiscountForItem now itemId ps with
  | None => forall p, In p ps -> ~ discounting now itemId p
  | Some p =>
      exists i,
        ps !! i = Some p
        /\ discounting now itemId p
        /\ forall j q,
             ps !! j = Some q -> discounting now itemId q ->
             (Promotion.discountRate p <=? Promotion.discountRate q)%float = true
             /\ ((j < i)%nat ->
                 (Promotion.discountRate p <? Promotion.discountRate q)%float = true)
  end.
Proof.
  unfold PromotionManager.getActiveDiscountForItem.
  destruct (bestDiscountFrom_spec now itemId ps None 1%float eq_refl)
    as [[Hr Hall]|(i & p & Hr & Hi & Hp & _ & Hmin)]; rewrite Hr.
  - intros p Hin Hd. pose proof (Hall p Hin Hd) as Hle.
    destruct Hd as [_ Hd]. eapply float_le_lt_false; eauto.
  - exists i. auto.
Qed.

Example tie_goes_to_the_first_stored :
  PromotionManager.getActiveDiscountForItem 1000 "A"
    [Catalogue.fullPrice; Catalogue.tenOff; Catalogue.twentyOff; Catalogue.twentyOffAgain]
  = Some Catalogue.twentyOff.
Proof. reflexivity. Qed.

(** ** Pricing a basket *)

Lemma activeFullReduction_sorted `{Runtime} (now : Z) (ps : PromotionManager.t)
    (p : Promotion.t) :
  In p (PromotionManager.getActiveFullReductions now ps)
  <-> In p ps /\ PromotionManager.isActiveFullReduction now p = true.
Proof.
  unfold PromotionManager.getActiveFullReductions.
  rewrite <- filter_In. split; apply Permutation_in;
    [|symmetry]; apply std_sort_perm.
Qed.

Lemma calculateReduction_full (total : float) (p : Promotion.t) :
  Promotion.promotionType p = FULL_REDUCTION ->
  Promotion.calculateReduction total p
  = if (Promotion.thresholdAmount p <=? total)%float
    then Promotion.reductionAmount p else 0%float.
Proof. intros Ht. unfold Promotion.calculateReduction. now rewrite Ht. Qed.

(** The loop over the reductions tests every threshold against the same
    [afterDiscountTotal] and adds the amount of each one that is met,
    when the amount is above zero. *)
Lemma applyReductions_spec (reductions : list Promotion.t) :
  forall result,
    (forall p, In p reductions -> Promotion.promotionType p = FULL_REDUCTION) ->
    let result' := PromotionManager.applyReductions reductions result in
    afterDiscountTotal result' = afterDiscountTotal result
    /\ originalTotal result' = originalTotal result
    /\ totalReduction result'
       = fold_left (fun acc p => (acc + Promotion.reductionAmount p)%float)
           (List.filter (fun p => (Promotion.thresholdAmount p
                                  <=? afterDiscountTotal result)%float
                                 && (0 <? Promotion.reductionAmount p)%float) reductions)
           (totalReduction result).
Proof.
  induction reductions as [|p rest IH]; intros result Hall; simpl.
  - auto.
  - pose proof (Hall p (or_introl eq_refl)) as Ht.
    rewrite (calculateReduction_full _ _ Ht).
    destruct (Promotion.thresholdAmount p <=? afterDiscountTotal result)%float eqn:Hmet;
      cbn [andb].
    + destruct (0 <? Promotion.reductionAmount p)%float eqn:Hpos.
      * destruct (IH (mkPromotionResult (originalTotal result) (afterDiscountTotal result)
                        (finalTotal result) (totalSavings result)
                        (appliedPromotions result ++ [Promotion.getDisplayTag p])
                        (itemDiscounts result)
                        (totalReduction result + Promotion.reductionAmount p)%float))
          as (Ha & Ho & Hr); [intros; apply Hall; now right|].
        simpl in *. auto.
      * apply IH. intros; apply Hall; now right.
    + change (0 <? 0)%float with false. cbv iota.
      apply IH. intros; apply Hall; now right.
Qed.

(** The loop over the basket leaves [totalReduction] alone. *)
Lemma applyDiscounts_totalReduction (now : Z) (ps : PromotionManager.t)
    (items : list (Item.t * Z)) :
  forall result,
    totalReduction (PromotionManager.applyDiscounts now ps items result)
    = totalReduction result.
Proof.
  induction items as [|[item quantity] rest IH]; intros result; simpl; [reflexivity|].
  destruct (PromotionManager.getActiveDiscountForItem now (Item.itemId item) ps);
    now rewrite IH.
Qed.

(** C4 as stated fails: a valid full reduction whose threshold is met
    contributes nothing when its reductionAmount is not above zero.  With
    valid reductions 300/-50 and 500/100 and an afterDiscountTotal of 600
    both thresholds are met and the amounts add up to 50, but
    totalReduction is 100 and only the second reduction is listed. *)
Lemma met_reduction_below_zero_is_left_out :
  afterDiscountTotal
    (PromotionManager.calculatePromotionResult (H := demo_runtime) 1000 Priced.charged
       [(Priced.sofa, 1)])
  = 600%float
  /\ Forall (fun p => PromotionManager.isActiveFullReduction 1000 p = true
                      /\ (Promotion.thresholdAmount p <=? 600)%float = true)
       Priced.charged
  /\ fold_left (fun acc p => (acc + Promotion.reductionAmount p)%float)
       Priced.charged 0%float
     = 50%float
  /\ totalReduction
       (PromotionManager.calculatePromotionResult (H := demo_runtime) 1000 Priced.charged
          [(Priced.sofa, 1)])
     = 100%float
  /\ appliedPromotions
       (PromotionManager.calculatePromotionResult (H := demo_runtime) 1000 Priced.charged
          [(Priced.sofa, 1)])
     = [Promotion.getDisplayTag Catalogue.spend500]
  /\ finalTotal
       (PromotionManager.calculatePromotionResult (H := demo_runtime) 1000 Priced.charged
          [(Priced.sofa, 1)])
     = 500%float.
Proof.
  split; [reflexivity|]. split.
  - repeat constructor.
  - repeat split; reflexivity.
Qed.

(** C4, amended: the thresholds of the currently valid full reductions
    are all tested against the one afterDiscountTotal left by the
    discounts; each reduction whose threshold is met and whose
    reductionAmount is above zero adds its reductionAmount to
    totalReduction, the others add nothing; finalTotal is
    afterDiscountTotal minus totalReduction.  With valid reductions 300/50
    and 500/100 and an afterDiscountTotal of 600, totalReduction is
    150. *)
Theorem full_reductions_stack `{Runtime} (now : Z) (ps : PromotionManager.t)
    (items : list (Item.t * Z)) :
  let r := PromotionManager.calculatePromotionResult now ps items in
  let base := afterDiscountTotal r in
  let met :=
    List.filter (fun p => (Promotion.thresholdAmount p <=? base)%float
                          && (0 <? Promotion.reductionAmount p)%float)
      (PromotionManager.getActiveFullReductions now ps) in
  base = afterDiscountTotal
           (PromotionManager.applyDiscounts now ps items
              (mkPromotionResult 0 0 0 0 [] [] 0))
  /\ totalReduction r
     = fold_left (fun acc p => (acc + Promotion.reductionAmount p)%float) met 0%float
  /\ (forall p, In p met <->
                In p ps /\ PromotionManager.isActiveFullReduction now p = true
                /\ (Promotion.thresholdAmount p <=? base)%float = true
                /\ (0 <? Promotion.reductionAmount p)%float = true)
  /\ finalTotal r = (base - totalReduction r)%float
  /\ (forall r1 r2,
        Permutation (List.filter (PromotionManager.isActiveFullReduction now) ps) [r1; r2] ->
        Promotion.thresholdAmount r1 = 300%float ->
        Promotion.reductionAmount r1 = 50%float ->
        Promotion.thresholdAmount r2 = 500%float ->
        Promotion.reductionAmount r2 = 100%float ->
        base = 600%float ->
        totalReduction r = 150%float).
Proof.
  intros r base met.
  set (r1 := PromotionManager.applyDiscounts now ps items
               (mkPromotionResult 0 0 0 0 [] [] 0)).
  destruct (applyReductions_spec (PromotionManager.getActiveFullReductions now ps) r1)
    as (Ha & Ho & Hr).
  { intros p Hp. apply activeFullReduction_sorted in Hp as [Hin Hact].
    unfold PromotionManager.isActiveFullReduction in Hact.
    apply andb_true_iff in Hact as [Hact _]. now apply bool_decide_eq_true in Hact. }
  assert (Hbase : base = afterDiscountTotal r1) by exact Ha.
  assert (Hzero : totalReduction r1 = 0%float)
    by (subst r1; now rewrite applyDiscounts_totalReduction).
  assert (Htotal : totalReduction r
                   = fold_left (fun acc p => (acc + Promotion.reductionAmount p)%float)
                       met 0%float).
  { subst met. rewrite Hbase. rewrite Hzero in Hr. exact Hr. }
  split; [exact Hbase|]. split; [exact Htotal|]. split; [|split].
  - intros p. subst met. rewrite filter_In, activeFullReduction_sorted, andb_true_iff.
    tauto.
  - reflexivity.
  - intros q1 q2 Hperm Ht1 Ha1 Ht2 Ha2 H600. rewrite Htotal. subst met.
    assert (Hs : Permutation (PromotionManager.getActiveFullReductions now ps) [q1; q2]).
    { unfold PromotionManager.getActiveFullReductions.
      etransitivity; [apply std_sort_perm | exact Hperm]. }
    symmetry in Hs. apply Permutation_length_2_inv in Hs.
    destruct Hs as [-> | ->]; simpl; rewrite H600, Ht1, Ht2, Ha1, Ha2;
      change (300 <=? 600)%float with true; change (500 <=? 600)%float with true;
      change (0 <? 50)%float with true; change (0 <? 100)%float with true;
      simpl; rewrite Ha1, Ha2; reflexivity.
Qed.

(** One unit of an item at 100 under a valid 0.8 discount: 20 saved, 80 to
    pay. *)
Example discount_end_to_end :
  let r := PromotionManager.calculatePromotionResult (H := demo_runtime) 1000 [Catalogue.twentyOff]
             [(Item.mk "A" "Apple" "fruit" 100 "red" 10, 1)] in
  itemDiscounts r = [("Apple", 20%float)]
  /\ finalTotal r = 80%float
  /\ totalSavings r = 20%float.
Proof. vm_compute. repeat split; reflexivity. Qed.

Lemma full_reductions_stack_witness :
  totalReduction
    (PromotionManager.calculatePromotionResult (H := demo_runtime) 1000 Priced.catalogue [(Priced.sofa, 1)])
  = 150%float.
Proof.
  refine (proj2 (proj2 (proj2 (proj2
            (full_reductions_stack (H := demo_runtime) 1000 Priced.catalogue [(Priced.sofa, 1)]))))
            Catalogue.spend300 Catalogue.spend500 _ eq_refl eq_refl eq_refl eq_refl eq_refl).
  simpl. apply perm_swap.
Defined.

Lemma applyReductions_none (reductions : list Promotion.t) (result : PromotionResult) :
  afterDiscountTotal result = 0%float ->
  (forall p, In p reductions -> (0 <? Promotion.thresholdAmount p)%float = true) ->
  PromotionManager.applyReductions reductions result = result.
Proof.
  intros Hzero. induction reductions as [|p rest IH]; intros Hall; simpl; [reflexivity|].
  assert (Hr : Promotion.calculateReduction (afterDiscountTotal result) p = 0%float).
  { unfold Promotion.calculateReduction. rewrite Hzero.
    destruct (negb _); [reflexivity|].
    destruct (Promotion.thresholdAmount p <=? 0)%float eqn:Hle; [|reflexivity].
    exfalso. eapply float_le_lt_false; [exact Hle|]. apply Hall. now left. }
  rewrite Hr. change (0 <? 0)%float with false. cbv iota.
  apply IH. intros; apply Hall; now right.
Qed.

(** C9: for an empty basket the pricing returns a result whose five totals
    are zero and whose two lists are empty, whatever valid full reductions
    with positive thresholds the catalogue holds. *)
Theorem empty_basket_prices_to_zero `{Runtime} (now : Z) (ps : PromotionManager.t) :
  (forall p, In p ps -> PromotionManager.isActiveFullReduction now p = true ->
             (0 <? Promotion.thresholdAmount p)%float = true) ->
  PromotionManager.calculatePromotionResult now ps []
  = mkPromotionResult 0 0 0 0 [] [] 0.
Proof.
  intros Hpos. unfold PromotionManager.calculatePromotionResult. simpl.
  rewrite applyReductions_none; [reflexivity | reflexivity |].
  intros p Hp. apply activeFullReduction_sorted in Hp as [Hin Hact]. now apply Hpos.
Qed.

Lemma empty_basket_prices_to_zero_witness :
  PromotionManager.calculatePromotionResult (H := demo_runtime) 1000
    (Catalogue.tenOff :: Priced.catalogue) []
  = mkPromotionResult 0 0 0 0 [] [] 0.
Proof.
  apply (empty_basket_prices_to_zero (H := demo_runtime) 1000 (Catalogue.tenOff :: Priced.catalogue)).
  intros p [<-|[<-|[<-|[]]]]; [discriminate | reflexivity | reflexivity].
Defined.

(** ** Generating a promotion id *)

(** C8 as stated fails, in three ways.  PROMO12 matches PROMO<digits>,
    so the claim gives PROMO013; the generator does not scan an id of
    fewer than eight characters and returns PROMO001.  PROMO099x does not
    match PROMO<digits>, so the claim gives PROMO001; [std::stoi] reads
    the 099 and the generator returns PROMO100.  PROMO99999999999 matches,
    so the claim gives PROMO100000000000; its number is beyond [int],
    [std::stoi] throws, the id is skipped and the generator returns
    PROMO001. *)
Lemma generator_departs_from_the_pattern :
  (PromotionManager.generatePromotionId [Ids.short] = "PROMO001"
   /\ matchesPattern Ids.short = true
   /\ idFromAnySuffix [Ids.short] = "PROMO013")
  /\ (PromotionManager.generatePromotionId [Ids.trailing] = "PROMO100"
      /\ matchesPattern Ids.trailing = false
      /\ idFromAnySuffix [Ids.trailing] = "PROMO001")
  /\ (PromotionManager.generatePromotionId [Ids.huge] = "PROMO001"
      /\ matchesPattern Ids.huge = true
      /\ idFromAnySuffix [Ids.huge] = "PROMO100000000000").
Proof. repeat split. Qed.

Lemma append_empty_l (a : string) : (EmptyString ++ a)%string = a.
Proof. reflexivity. Qed.

Lemma omap_cons_cases {A B : Type} (f : A -> option B) (x : A) (l : list A) :
  omap f (x :: l) = match f x with Some y => y :: omap f l | None => omap f l end.
Proof. reflexivity. Qed.

Lemma digit_value_range (c : ascii) :
  Text.is_digit c = true -> 0 <= Text.digit_value c <= 9.
Proof.
  unfold Text.is_digit, Text.digit_value. intros H.
  apply andb_true_iff in H as [H1 H2].
  apply Nat.leb_le in H1, H2. lia.
Qed.

Lemma decimal_nonneg (s : string) : allDigits s = true -> 0 <= decimal s.
Proof.
  induction s as [|c r IH]; simpl; intros H; [lia|].
  apply andb_true_iff in H as [Hc Hr].
  pose proof (digit_value_range c Hc). specialize (IH Hr).
  assert (0 < 10 ^ Z.of_nat (String.length r)) by (apply Z.pow_pos_nonneg; lia).
  nia.
Qed.

Lemma digits_acc_decimal (s : string) :
  forall acc,
    allDigits s = true ->
    Text.digits_acc acc s = acc * 10 ^ Z.of_nat (String.length s) + decimal s.
Proof.
  induction s as [|c r IH]; intros acc H; simpl.
  - change (10 ^ Z.of_nat 0) with 1. lia.
  - apply andb_true_iff in H as [Hc Hr]. rewrite Hc, (IH _ Hr).
    rewrite Nat2Z.inj_succ, Z.pow_succ_r by lia. ring.
Qed.

Lemma digit_is_plain (c : ascii) :
  Text.is_digit c = true ->
  Text.is_space c = false /\ Ascii.eqb c "-" = false /\ Ascii.eqb c "+" = false.
Proof.
  destruct c as [[] [] [] [] [] [] [] []]; intros H; try discriminate H;
    repeat split.
Qed.

(** On a non-empty string of digits [std::stoi] returns the number the
    digits denote, when it fits an [int]. *)
Lemma stoi_digits (s : string) :
  allDigits s = true ->
  s <> EmptyString ->
  decimal s <= CInt.INT_MAX ->
  Text.stoi s = Some (decimal s).
Proof.
  intros Hd Hne Hmax. destruct s as [|c r]; [contradiction|].
  pose proof (decimal_nonneg _ Hd) as Hpos.
  assert (Hc : Text.is_digit c = true) by (simpl in Hd; now apply andb_true_iff in Hd).
  destruct (digit_is_plain c Hc) as (Hsp & Hminus & Hplus).
  unfold Text.stoi, Text.parse_integer.
  cbn [Text.skip_space]. rewrite Hsp, Hminus, Hplus.
  cbn [Text.leading_number]. rewrite Hc.
  rewrite (digits_acc_decimal _ 0 Hd). rewrite Z.mul_0_l, Z.add_0_l.
  unfold CInt.INT_MIN, CInt.INT_MAX in *.
  destruct (Z.leb_spec (-2147483648) (decimal (String c r))); [|lia].
  destruct (Z.leb_spec (decimal (String c r)) 2147483647); [|lia].
  reflexivity.
Qed.

Lemma drop_length (n : nat) (s : string) :
  String.length (Text.drop n s) = (String.length s - n)%nat.
Proof.
  revert s. induction n as [|n IH]; intros [|c r]; simpl; try reflexivity.
  - apply IH.
Qed.

(** Digits followed by text that does not go on with a digit. *)
Lemma digits_acc_app (d rest : string) :
  forall acc,
    allDigits d = true ->
    startsWithDigit rest = false ->
    Text.digits_acc acc (d ++ rest)
    = acc * 10 ^ Z.of_nat (String.length d) + decimal d.
Proof.
  induction d as [|c r IH]; intros acc Hd Hrest.
  - rewrite append_empty_l. cbn [String.length decimal].
    change (10 ^ Z.of_nat 0) with 1.
    destruct rest as [|x rest]; cbn [Text.digits_acc]; [lia|].
    cbn [startsWithDigit] in Hrest. rewrite Hrest. lia.
  - cbn [allDigits] in Hd. apply andb_true_iff in Hd as [Hc Hr].
    change (String c r ++ rest)%string with (String c (r ++ rest)%string).
    cbn [Text.digits_acc String.length decimal]. rewrite Hc, (IH _ Hr Hrest).
    rewrite Nat2Z.inj_succ, Z.pow_succ_r by lia. ring.
Qed.

(** What [std::stoi] reads from digits followed by other text: the
    number of the digits, or nothing when it is beyond [int]. *)
Lemma stoi_leading_digits (d rest : string) :
  d <> EmptyString ->
  allDigits d = true ->
  startsWithDigit rest = false ->
  Text.stoi (d ++ rest)
  = if decimal d <=? CInt.INT_MAX then Some (decimal d) else None.
Proof.
  intros Hne Hd Hrest. destruct d as [|c r]; [contradiction|].
  pose proof (decimal_nonneg _ Hd) as Hpos.
  assert (Hc : Text.is_digit c = true)
    by (cbn [allDigits] in Hd; now apply andb_true_iff in Hd).
  destruct (digit_is_plain c Hc) as (Hsp & Hminus & Hplus).
  unfold Text.stoi, Text.parse_integer.
  change (String c r ++ rest)%string with (String c (r ++ rest)%string).
  cbn [Text.skip_space]. rewrite Hsp, Hminus, Hplus.
  cbn [Text.leading_number]. rewrite Hc.
  change (String c (r ++ rest)%string) with (String c r ++ rest)%string.
  rewrite (digits_acc_app _ _ 0 Hd Hrest). rewrite Z.mul_0_l, Z.add_0_l.
  unfold CInt.INT_MIN, CInt.INT_MAX in *.
  destruct (Z.leb_spec (-2147483648) (decimal (String c r))); [|lia].
  reflexivity.
Qed.

Lemma maxSuffix_spec (ps : PromotionManager.t) :
  forall maxNum,
    0 <= maxNum ->
    PromotionManager.maxSuffix ps maxNum = Z.max maxNum (largestRead ps).
Proof.
  unfold largestRead.
  induction ps as [|p rest IH]; intros maxNum Hm.
  - cbn. lia.
  - cbn [PromotionManager.maxSuffix]. cbv zeta.
    rewrite omap_cons_cases. unfold numberRead at 1. fold (scanned p). unfold suffixOf.
    destruct (scanned p); [|now apply IH].
    destruct (Text.stoi (Text.drop 5 (Promotion.promotionId p))) as [num|];
      [|now apply IH].
    cbn [fold_right].
    destruct (Z.ltb_spec maxNum num); rewrite IH by lia; lia.
Qed.

Lemma largestRead_bounds (ps : PromotionManager.t) :
  0 <= largestRead ps
  /\ (forall p n, In p ps -> numberRead p = Some n -> n <= largestRead ps)
  /\ (largestRead ps = 0
      \/ exists p, In p ps /\ numberRead p = Some (largestRead ps)).
Proof.
  unfold largestRead.
  induction ps as [|p rest IH].
  - cbn. split; [lia|]. split; [intros p n []|now left].
  - destruct IH as (Hb & Hub & Hat).
    rewrite omap_cons_cases. destruct (numberRead p) as [num|] eqn:Hp; cbn [fold_right].
    + split; [lia|]. split.
      * intros q n [<-|Hq] Hn; [rewrite Hp in Hn; injection Hn as <-; lia|].
        specialize (Hub q n Hq Hn). lia.
      * destruct (Z.max_spec num (fold_right Z.max 0 (omap numberRead rest)))
          as [[Hlt ->]|[Hle ->]].
        -- destruct Hat as [H0|(q & Hq & Hqe)]; [now left|].
           right. exists q. split; [now right | exact Hqe].
        -- right. exists p. split; [now left | exact Hp].
    + split; [exact Hb|]. split.
      * intros q n [<-|Hq] Hn; [congruence|]. now apply (Hub q n).
      * destruct Hat as [H0|(q & Hq & Hqe)]; [now left|].
        right. exists q. split; [now right | exact Hqe].
Qed.

(** C8, amended: generatePromotionId looks at the ids of eight characters
    or more that begin with PROMO (of the PROMO<digits> ids, those with a
    suffix of at least three digits) and reads from each the number
    [std::stoi] finds at the start of the text after PROMO: the number of
    the leading digits, whatever follows them, when it fits an [int]; an
    id where [std::stoi] throws is skipped.  It returns PROMO followed by
    one plus the largest of 0 and the numbers read, zero-padded to a
    width of at least 3, provided that number is below INT_MAX; when it
    looks at no id it returns PROMO001. *)
Theorem generatePromotionId_next (ps : PromotionManager.t) :
  largestRead ps < CInt.INT_MAX ->
  PromotionManager.generatePromotionId ps
  = ("PROMO" ++ Text.setw 3 "0" (Text.to_string (1 + largestRead ps)))%string
  /\ (forall p n, In p ps -> numberRead p = Some n -> n <= largestRead ps)
  /\ (largestRead ps = 0
      \/ exists p, In p ps /\ numberRead p = Some (largestRead ps))
  /\ (forall p digits rest,
        scanned p = true ->
        suffixOf p = (digits ++ rest)%string ->
        digits <> EmptyString ->
        allDigits digits = true ->
        startsWithDigit rest = false ->
        numberRead p
        = if decimal digits <=? CInt.INT_MAX then Some (decimal digits) else None)
  /\ (forall p, scanned p = true <->
                (8 <= String.length (Promotion.promotionId p))%nat
                /\ Text.take 5 (Promotion.promotionId p) = "PROMO"%string)
  /\ ((forall p, In p ps -> scanned p = false) ->
      PromotionManager.generatePromotionId ps = "PROMO001").
Proof.
  intros Hmax. destruct (largestRead_bounds ps) as (Hb & Hub & Hat).
  assert (Hgen : PromotionManager.generatePromotionId ps
                 = ("PROMO" ++ Text.setw 3 "0"
                      (Text.to_string (1 + largestRead ps)))%string).
  { unfold PromotionManager.generatePromotionId.
    rewrite maxSuffix_spec by lia.
    rewrite Z.max_r by lia. unfold CInt.add.
    rewrite wrap32_id by (unfold CInt.in_int, CInt.INT_MIN, CInt.INT_MAX in *; lia).
    now rewrite Z.add_comm. }
  split; [exact Hgen|]. split; [exact Hub|]. split; [exact Hat|].
  split; [|split].
  - intros p digits rest Hs Hsuffix Hne Hd Hrest.
    unfold numberRead. rewrite Hs, Hsuffix. now apply stoi_leading_digits.
  - intros p. unfold scanned. rewrite andb_true_iff, Nat.leb_le, String.eqb_eq.
    reflexivity.
  - intros Hnone. rewrite Hgen.
    destruct Hat as [-> | (p & Hp & Hs)]; [reflexivity|].
    unfold numberRead in Hs. rewrite (Hnone p Hp) in Hs. discriminate.
Qed.

Lemma generatePromotionId_next_witness :
  PromotionManager.generatePromotionId [Ids.seven; Ids.short; Ids.thousand; Ids.other]
  = "PROMO1001"
  /\ PromotionManager.generatePromotionId [Ids.word; Ids.five] = "PROMO006"
  /\ PromotionManager.generatePromotionId [Ids.trailing; Ids.huge; Ids.seven] = "PROMO100".
Proof.
  split; [|split].
  - refine (eq_trans (proj1 (generatePromotionId_next
                               [Ids.seven; Ids.short; Ids.thousand; Ids.other] _)) eq_refl).
    reflexivity.
  - refine (eq_trans (proj1 (generatePromotionId_next [Ids.word; Ids.five] _)) eq_refl).
    reflexivity.
  - refine (eq_trans (proj1 (generatePromotionId_next
                               [Ids.trailing; Ids.huge; Ids.seven] _)) eq_refl).
    reflexivity.
Defined.

(** * Further properties: the order store *)

(** ** Strings *)

Lemma append_cons (x : ascii) (a b : string) :
  (String x a ++ b)%string = String x (a ++ b)%string.
Proof. reflexivity. Qed.

Lemma append_nil_l (a : string) : ("" ++ a)%string = a.
Proof. reflexivity. Qed.

Ltac sapp := rewrite ?append_cons, ?append_nil_l.

Lemma append_assoc (a b c : string) : ((a ++ b) ++ c)%string = (a ++ (b ++ c))%string.
Proof. induction a as [|x a IH]; sapp; [reflexivity | now rewrite IH]. Qed.

Lemma append_nil_r (a : string) : (a ++ "")%string = a.
Proof. induction a as [|x a IH]; sapp; [reflexivity | now rewrite IH]. Qed.

Lemma occurs_append (c : ascii) (a b : string) :
  occurs c (a ++ b) = occurs c a || occurs c b.
Proof.
  induction a as [|x a IH]; sapp; simpl; [reflexivity|].
  now rewrite IH, orb_assoc.
Qed.

Lemma trim_left_spec (s : string) :
  exists a,
    s = (a ++ Text.trim_left s)%string /\ allBlank a = true
    /\ forall c, Text.front (Text.trim_left s) = Some c -> Text.is_blank c = false.
Proof.
  induction s as [|x s (a & Hs & Ha & Hc)]; simpl.
  - exists EmptyString. repeat split. intros c [=].
  - destruct (Text.is_blank x) eqn:Hx.
    + exists (String x a). sapp. simpl. rewrite Hx, Ha, <- Hs.
      repeat split. exact Hc.
    + exists EmptyString. repeat split. simpl. intros c [= <-]. exact Hx.
Qed.

Lemma trim_right_spec (s : string) :
  exists b,
    s = (Text.trim_right s ++ b)%string /\ allBlank b = true
    /\ (forall c, Text.back (Text.trim_right s) = Some c -> Text.is_blank c = false)
    /\ (forall c, Text.front s = Some c -> Text.is_blank c = false ->
                  Text.front (Text.trim_right s) = Some c).
Proof.
  induction s as [|x s (b & Hs & Hb & Hl & Hf)]; simpl.
  - exists EmptyString. repeat split; intros c [=].
  - destruct (Text.is_blank x) eqn:Hx; simpl.
    + destruct (String.eqb_spec (Text.trim_right s) EmptyString) as [He|Hne].
      * exists (String x b). sapp. simpl. rewrite Hx, Hb. rewrite He in Hs.
        rewrite append_nil_l in Hs. rewrite <- Hs.
        repeat split; [intros c [=] | intros c [= <-]; congruence].
      * exists b. sapp. rewrite <- Hs.
        repeat split; [exact Hb | | intros c [= <-]; congruence].
        intros c. simpl. destruct (Text.trim_right s); [contradiction | exact (Hl c)].
    + exists b. sapp. rewrite <- Hs.
      repeat split; [exact Hb | | intros c [= <-] _; reflexivity].
      intros c. simpl. destruct (Text.trim_right s) eqn:Ht.
      * intros [= <-]. exact Hx.
      * exact (Hl c).
Qed.

Lemma trim_left_fixed (s : string) :
  (forall c, Text.front s = Some c -> Text.is_blank c = false) -> Text.trim_left s = s.
Proof.
  destruct s as [|x s]; simpl; [reflexivity|].
  intros H. now rewrite (H x eq_refl).
Qed.

Lemma trim_right_fixed (s : string) :
  (forall c, Text.back s = Some c -> Text.is_blank c = false) -> Text.trim_right s = s.
Proof.
  induction s as [|x s IH]; simpl; [reflexivity|].
  intros H. rewrite IH.
  - destruct s; [|now rewrite andb_false_r].
    now rewrite (H x eq_refl).
  - intros c Hc. apply H. destruct s; [discriminate | exact Hc].
Qed.

Lemma trim_parts (s : string) :
  (exists a b,
     s = (a ++ Text.trim s ++ b)%string /\ allBlank a = true /\ allBlank b = true)
  /\ (forall c, Text.front (Text.trim s) = Some c -> Text.is_blank c = false)
  /\ (forall c, Text.back (Text.trim s) = Some c -> Text.is_blank c = false).
Proof.
  unfold Text.trim.
  destruct (trim_left_spec s) as (a & Hs & Ha & Hfirst).
  destruct (trim_right_spec (Text.trim_left s)) as (b & Ht & Hb & Hlast & Hkeep).
  split; [|split; [|exact Hlast]].
  - exists a, b. split; [|split; assumption]. now rewrite <- Ht.
  - intros c Hc. destruct (Text.trim_left s) as [|x t] eqn:Hl; [discriminate Hc|].
    pose proof (Hfirst x eq_refl) as Hx.
    rewrite (Hkeep x eq_refl Hx) in Hc. now injection Hc as <-.
Qed.

Lemma trim_fixed (s : string) :
  (forall c, Text.front s = Some c -> Text.is_blank c = false) ->
  (forall c, Text.back s = Some c -> Text.is_blank c = false) ->
  Text.trim s = s.
Proof.
  intros Hf Hl. unfold Text.trim. rewrite (trim_left_fixed _ Hf).
  now apply trim_right_fixed.
Qed.

Lemma trim_idempotent (s : string) : Text.trim (Text.trim s) = Text.trim s.
Proof.
  destruct (trim_parts s) as (_ & Hf & Hl). now apply trim_fixed.
Qed.

(** X1. [trim] (OrderManager and PromotionManager have the same one)
    removes blanks (space, tab, line feed, carriage return) from the two
    ends and nothing else: the argument is the result between two runs
    of blanks, the result neither begins nor ends with a blank, and
    trimming twice is trimming once. *)
Theorem trim_strips_blank_ends (s : string) :
  (exists a b,
     s = (a ++ Text.trim s ++ b)%string /\ allBlank a = true /\ allBlank b = true)
  /\ (forall c, Text.front (Text.trim s) = Some c -> Text.is_blank c = false)
  /\ (forall c, Text.back (Text.trim s) = Some c -> Text.is_blank c = false)
  /\ Text.trim (Text.trim s) = Text.trim s.
Proof.
  destruct (trim_parts s) as (Hparts & Hf & Hl).
  repeat split; try assumption. apply trim_idempotent.
Qed.

Lemma trim_occurs (c : ascii) (s : string) :
  occurs c s = false -> occurs c (Text.trim s) = false.
Proof.
  intros H. destruct (trim_parts s) as ((a & b & Hs & _) & _).
  rewrite Hs, !occurs_append in H.
  apply orb_false_iff in H as [_ H]. now apply orb_false_iff in H as [H _].
Qed.

(** ** Splitting a line *)

Lemma split_aux_pieces (delim : ascii) (s : string) :
  forall cur,
    occurs delim cur = false ->
    forall piece, In piece (Text.split_aux delim cur s) -> occurs delim piece = false.
Proof.
  induction s as [|x s IH]; intros cur Hcur piece; simpl.
  - destruct (String.eqb cur EmptyString); [intros [] | intros [<-|[]]; exact Hcur].
  - destruct (Ascii.eqb_spec x delim) as [->|Hne].
    + intros [<-|Hin]; [exact Hcur | now apply (IH EmptyString)].
    + apply IH. rewrite occurs_append, Hcur. simpl.
      apply Ascii.eqb_neq in Hne. now rewrite Hne.
Qed.

Lemma split_aux_nonempty (delim : ascii) (s : string) :
  forall cur, s <> EmptyString \/ cur <> EmptyString -> Text.split_aux delim cur s <> [].
Proof.
  induction s as [|x s IH]; intros cur H; simpl.
  - destruct H as [H|H]; [contradiction|].
    apply String.eqb_neq in H. now rewrite H.
  - destruct (Ascii.eqb x delim); [discriminate|].
    apply IH. right. destruct cur; discriminate.
Qed.

(** X2. [parseCSVLine] yields at least one field for a line that is not
    empty (so the [fields[0]] that [PromotionManager::loadFromFile] prints
    for a short line exists), and every field it yields is free of commas
    and trimmed. *)
Theorem parseCSVLine_fields (line : string) :
  (line <> EmptyString -> Text.parseCSVLine line <> [])
  /\ forall field,
       In field (Text.parseCSVLine line) ->
       occurs "," field = false /\ Text.trim field = field.
Proof.
  unfold Text.parseCSVLine, Text.getlines. split.
  - intros Hne Hnil. apply map_eq_nil in Hnil.
    now apply (split_aux_nonempty "," line EmptyString (or_introl Hne)).
  - intros field Hin. apply in_map_iff in Hin as (piece & <- & Hin).
    split; [|apply trim_idempotent].
    apply trim_occurs. now apply (split_aux_pieces "," line EmptyString).
Qed.

(** ** Orders by id and by user *)

(** The name [saveToFile] writes for a status is read back by
    [stringToStatus] as that status. *)
Lemma status_name_round_trip (o : Order.t) :
  Order.stringToStatus (Order.getStatusString o) = Order.status o.
Proof. unfold Order.getStatusString. now destruct (Order.status o). Qed.

Lemma findIndex_spec (orderId : string) (os : list Order.t) :
  match OrderManager.findIndex orderId os with
  | Some i =>
      exists o, os !! i = Some o /\ Order.orderId o = orderId
                /\ forall j o', (j < i)%nat -> os !! j = Some o' ->
                                Order.orderId o' <> orderId
  | None => forall o, In o os -> Order.orderId o <> orderId
  end.
Proof.
  induction os as [|x os IH]; simpl; [intros o []|].
  destruct (String.eqb_spec (Order.orderId x) orderId) as [He|Hne].
  - exists x. repeat split; [exact He|]. intros j o' Hj. lia.
  - destruct (OrderManager.findIndex orderId os) as [i|]; simpl.
    + destruct IH as (o & Hi & Ho & Hbefore). exists o. repeat split; try assumption.
      intros [|j] o' Hj; simpl; [now intros [= <-]|].
      apply Hbefore. lia.
    + intros o [<-|Hin]; [exact Hne | now apply IH].
Qed.

Lemma findIndex_found (orderId : string) (os : list Order.t) (k : nat) (o : Order.t) :
  os !! k = Some o -> Order.orderId o = orderId ->
  exists i, OrderManager.findIndex orderId os = Some i /\ (i <= k)%nat.
Proof.
  intros Hk Ho. pose proof (findIndex_spec orderId os) as Hspec.
  destruct (OrderManager.findIndex orderId os) as [i|].
  - exists i. split; [reflexivity|].
    destruct Hspec as (o' & _ & _ & Hbefore).
    destruct (le_lt_dec i k) as [|Hlt]; [assumption|].
    exfalso. exact (Hbefore k o Hlt Hk Ho).
  - exfalso. apply (Hspec o); [|exact Ho].
    apply list_elem_of_In. now apply list_elem_of_lookup_2 in Hk.
Qed.

(** X3. [findOrderById] returns the first order in storage order that
    carries the id, and [nullptr] exactly when no order carries it. *)
Theorem findOrderById_first_match (orderId : string) (m : OrderManager.t) :
  match OrderManager.findOrderById orderId m with
  | Some order =>
      exists i,
        OrderManager.orders m !! i = Some order
        /\ Order.orderId order = orderId
        /\ forall j o, (j < i)%nat -> OrderManager.orders m !! j = Some o ->
                       Order.orderId o <> orderId
  | None => forall o, In o (OrderManager.orders m) -> Order.orderId o <> orderId
  end.
Proof.
  unfold OrderManager.findOrderById.
  pose proof (findIndex_spec orderId (OrderManager.orders m)) as Hspec.
  destruct (OrderManager.findIndex orderId (OrderManager.orders m)) as [i|]; [|exact Hspec].
  destruct Hspec as (o & Hi & Ho & Hbefore). rewrite Hi.
  exists i. repeat split; assumption.
Qed.

(** X4. [updateOrderStatus] on an id no order carries returns false and
    changes nothing, without a save; on an id some order carries it
    returns true, gives the new status and the clock reading to the
    first order with the id, leaves every other slot as it was, and
    calls [saveToFile] once. *)
Theorem updateOrderStatus_touches_first_match (orderId : string)
    (newStatus : OrderStatus) (now : Z) (m : OrderManager.t) :
  let r := OrderManager.updateOrderStatus orderId newStatus now m in
  ((forall o, In o (OrderManager.orders m) -> Order.orderId o <> orderId) ->
   r = (false, m))
  /\ ((exists o, In o (OrderManager.orders m) /\ Order.orderId o = orderId) ->
      fst r = true
      /\ OrderManager.saveCalls (snd r) = S (OrderManager.saveCalls m)
      /\ (OrderManager.writable m = true ->
          OrderManager.file (snd r) = OrderManager.orders (snd r))
      /\ exists i o,
           OrderManager.orders m !! i = Some o
           /\ Order.orderId o = orderId
           /\ (forall j o', (j < i)%nat -> OrderManager.orders m !! j = Some o' ->
                            Order.orderId o' <> orderId)
           /\ OrderManager.orders (snd r)
              = <[i := Order.setStatus newStatus now o]> (OrderManager.orders m)
           /\ Order.status (Order.setStatus newStatus now o) = newStatus
           /\ Order.statusChangeTime (Order.setStatus newStatus now o) = now).
Proof.
  intros r. subst r. unfold OrderManager.updateOrderStatus.
  pose proof (findIndex_spec orderId (OrderManager.orders m)) as Hspec.
  destruct (OrderManager.findIndex orderId (OrderManager.orders m)) as [i|]; split.
  - intros Hnone. destruct Hspec as (o & Hi & Ho & _).
    exfalso. apply (Hnone o); [|exact Ho].
    apply list_elem_of_In. now apply list_elem_of_lookup_2 in Hi.
  - intros _. destruct Hspec as (o & Hi & Ho & Hbefore).
    unfold OrderManager.saveToFile, OrderManager.with_orders. cbn.
    assert (Halter : alter (Order.setStatus newStatus now) i (OrderManager.orders m)
                     = <[i := Order.setStatus newStatus now o]> (OrderManager.orders m)).
    { apply list_eq. intros j. destruct (decide (j = i)) as [->|Hne].
      - rewrite list_lookup_alter_eq, Hi. simpl.
        symmetry. apply list_lookup_insert_eq. now apply lookup_lt_Some in Hi.
      - rewrite list_lookup_alter_ne by congruence.
        now rewrite list_lookup_insert_ne by congruence. }
    destruct (OrderManager.writable m) eqn:Hw; cbn;
      (split; [reflexivity|]); (split; [reflexivity|]);
      (split; [congruence|]); exists i, o; repeat split; try assumption.
  - reflexivity.
  - intros (o & Hin & Ho). exfalso. exact (Hspec o Hin Ho).
Qed.

Lemma ordersOf_app (userId : string) (a b : list Order.t) :
  OrderManager.ordersOf userId (a ++ b)
  = OrderManager.ordersOf userId a ++ OrderManager.ordersOf userId b.
Proof.
  induction a as [|x a IH]; simpl; [reflexivity|].
  destruct (String.eqb (Order.userId x) userId); simpl; now rewrite IH.
Qed.

Lemma create_ids `{Runtime} (userId shippingAddress : string) (cartItems : Basket)
    (hasManager : bool) (now : Z) (w w' : ItemWorld) (o : Order.t) :
  Order.create userId cartItems shippingAddress hasManager now w = (Return o, w') ->
  Order.userId o = userId /\ Order.orderId o = Order.generateOrderId userId now
  /\ Order.shippingAddress o = shippingAddress.
Proof.
  unfold Order.create.
  destruct (Order.fill cartItems (heap w) [] 0%float) as [[[items total]|e|] h'];
    intros [= <- _]; repeat split.
Qed.

Lemma createOrder_appends `{Runtime} (userId shippingAddress : string) (cartItems : Basket)
    (now : Z) (m m' : OrderManager.t) (w w' : ItemWorld) (order : Order.t) :
  OrderManager.createOrder userId cartItems shippingAddress now m w
  = (Return (Some order), m', w') ->
  OrderManager.orders m' = OrderManager.orders m ++ [order]
  /\ Order.userId order = userId
  /\ Order.orderId order = Order.generateOrderId userId now.
Proof.
  unfold OrderManager.createOrder.
  destruct (Order.create userId cartItems shippingAddress (OrderManager.hasItemManager m)
              now w) as [[o|e|] w1] eqn:Hc; intros [= <- <- _].
  destruct (create_ids _ _ _ _ _ _ _ _ Hc) as (Hu & Hi & _).
  split; [|split; assumption].
  unfold OrderManager.saveToFile, OrderManager.with_orders. cbn.
  now destruct (OrderManager.writable m).
Qed.

(** X5. [getOrdersByUserId] returns the orders of the user in storage
    order; an order that [createOrder] returns is from then on the last
    of its user's orders, and the orders of every other user are as
    before. *)
Theorem createOrder_extends_the_users_orders `{Runtime} (userId shippingAddress : string)
    (cartItems : Basket) (now : Z) (m m' : OrderManager.t) (w w' : ItemWorld)
    (order : Order.t) :
  OrderManager.createOrder userId cartItems shippingAddress now m w
  = (Return (Some order), m', w') ->
  OrderManager.getOrdersByUserId userId m'
  = OrderManager.getOrdersByUserId userId m ++ [order]
  /\ (forall other, other <> userId ->
                    OrderManager.getOrdersByUserId other m'
                    = OrderManager.getOrdersByUserId other m)
  /\ forall u o, In o (OrderManager.getOrdersByUserId u m')
                 <-> In o (OrderManager.orders m') /\ Order.userId o = u.
Proof.
  intros Hc. destruct (createOrder_appends _ _ _ _ _ _ _ _ _ Hc) as (Ho & Hu & _).
  unfold OrderManager.getOrdersByUserId. rewrite Ho, ordersOf_app.
  cbn [OrderManager.ordersOf].
  split; [|split].
  - rewrite Hu, String.eqb_refl. reflexivity.
  - intros other Hne. rewrite ordersOf_app. cbn [OrderManager.ordersOf]. rewrite Hu.
    apply not_eq_sym, String.eqb_neq in Hne. rewrite Hne. apply app_nil_r.
  - intros u o.
    generalize (OrderManager.orders m ++ [order]). intros os.
    induction os as [|x os IH]; cbn [OrderManager.ordersOf]; [simpl; tauto|].
    destruct (String.eqb_spec (Order.userId x) u) as [He|Hne]; simpl; rewrite IH.
    + split; [intros [<-|[? ?]]; auto | intros [[<-|?] ?]; auto].
    + split; [intros [? ?]; auto | intros [[<-|?] ?]; [contradiction | auto]].
Qed.

(** X6. The id of an order is made of the user and the second it was
    created in: two orders [createOrder] returns for one user under the
    same clock reading carry the same id.  [findOrderById] on that id
    then stops at an earlier slot, and [updateOrderStatus] never changes
    the later order. *)
Theorem same_second_orders_share_an_id `{Runtime} (userId : string)
    (basket1 basket2 : Basket) (address1 address2 : string) (now : Z)
    (m m1 m2 : OrderManager.t) (w w1 w2 : ItemWorld) (o1 o2 : Order.t) :
  OrderManager.createOrder userId basket1 address1 now m w = (Return (Some o1), m1, w1) ->
  OrderManager.createOrder userId basket2 address2 now m1 w1 = (Return (Some o2), m2, w2) ->
  Order.orderId o2 = Order.orderId o1
  /\ last (OrderManager.orders m2) = Some o2
  /\ (exists i, OrderManager.findIndex (Order.orderId o2) (OrderManager.orders m2) = Some i
                /\ (S i < List.length (OrderManager.orders m2))%nat)
  /\ forall newStatus t,
       last (OrderManager.orders
               (snd (OrderManager.updateOrderStatus (Order.orderId o2) newStatus t m2)))
       = Some o2.
Proof.
  intros H1 H2.
  destruct (createOrder_appends _ _ _ _ _ _ _ _ _ H1) as (Ho1 & _ & Hi1).
  destruct (createOrder_appends _ _ _ _ _ _ _ _ _ H2) as (Ho2 & _ & Hi2).
  assert (Hid : Order.orderId o2 = Order.orderId o1) by congruence.
  assert (Hlast : last (OrderManager.orders m2) = Some o2) by (rewrite Ho2; apply last_snoc).
  assert (Hlen : List.length (OrderManager.orders m2)
                 = S (S (List.length (OrderManager.orders m)))).
  { rewrite Ho2, Ho1, !length_app. simpl. lia. }
  assert (Hk : OrderManager.orders m2 !! List.length (OrderManager.orders m) = Some o1).
  { rewrite Ho2, Ho1. rewrite lookup_app_l by (rewrite length_app; simpl; lia).
    rewrite lookup_app_r by lia. now rewrite Nat.sub_diag. }
  destruct (findIndex_found (Order.orderId o2) _ _ _ Hk (eq_sym Hid)) as (i & Hfind & Hle).
  split; [exact Hid|]. split; [exact Hlast|]. split.
  - exists i. split; [exact Hfind|]. lia.
  - intros newStatus t. unfold OrderManager.updateOrderStatus. rewrite Hfind.
    unfold OrderManager.saveToFile, OrderManager.with_orders. cbn.
    assert (Hgoal : last (alter (Order.setStatus newStatus t) i (OrderManager.orders m2))
                    = Some o2).
    { rewrite last_lookup, length_alter, list_lookup_alter_ne by lia.
      now rewrite <- last_lookup. }
    destruct (OrderManager.writable m2); cbn; exact Hgoal.
Qed.

(** * Further properties: numbers as text *)

Lemma uint_digits (d : Decimal.uint) : allDigits (NilEmpty.string_of_uint d) = true.
Proof. induction d; simpl; auto. Qed.

Lemma digits_acc_uint (d : Decimal.uint) :
  forall acc : positive,
    Text.digits_acc (Z.pos acc) (NilEmpty.string_of_uint d)
    = Z.pos (Pos.of_uint_acc d acc).
Proof.
  induction d; intros acc; cbn [NilEmpty.string_of_uint Pos.of_uint_acc Text.digits_acc];
    [reflexivity| | | | | | | | | |];
    match goal with
    | |- (if Text.is_digit ?c then _ else _) = _ =>
        change (Text.is_digit c) with true; cbv iota;
        let v := eval vm_compute in (Text.digit_value c) in
        change (Text.digit_value c) with v
    end;
    try rewrite Z.add_0_r; rewrite <- IHd; f_equal; lia.
Qed.

Lemma digits_uint (d : Decimal.uint) :
  Text.digits_acc 0 (NilEmpty.string_of_uint d) = Z.of_N (Pos.of_uint d).
Proof.
  induction d; cbn [NilEmpty.string_of_uint Pos.of_uint Text.digits_acc];
    [reflexivity| | | | | | | | | |];
    match goal with
    | |- (if Text.is_digit ?c then _ else _) = _ =>
        change (Text.is_digit c) with true; cbv iota;
        let v := eval vm_compute in (Text.digit_value c) in
        change (Text.digit_value c) with v
    end;
    change (10 * 0 + 0) with 0; try exact IHd;
    match goal with
    | |- Text.digits_acc ?k _ = _ =>
        let p := eval vm_compute in (Z.to_pos k) in
        change k with (Z.pos p); rewrite digits_acc_uint; reflexivity
    end.
Qed.

Lemma to_uint_not_nil (p : positive) : Pos.to_uint p <> Decimal.Nil.
Proof.
  intros He. pose proof (DecimalPos.Unsigned.of_to p) as Hp.
  rewrite He in Hp. discriminate Hp.
Qed.

Lemma to_string_pos (p : positive) :
  Text.to_string (Z.pos p) = NilEmpty.string_of_uint (Pos.to_uint p).
Proof.
  unfold Text.to_string. simpl. pose proof (to_uint_not_nil p) as Hn.
  unfold NilZero.string_of_uint. now destruct (Pos.to_uint p).
Qed.

Lemma to_string_neg (p : positive) :
  Text.to_string (Z.neg p) = String "-" (Text.to_string (Z.pos p)).
Proof. reflexivity. Qed.

(** [std::to_string] of a number that is not negative is its decimal
    digits. *)
Lemma to_string_digits (z : Z) :
  0 <= z ->
  allDigits (Text.to_string z) = true
  /\ Text.to_string z <> EmptyString
  /\ decimal (Text.to_string z) = z.
Proof.
  intros Hz. destruct z as [|p|p]; [repeat split; discriminate | | lia].
  rewrite to_string_pos.
  pose proof (uint_digits (Pos.to_uint p)) as Hd.
  pose proof (digits_uint (Pos.to_uint p)) as Hv.
  rewrite DecimalPos.Unsigned.of_to in Hv.
  rewrite (digits_acc_decimal _ 0 Hd) in Hv. simpl in Hv.
  repeat split; [exact Hd | | exact Hv].
  intros He. rewrite He in Hv. discriminate Hv.
Qed.

Lemma allDigits_occurs (c : ascii) (s : string) :
  allDigits s = true -> Text.is_digit c = false -> occurs c s = false.
Proof.
  intros Hs Hc. induction s as [|x s IH]; simpl in *; [reflexivity|].
  apply andb_true_iff in Hs as [Hx Hs]. rewrite (IH Hs), orb_false_r.
  apply Ascii.eqb_neq. intros ->. congruence.
Qed.

(** Only digits and the minus sign occur in a printed integer. *)
Lemma to_string_occurs (c : ascii) (z : Z) :
  Text.is_digit c = false -> c <> "-"%char -> occurs c (Text.to_string z) = false.
Proof.
  intros Hc Hm. destruct z as [|p|p].
  - apply allDigits_occurs; [reflexivity | exact Hc].
  - apply allDigits_occurs; [|exact Hc]. apply to_string_digits. lia.
  - rewrite to_string_neg. cbn [occurs].
    apply not_eq_sym, Ascii.eqb_neq in Hm. rewrite Hm. cbn [orb].
    apply allDigits_occurs; [|exact Hc]. apply to_string_digits. lia.
Qed.

Lemma to_string_nonempty (z : Z) : Text.to_string z <> EmptyString.
Proof.
  destruct z as [|p|p]; [discriminate | | rewrite to_string_neg; discriminate].
  apply to_string_digits. lia.
Qed.

Lemma parse_digits (lo hi : Z) (s : string) :
  allDigits s = true -> s <> EmptyString -> lo <= decimal s <= hi ->
  Text.parse_integer lo hi s = Some (decimal s).
Proof.
  intros Hd Hne Hr. destruct s as [|c r]; [contradiction|].
  assert (Hc : Text.is_digit c = true) by (simpl in Hd; now apply andb_true_iff in Hd).
  destruct (digit_is_plain c Hc) as (Hsp & Hminus & Hplus).
  unfold Text.parse_integer.
  cbn [Text.skip_space]. rewrite Hsp, Hminus, Hplus.
  cbn [Text.leading_number]. rewrite Hc.
  rewrite (digits_acc_decimal _ 0 Hd). rewrite Z.mul_0_l, Z.add_0_l.
  destruct (Z.leb_spec lo (decimal (String c r))); [|lia].
  destruct (Z.leb_spec (decimal (String c r)) hi); [|lia].
  reflexivity.
Qed.

Lemma parse_minus_digits (lo hi : Z) (s : string) :
  allDigits s = true -> s <> EmptyString -> lo <= - decimal s <= hi ->
  Text.parse_integer lo hi (String "-" s) = Some (- decimal s).
Proof.
  intros Hd Hne Hr. destruct s as [|c r]; [contradiction|].
  assert (Hc : Text.is_digit c = true) by (simpl in Hd; now apply andb_true_iff in Hd).
  unfold Text.parse_integer.
  cbn [Text.skip_space]. change (Text.is_space "-") with false. cbv iota.
  change (Ascii.eqb "-" "-") with true. cbv iota.
  cbn [Text.leading_number]. rewrite Hc.
  rewrite (digits_acc_decimal _ 0 Hd). rewrite Z.mul_0_l, Z.add_0_l.
  destruct (Z.leb_spec lo (- decimal (String c r))); [|lia].
  destruct (Z.leb_spec (- decimal (String c r)) hi); [|lia].
  reflexivity.
Qed.

(** Printing an integer and parsing the text gives the integer back. *)
Lemma parse_to_string (lo hi z : Z) :
  lo <= z <= hi -> Text.parse_integer lo hi (Text.to_string z) = Some z.
Proof.
  intros Hr.
  assert (Hnat : forall n, 0 <= n -> lo <= n <= hi ->
                   Text.parse_integer lo hi (Text.to_string n) = Some n).
  { intros n Hn Hb. destruct (to_string_digits n Hn) as (Hd & Hne & Hv).
    transitivity (Some (decimal (Text.to_string n))); [|now rewrite Hv].
    apply parse_digits; try assumption. now rewrite Hv. }
  destruct z as [|p|p]; [apply Hnat; lia | apply Hnat; lia |].
  destruct (to_string_digits (Z.pos p) ltac:(lia)) as (Hd & Hne & Hv).
  rewrite to_string_neg.
  transitivity (Some (- decimal (Text.to_string (Z.pos p)))); [|now rewrite Hv].
  apply parse_minus_digits; try assumption. rewrite Hv. lia.
Qed.

(** X7. [stringToTime] reads back what [timeToString] wrote, for every
    value of a 64-bit [time_t]; the empty string and a text that is not
    a number are read as 0. *)
Theorem time_text_round_trip (time : Z) :
  in_time time ->
  PromotionManager.stringToTime (PromotionManager.timeToString time) = time
  /\ PromotionManager.stringToTime EmptyString = 0
  /\ forall str, Text.stoll str = None -> PromotionManager.stringToTime str = 0.
Proof.
  intros Ht. unfold PromotionManager.stringToTime, PromotionManager.timeToString.
  split; [|split; [reflexivity|]].
  - pose proof (to_string_nonempty time) as Hne.
    apply String.eqb_neq in Hne. rewrite Hne.
    unfold Text.stoll. now rewrite parse_to_string.
  - intros str ->. now destruct (String.eqb str EmptyString).
Qed.

Lemma time_text_round_trip_witness :
  PromotionManager.stringToTime (PromotionManager.timeToString 1765152000) = 1765152000.
Proof.
  apply (time_text_round_trip 1765152000). unfold in_time. lia.
Defined.

(** ** A fresh promotion id *)

Lemma maxSuffix_lower (ps : PromotionManager.t) :
  forall maxNum, maxNum <= PromotionManager.maxSuffix ps maxNum.
Proof.
  induction ps as [|p rest IH]; intros maxNum; cbn [PromotionManager.maxSuffix]; [lia|].
  cbv zeta.
  destruct ((8 <=? String.length (Promotion.promotionId p))%nat
            && String.eqb (Text.take 5 (Promotion.promotionId p)) "PROMO"); [|apply IH].
  destruct (Text.stoi (Text.drop 5 (Promotion.promotionId p))) as [num|]; [|apply IH].
  destruct (Z.ltb_spec maxNum num); [|apply IH].
  specialize (IH num). lia.
Qed.

Lemma maxSuffix_upper (ps : PromotionManager.t) :
  forall maxNum p num,
    In p ps -> scanned p = true -> Text.stoi (suffixOf p) = Some num ->
    num <= PromotionManager.maxSuffix ps maxNum.
Proof.
  induction ps as [|q rest IH]; intros maxNum p num Hin Hs Hnum; [destruct Hin|].
  cbn [PromotionManager.maxSuffix]. cbv zeta. fold (scanned q). fold (suffixOf q).
  destruct Hin as [->|Hin].
  - rewrite Hs, Hnum.
    destruct (Z.ltb_spec maxNum num).
    + apply maxSuffix_lower.
    + pose proof (maxSuffix_lower rest maxNum). lia.
  - destruct (scanned q); [|now apply (IH _ p)].
    destruct (Text.stoi (suffixOf q)) as [n|]; [|now apply (IH _ p)].
    destruct (Z.ltb_spec maxNum n); now apply (IH _ p).
Qed.

Lemma replicate_zero_digits (n : nat) (s : string) :
  allDigits s = true ->
  allDigits (Text.replicate_char n "0" ++ s) = true
  /\ decimal (Text.replicate_char n "0" ++ s) = decimal s.
Proof.
  intros Hs. induction n as [|n [IH1 IH2]]; cbn [Text.replicate_char]; sapp.
  - split; [exact Hs | reflexivity].
  - cbn [allDigits decimal]. rewrite IH1, IH2. split; [reflexivity|].
    change (Text.digit_value "0") with 0. lia.
Qed.

Lemma length_append (a b : string) :
  String.length (a ++ b) = (String.length a + String.length b)%nat.
Proof. induction a as [|x a IH]; sapp; simpl; [reflexivity | now rewrite IH]. Qed.

Lemma length_replicate_char (n : nat) (c : ascii) :
  String.length (Text.replicate_char n c) = n.
Proof. induction n as [|n IH]; simpl; [reflexivity | now rewrite IH]. Qed.

Lemma setw_length (w : nat) (c : ascii) (s : string) :
  (w <= String.length (Text.setw w c s))%nat.
Proof.
  unfold Text.setw. rewrite length_append, length_replicate_char. lia.
Qed.

Lemma take_append (a b : string) : Text.take (String.length a) (a ++ b) = a.
Proof. induction a as [|x a IH]; sapp; simpl; [now destruct b | now rewrite IH]. Qed.

Lemma drop_append (a b : string) : Text.drop (String.length a) (a ++ b) = b.
Proof. induction a as [|x a IH]; sapp; simpl; [reflexivity | exact IH]. Qed.

Lemma existsb_id_false (id : string) (ps : PromotionManager.t) :
  (forall p, In p ps -> Promotion.promotionId p <> id) ->
  existsb (fun p => String.eqb (Promotion.promotionId p) id) ps = false.
Proof.
  intros H. induction ps as [|q rest IH]; simpl; [reflexivity|].
  rewrite IH by (intros p Hp; apply H; now right).
  rewrite orb_false_r. apply String.eqb_neq, H. now left.
Qed.

(** X8. The id [generatePromotionId] returns is carried by no
    promotion of the catalogue, whenever the largest number the
    generator found is below INT_MAX (above, the [int] it increments
    overflows); [addPromotion] therefore accepts a promotion created
    under that id, and appends it. *)
Theorem generated_id_is_fresh `{Stream} (ps : PromotionManager.t)
    (f : PromotionManager.File) (promotion : Promotion.t) :
  PromotionManager.maxSuffix ps 0 < CInt.INT_MAX ->
  Promotion.promotionId promotion = PromotionManager.generatePromotionId ps ->
  (forall p, In p ps -> Promotion.promotionId p <> Promotion.promotionId promotion)
  /\ snd (fst (PromotionManager.addPromotion (Some promotion) ps f)) = ps ++ [promotion]
  /\ fst (fst (PromotionManager.addPromotion (Some promotion) ps f))
     = PromotionManager.opens f.
Proof.
  intros Hmax Hid.
  pose proof (maxSuffix_lower ps 0) as Hlow.
  set (n := PromotionManager.maxSuffix ps 0) in *.
  assert (Hgen : PromotionManager.generatePromotionId ps
                 = ("PROMO" ++ Text.setw 3 "0" (Text.to_string (n + 1)))%string).
  { unfold PromotionManager.generatePromotionId. fold n. unfold CInt.add.
    rewrite wrap32_id; [reflexivity|].
    unfold CInt.in_int, CInt.INT_MIN, CInt.INT_MAX in *. lia. }
  destruct (to_string_digits (n + 1) ltac:(lia)) as (Hd & Hne & Hv).
  destruct (replicate_zero_digits (3 - String.length (Text.to_string (n + 1)))
              _ Hd) as (Hpd & Hpv).
  fold (Text.setw 3 "0" (Text.to_string (n + 1))) in Hpd, Hpv.
  assert (Hfresh : forall p, In p ps ->
                     Promotion.promotionId p <> Promotion.promotionId promotion).
  { intros p Hin He. rewrite Hid, Hgen in He.
    assert (Hs : scanned p = true).
    { unfold scanned. rewrite He.
      change "PROMO"%string with ("PROMO" ++ "")%string at 2.
      rewrite (take_append "PROMO"). rewrite length_append.
      pose proof (setw_length 3 "0" (Text.to_string (n + 1))) as Hl.
      apply andb_true_iff. split; [apply Nat.leb_le; simpl; lia | reflexivity]. }
    assert (Hnum : Text.stoi (suffixOf p) = Some (n + 1)).
    { unfold suffixOf. rewrite He. rewrite (drop_append "PROMO").
      rewrite <- Hv at 2. rewrite <- Hpv. apply stoi_digits.
      - exact Hpd.
      - intros Hempty. pose proof (setw_length 3 "0" (Text.to_string (n + 1))) as Hl.
        rewrite Hempty in Hl. simpl in Hl. lia.
      - rewrite Hpv, Hv. lia. }
    pose proof (maxSuffix_upper ps 0 p (n + 1) Hin Hs Hnum) as Hup.
    fold n in Hup. lia. }
  split; [exact Hfresh|].
  unfold PromotionManager.addPromotion.
  rewrite (existsb_id_false _ _ Hfresh).
  unfold PromotionManager.saving, PromotionManager.saveToFile.
  destruct (PromotionManager.opens f); split; reflexivity.
Qed.

Lemma createOrder_extends_the_users_orders_witness :
  exists order m',
    fst (OrderManager.createOrder (H := demo_runtime) "u1" Shop.basket1 "addr" 1000
           Sample.manager Sample.world) = (Return (Some order), m')
    /\ OrderManager.getOrdersByUserId "u1" m' = [order]
    /\ OrderManager.getOrdersByUserId "u2" m' = [].
Proof.
  pose (r := OrderManager.createOrder (H := demo_runtime) "u1" Shop.basket1 "addr" 1000
               Sample.manager Sample.world).
  assert (Hr : exists order, r = (Return (Some order), snd (fst r), snd r)).
  { vm_compute. eexists. reflexivity. }
  destruct Hr as (order & Hr).
  destruct (createOrder_extends_the_users_orders (H := demo_runtime)
              _ _ _ _ _ _ _ _ _ Hr) as (Hown & Hother & _).
  exists order, (snd (fst r)). split; [fold r; now rewrite Hr at 1|].
  split; [exact Hown | exact (Hother "u2" ltac:(discriminate))].
Defined.

Lemma same_second_orders_share_an_id_witness :
  exists o1 o2 m2,
    Order.orderId o2 = Order.orderId o1
    /\ OrderManager.orders m2 = [o1; o2]
    /\ Order.shippingAddress o1 = "home" /\ Order.shippingAddress o2 = "office"
    /\ OrderManager.orders
         (snd (OrderManager.updateOrderStatus (Order.orderId o2) DELIVERED 1500 m2))
       = [Order.setStatus DELIVERED 1500 o1; o2].
Proof.
  pose (r1 := OrderManager.createOrder (H := demo_runtime) "u1" Shop.basket1 "home" 1000
                Sample.manager Sample.world).
  pose (r2 := OrderManager.createOrder (H := demo_runtime) "u1" Shop.basket2 "office" 1000
                (snd (fst r1)) (snd r1)).
  assert (H1 : exists o1, r1 = (Return (Some o1), snd (fst r1), snd r1)
                          /\ Order.shippingAddress o1 = "home"
                          /\ OrderManager.orders (snd (fst r1)) = [o1]).
  { vm_compute. eexists. repeat split. }
  destruct H1 as (o1 & H1 & Ha1 & Hl1).
  assert (H2 : exists o2, r2 = (Return (Some o2), snd (fst r2), snd r2)
                          /\ Order.shippingAddress o2 = "office").
  { vm_compute. eexists. repeat split. }
  destruct H2 as (o2 & H2 & Ha2).
  destruct (same_second_orders_share_an_id (H := demo_runtime)
              _ _ _ _ _ _ _ _ _ _ _ _ _ _ H1 H2) as (Hid & _ & _ & _).
  destruct (createOrder_appends (H := demo_runtime) _ _ _ _ _ _ _ _ _ H2) as (Ho2 & _).
  exists o1, o2, (snd (fst r2)).
  split; [exact Hid|]. split; [now rewrite Ho2, Hl1|].
  split; [exact Ha1|]. split; [exact Ha2|].
  unfold OrderManager.updateOrderStatus. rewrite Ho2, Hl1, Hid.
  change ([o1] ++ [o2]) with [o1; o2].
  cbn [OrderManager.findIndex]. rewrite String.eqb_refl.
  unfold OrderManager.saveToFile, OrderManager.with_orders. cbn.
  now destruct (OrderManager.writable (snd (fst r2))).
Defined.

Lemma generated_id_is_fresh_witness :
  PromotionManager.generatePromotionId [Ids.seven; Ids.short] = "PROMO008"
  /\ snd (fst (PromotionManager.addPromotion (H := demo_stream) (Some Shop.newcomer)
                 [Ids.seven; Ids.short] Shop.promotionsFile))
     = [Ids.seven; Ids.short; Shop.newcomer].
Proof.
  split; [reflexivity|].
  refine (proj1 (proj2 (generated_id_is_fresh (H := demo_stream) [Ids.seven; Ids.short]
                          Shop.promotionsFile Shop.newcomer _ _))).
  - vm_compute. reflexivity.
  - reflexivity.
Defined.

(** * Further properties: the order file *)

Lemma split_aux_prefix (delim : ascii) (p : string) :
  occurs delim p = false ->
  forall cur t,
    Text.split_aux delim cur (p ++ t) = Text.split_aux delim (cur ++ p) t.
Proof.
  induction p as [|x p IH]; intros Hp cur t; sapp.
  - now rewrite append_nil_r.
  - simpl in Hp. apply orb_false_iff in Hp as [Hx Hp].
    cbn [Text.split_aux]. rewrite Hx. rewrite (IH Hp).
    now rewrite append_assoc.
Qed.

Lemma split_aux_piece (delim : ascii) (p : string) :
  occurs delim p = false ->
  forall cur t,
    Text.split_aux delim cur (p ++ String delim t)
    = (cur ++ p)%string :: Text.split_aux delim EmptyString t.
Proof.
  intros Hp cur t. rewrite (split_aux_prefix _ _ Hp).
  cbn [Text.split_aux]. now rewrite Ascii.eqb_refl.
Qed.

Lemma getlines_joinedTo (delim : ascii) (pieces : list string) (last : string) :
  Forall (fun p => occurs delim p = false) pieces ->
  occurs delim last = false ->
  Text.getlines delim (joinedTo delim pieces last)
  = pieces ++ (if String.eqb last EmptyString then [] else [last]).
Proof.
  intros Hp Hl. unfold Text.getlines.
  induction Hp as [|p pieces Hx Hps IH]; cbn [joinedTo fold_right].
  - rewrite <- (append_nil_r last) at 1.
    rewrite (split_aux_prefix _ _ Hl). reflexivity.
  - rewrite (split_aux_piece _ _ Hx). simpl. f_equal. exact IH.
Qed.

Lemma occurs_joinedTo (c delim : ascii) (pieces : list string) (last : string) :
  c <> delim ->
  Forall (fun p => occurs c p = false) pieces ->
  occurs c last = false ->
  occurs c (joinedTo delim pieces last) = false.
Proof.
  intros Hne Hp Hl. induction Hp as [|p pieces Hx Hps IH]; cbn [joinedTo fold_right].
  - exact Hl.
  - rewrite occurs_append, Hx. cbn [occurs orb].
    fold (joinedTo delim pieces last). rewrite IH, orb_false_r.
    apply Ascii.eqb_neq. congruence.
Qed.

Lemma firstChar_occurs (s : string) (c : ascii) :
  Text.front s = Some c -> occurs c s = true.
Proof.
  destruct s; simpl; intros [= <-]. now rewrite Ascii.eqb_refl.
Qed.

Lemma lastChar_occurs (s : string) (c : ascii) :
  Text.back s = Some c -> occurs c s = true.
Proof.
  induction s as [|x s IH]; [discriminate|].
  cbn [Text.back occurs]. destruct s.
  - intros [= <-]. now rewrite Ascii.eqb_refl.
  - intros Hl. rewrite (IH Hl). apply orb_true_r.
Qed.

Lemma trim_no_blank (s : string) :
  (forall c, Text.is_blank c = true -> occurs c s = false) -> Text.trim s = s.
Proof.
  intros H. apply trim_fixed; intros c Hc.
  - apply firstChar_occurs in Hc. destruct (Text.is_blank c) eqn:Hb; [|reflexivity].
    rewrite (H c Hb) in Hc. discriminate.
  - apply lastChar_occurs in Hc. destruct (Text.is_blank c) eqn:Hb; [|reflexivity].
    rewrite (H c Hb) in Hc. discriminate.
Qed.

Lemma blank_not_digit (c : ascii) :
  Text.is_blank c = true -> Text.is_digit c = false /\ c <> "-"%char.
Proof.
  destruct c as [[] [] [] [] [] [] [] []]; intros H; try discriminate H;
    split; (reflexivity || discriminate).
Qed.

Lemma occurs_In (c : ascii) (s : string) :
  occurs c s = true -> In c (list_ascii_of_string s).
Proof.
  induction s as [|x s IH]; simpl; [discriminate|].
  intros H. apply orb_true_iff in H as [H|H].
  - left. now apply Ascii.eqb_eq in H.
  - right. now apply IH.
Qed.

(** A character outside the alphabet of a printed [double] does not
    occur in one. *)
Lemma show_double_occurs `{Stream} (c : ascii) (f : float) :
  occurs c "0123456789+-.einfa" = false -> occurs c (show_double f) = false.
Proof.
  intros Hc. destruct (occurs c (show_double f)) eqn:Ho; [|reflexivity].
  apply occurs_In, show_double_alphabet in Ho.
  assert (Hin : forall s, In c (list_ascii_of_string s) -> occurs c s = true).
  { induction s as [|x s IH]; simpl; [intros []|].
    intros [->|Hin]; [now rewrite Ascii.eqb_refl | rewrite (IH Hin); apply orb_true_r]. }
  rewrite (Hin _ Ho) in Hc. discriminate.
Qed.

Lemma blank_outside_alphabet (c : ascii) :
  Text.is_blank c = true -> occurs c "0123456789+-.einfa" = false.
Proof.
  destruct c as [[] [] [] [] [] [] [] []]; intros H; try discriminate H; reflexivity.
Qed.

Lemma trim_to_string (z : Z) : Text.trim (Text.to_string z) = Text.to_string z.
Proof.
  apply trim_no_blank. intros c Hc.
  destruct (blank_not_digit c Hc). now apply to_string_occurs.
Qed.

Lemma trim_show_double `{Stream} (f : float) : Text.trim (show_double f) = show_double f.
Proof.
  apply trim_no_blank. intros c Hc.
  apply show_double_occurs. now apply blank_outside_alphabet.
Qed.

(** *** The items column *)

Lemma orderItemsToString_cons `{Stream} (i : OrderItem.t) (rest : list OrderItem.t) :
  OrderManager.orderItemsToString (i :: rest)
  = (itemText i ++ match rest with
                   | [] => EmptyString
                   | _ :: _ => String ";" (OrderManager.orderItemsToString rest)
                   end)%string.
Proof.
  unfold itemText. cbn [OrderManager.orderItemsToString].
  rewrite !append_assoc. sapp.
  destruct rest; [|reflexivity].
  cbn [OrderManager.orderItemsToString]. now rewrite append_nil_r.
Qed.

Lemma itemText_joined `{Stream} (i : OrderItem.t) :
  itemText i
  = joinedTo ":" [OrderItem.itemId i; OrderItem.itemName i;
                  show_double (OrderItem.price i)]
      (Text.to_string (OrderItem.quantity i)).
Proof. reflexivity. Qed.

Lemma itemText_occurs `{Stream} (c : ascii) (i : OrderItem.t) :
  c <> ":"%char -> Text.is_digit c = false -> c <> "-"%char ->
  occurs c "0123456789+-.einfa" = false ->
  occurs c (OrderItem.itemId i) = false -> occurs c (OrderItem.itemName i) = false ->
  occurs c (itemText i) = false.
Proof.
  intros Hcolon Hd Hm Ha Hid Hname. rewrite itemText_joined.
  apply occurs_joinedTo; [exact Hcolon | | now apply to_string_occurs].
  repeat constructor; try assumption. now apply show_double_occurs.
Qed.

Lemma itemText_nonempty `{Stream} (i : OrderItem.t) : itemText i <> EmptyString.
Proof.
  unfold itemText. destruct (OrderItem.itemId i); sapp; discriminate.
Qed.

Lemma items_occurs `{Stream} (c : ascii) (items : list OrderItem.t) :
  c <> ":"%char -> c <> ";"%char -> Text.is_digit c = false -> c <> "-"%char ->
  occurs c "0123456789+-.einfa" = false ->
  Forall (fun i => occurs c (OrderItem.itemId i) = false
                   /\ occurs c (OrderItem.itemName i) = false) items ->
  occurs c (OrderManager.orderItemsToString items) = false.
Proof.
  intros Hcolon Hsemi Hd Hm Ha Hitems.
  induction Hitems as [|i rest [Hid Hname] Hrest IH]; [reflexivity|].
  rewrite orderItemsToString_cons, occurs_append.
  rewrite itemText_occurs by assumption. cbn [orb].
  destruct rest; [reflexivity|]. cbn [occurs]. rewrite IH, orb_false_r.
  apply Ascii.eqb_neq. congruence.
Qed.

Lemma getlines_items `{Stream} (items : list OrderItem.t) :
  Forall storableItem items ->
  Text.getlines ";" (OrderManager.orderItemsToString items) = map itemText items.
Proof.
  intros Hitems. unfold Text.getlines.
  induction Hitems as [|i rest Hi Hrest IH]; [reflexivity|].
  destruct Hi as ((_ & _ & _ & Hid) & (_ & _ & _ & Hname) & _ & _).
  assert (Hfree : occurs ";" (itemText i) = false).
  { apply itemText_occurs; try assumption; (discriminate || reflexivity). }
  rewrite orderItemsToString_cons. cbn [map]. destruct rest as [|j rest].
  - rewrite (split_aux_prefix _ _ Hfree). cbn [Text.split_aux].
    sapp. pose proof (itemText_nonempty i) as Hne.
    apply String.eqb_neq in Hne. now rewrite Hne.
  - rewrite (split_aux_piece _ _ Hfree). sapp. f_equal. exact IH.
Qed.

Lemma parseOrderItem_itemText `{Runtime} `{Stream} (i : OrderItem.t) :
  storableItem i -> OrderManager.parseOrderItem (itemText i) = rereadItem i.
Proof.
  intros ((_ & _ & Hid & _) & (_ & _ & Hname & _) & _ & Hq).
  unfold OrderManager.parseOrderItem. rewrite itemText_joined.
  rewrite getlines_joinedTo.
  - pose proof (to_string_nonempty (OrderItem.quantity i)) as Hne.
    apply String.eqb_neq in Hne. rewrite Hne. cbn [app nth].
    unfold Text.stoi. rewrite parse_to_string by exact Hq.
    unfold rereadItem, reread.
    now destruct (std_stod (show_double (OrderItem.price i))).
  - repeat constructor; try assumption. now apply show_double_occurs.
  - apply to_string_occurs; (reflexivity || discriminate).
Qed.

Lemma omap_step {A B : Type} (f : A -> option B) (x : A) (l : list A) :
  omap f (x :: l) = match f x with
                    | Some y => y :: omap f l
                    | None => omap f l
                    end.
Proof. reflexivity. Qed.

Lemma parseOrderItems_items `{Runtime} `{Stream} (items : list OrderItem.t) :
  Forall storableItem items ->
  OrderManager.parseOrderItems (OrderManager.orderItemsToString items)
  = omap rereadItem items.
Proof.
  intros Hitems. unfold OrderManager.parseOrderItems.
  rewrite (getlines_items _ Hitems).
  induction Hitems as [|i rest Hi Hrest IH]; [reflexivity|].
  cbn [map]. rewrite !omap_step. pose proof (itemText_nonempty i) as Hne.
  apply String.eqb_neq in Hne.
  rewrite Hne, (parseOrderItem_itemText _ Hi), IH. reflexivity.
Qed.

Lemma lastChar_append (a b : string) :
  b <> EmptyString -> Text.back (a ++ b) = Text.back b.
Proof.
  intros Hb. induction a as [|x a IH]; sapp; [reflexivity|].
  cbn [Text.back]. rewrite IH.
  destruct (a ++ b)%string eqn:He; [|reflexivity].
  destruct a; [now rewrite append_nil_l in He | rewrite append_cons in He; discriminate].
Qed.

Lemma to_string_last_not_blank (z : Z) (c : ascii) :
  Text.back (Text.to_string z) = Some c -> Text.is_blank c = false.
Proof.
  intros Hl. apply lastChar_occurs in Hl.
  destruct (Text.is_blank c) eqn:Hb; [|reflexivity].
  destruct (blank_not_digit c Hb) as [Hd Hm].
  rewrite (to_string_occurs c z Hd Hm) in Hl. discriminate.
Qed.

Lemma joinedTo_nonempty (delim : ascii) (pieces : list string) (last : string) :
  last <> EmptyString -> joinedTo delim pieces last <> EmptyString.
Proof.
  intros Hl. destruct pieces as [|p pieces]; cbn [joinedTo fold_right]; [exact Hl|].
  destruct p; sapp; discriminate.
Qed.

Lemma lastChar_cons (x : ascii) (s : string) :
  s <> EmptyString -> Text.back (String x s) = Text.back s.
Proof. destruct s; [contradiction | reflexivity]. Qed.

Lemma lastChar_joinedTo (delim : ascii) (pieces : list string) (last : string) :
  last <> EmptyString -> Text.back (joinedTo delim pieces last) = Text.back last.
Proof.
  intros Hl. induction pieces as [|p pieces IH]; cbn [joinedTo fold_right]; [reflexivity|].
  fold (joinedTo delim pieces last).
  rewrite lastChar_append by discriminate.
  rewrite lastChar_cons by now apply joinedTo_nonempty.
  exact IH.
Qed.

Lemma items_nonempty `{Stream} (i : OrderItem.t) (rest : list OrderItem.t) :
  OrderManager.orderItemsToString (i :: rest) <> EmptyString.
Proof.
  rewrite orderItemsToString_cons. pose proof (itemText_nonempty i) as Hne.
  destruct (itemText i); [contradiction | sapp; discriminate].
Qed.

Lemma trim_items `{Stream} (items : list OrderItem.t) :
  Forall storableItem items ->
  Text.trim (OrderManager.orderItemsToString items)
  = OrderManager.orderItemsToString items.
Proof.
  intros Hitems. apply trim_fixed.
  - destruct Hitems as [|i rest Hi Hrest]; [discriminate|].
    destruct Hi as (_ & _ & Hstart & _).
    rewrite orderItemsToString_cons. unfold itemText.
    destruct (OrderItem.itemId i) as [|x id]; sapp.
    + simpl. now intros c [= <-].
    + simpl. intros c [= <-]. exact Hstart.
  - induction Hitems as [|i rest Hi Hrest IH]; [discriminate|].
    rewrite orderItemsToString_cons. destruct rest as [|j rest].
    + rewrite append_nil_r, itemText_joined.
      rewrite lastChar_joinedTo by apply to_string_nonempty.
      apply to_string_last_not_blank.
    + rewrite lastChar_append by discriminate.
      rewrite lastChar_cons by apply items_nonempty.
      exact IH.
Qed.

(** *** A row and the file *)

Lemma row_joined `{Stream} (o : Order.t) :
  OrderManager.row o
  = joinedTo "," [Order.orderId o; Order.userId o;
                  OrderManager.orderItemsToString (Order.items o);
                  Text.to_string (Order.orderTime o);
                  show_double (Order.totalAmount o);
                  Order.shippingAddress o; Order.getStatusString o]
      (Text.to_string (Order.statusChangeTime o)).
Proof. reflexivity. Qed.

Lemma status_name_plain (o : Order.t) (c : ascii) :
  c = ","%char \/ c = "010"%char \/ Text.is_blank c = true ->
  occurs c (Order.getStatusString o) = false.
Proof.
  unfold Order.getStatusString.
  intros [->|[->|Hb]]; [now destruct (Order.status o) | now destruct (Order.status o) |].
  destruct c as [[] [] [] [] [] [] [] []]; try discriminate Hb;
    now destruct (Order.status o).
Qed.

Lemma items_plain `{Stream} (c : ascii) (items : list OrderItem.t) :
  c = ","%char \/ c = "010"%char ->
  Forall storableItem items ->
  occurs c (OrderManager.orderItemsToString items) = false.
Proof.
  intros Hc Hitems.
  assert (Hfields : Forall (fun i => occurs c (OrderItem.itemId i) = false
                                     /\ occurs c (OrderItem.itemName i) = false) items).
  { eapply Forall_impl; [exact Hitems|].
    intros i ((Hc1 & Hn1 & _) & (Hc2 & Hn2 & _) & _).
    destruct Hc as [->| ->]; split; assumption. }
  destruct Hc as [->| ->]; apply items_occurs;
    try assumption; (discriminate || reflexivity).
Qed.

Lemma row_fields `{Stream} (o : Order.t) :
  storable o ->
  Text.parseCSVLine (OrderManager.row o)
  = [Order.orderId o; Order.userId o;
     OrderManager.orderItemsToString (Order.items o);
     Text.to_string (Order.orderTime o);
     show_double (Order.totalAmount o);
     Order.shippingAddress o; Order.getStatusString o;
     Text.to_string (Order.statusChangeTime o)].
Proof.
  intros ((Hi1 & _ & Hi3) & (Hu1 & _ & Hu3) & (Ha1 & _ & Ha3) & Hitems & _ & _).
  unfold Text.parseCSVLine. rewrite row_joined, getlines_joinedTo.
  - pose proof (to_string_nonempty (Order.statusChangeTime o)) as Hne.
    apply String.eqb_neq in Hne. rewrite Hne. cbn [app map].
    rewrite Hi3, Hu3, Ha3, (trim_items _ Hitems), !trim_to_string, trim_show_double.
    repeat f_equal. apply trim_no_blank. intros c Hc.
    apply status_name_plain. now right; right.
  - repeat constructor; try assumption.
    + apply items_plain; [now left | exact Hitems].
    + apply to_string_occurs; (reflexivity || discriminate).
    + now apply show_double_occurs.
    + apply status_name_plain. now left.
  - apply to_string_occurs; (reflexivity || discriminate).
Qed.

Lemma loadLine_row `{Runtime} `{Stream} (o : Order.t) :
  storable o -> OrderManager.loadLine (OrderManager.row o) = rereadOrder o.
Proof.
  intros Hs. pose proof (row_fields o Hs) as Hf.
  destruct Hs as (_ & _ & _ & Hitems & Ht & Hc).
  unfold OrderManager.loadLine.
  destruct (String.eqb_spec (OrderManager.row o) EmptyString) as [He|_].
  { rewrite He in Hf. discriminate Hf. }
  rewrite Hf. cbn [List.length Nat.leb nth].
  unfold Text.stoll. rewrite !parse_to_string by assumption.
  rewrite (parseOrderItems_items _ Hitems), status_name_round_trip.
  unfold rereadOrder, reread.
  now destruct (std_stod (show_double (Order.totalAmount o))).
Qed.

Lemma row_no_line_feed `{Stream} (o : Order.t) :
  storable o -> occurs "010" (OrderManager.row o) = false.
Proof.
  intros ((_ & Hi & _) & (_ & Hu & _) & (_ & Ha & _) & Hitems & _ & _).
  rewrite row_joined. apply occurs_joinedTo; [discriminate | |].
  - repeat constructor; try assumption.
    + apply items_plain; [now right | exact Hitems].
    + apply to_string_occurs; (reflexivity || discriminate).
    + now apply show_double_occurs.
    + apply status_name_plain. now right; left.
  - apply to_string_occurs; (reflexivity || discriminate).
Qed.

Lemma fileText_joined `{Stream} (os : list Order.t) :
  OrderManager.fileText os
  = joinedTo "010" (OrderManager.header :: map OrderManager.row os) EmptyString.
Proof.
  unfold OrderManager.fileText, joinedTo. cbn [fold_right]. do 2 f_equal.
  induction os as [|o os IH]; [reflexivity|].
  cbn [map fold_right]. now rewrite IH.
Qed.

(** X9. Saving and loading the order file gives every order back with
    its id, user, address, status and both times, and every order line
    with its item id, name and quantity; the total and the prices come
    back as [std::stod] reads what [operator<<] printed (an order whose
    printed total cannot be read is dropped, and so is a line whose
    printed price cannot).  Required of the orders: ids, user names and
    addresses contain no comma and no line feed and no blank at either
    end; item ids and names contain none of comma, colon, semicolon and
    line feed, and an item id begins with no blank. *)
Theorem saved_orders_load_back `{Runtime} `{Stream} (os : list Order.t)
    (m : OrderManager.t) :
  Forall storable os ->
  OrderManager.readLines (OrderManager.fileText os)
  = OrderManager.header :: map OrderManager.row os
  /\ OrderManager.loadFromFile
       (Some (OrderManager.readLines (OrderManager.fileText os))) m
     = (true, OrderManager.with_orders (omap rereadOrder os) m).
Proof.
  intros Hos.
  assert (Hlines : OrderManager.readLines (OrderManager.fileText os)
                   = OrderManager.header :: map OrderManager.row os).
  { unfold OrderManager.readLines. rewrite fileText_joined, getlines_joinedTo.
    - cbn. now rewrite app_nil_r.
    - constructor; [reflexivity|].
      apply Forall_map. eapply Forall_impl; [exact Hos|].
      intros o Ho. now apply row_no_line_feed.
    - reflexivity. }
  split; [exact Hlines|].
  rewrite Hlines. unfold OrderManager.loadFromFile. cbn [tail]. do 2 f_equal.
  clear Hlines. induction Hos as [|o os Ho Hos IH]; [reflexivity|].
  cbn [map]. rewrite !omap_step.
  now rewrite (loadLine_row _ Ho), IH.
Qed.

Lemma saved_orders_load_back_witness :
  OrderManager.loadFromFile (H := demo_runtime)
    (Some (OrderManager.readLines
             (OrderManager.fileText (H := demo_stream) [SampleOrder.order])))
    Sample.manager
  = (true, OrderManager.with_orders [SampleOrder.order] Sample.manager).
Proof.
  refine (eq_trans (proj2 (@saved_orders_load_back demo_runtime demo_stream
                             [SampleOrder.order] Sample.manager _)) _).
  - repeat constructor; try reflexivity; vm_compute; congruence.
  - reflexivity.
Defined.

(** The text up to the first occurrence of a character. *)
Lemma occurs_split (c : ascii) (s : string) :
  occurs c s = true ->
  exists a b, s = (a ++ String c b)%string /\ occurs c a = false.
Proof.
  induction s as [|x s IH]; cbn [occurs]; [discriminate|].
  destruct (Ascii.eqb_spec x c) as [->|Hne]; cbn [orb].
  - intros _. exists EmptyString, s. split; reflexivity.
  - intros Hs. destruct (IH Hs) as (a & b & -> & Ha).
    exists (String x a), b. split; [reflexivity|].
    cbn [occurs]. rewrite Ha. apply Ascii.eqb_neq in Hne. now rewrite Hne.
Qed.

Lemma first_split_unique (c : ascii) (a a' b b' : string) :
  occurs c a = false ->
  occurs c a' = false ->
  (a ++ String c b)%string = (a' ++ String c b')%string ->
  a = a' /\ b = b'.
Proof.
  revert a'. induction a as [|x a IH]; intros [|x' a'] Ha Ha' Heq; rewrite ?append_cons, ?append_nil_l in Heq.
  - injection Heq as ->. split; reflexivity.
  - injection Heq as <- _. cbn [occurs] in Ha'. rewrite Ascii.eqb_refl in Ha'.
    discriminate Ha'.
  - injection Heq as -> _. cbn [occurs] in Ha. rewrite Ascii.eqb_refl in Ha.
    discriminate Ha.
  - injection Heq as <- Heq. cbn [occurs] in Ha, Ha'.
    apply orb_false_iff in Ha as [_ Ha]. apply orb_false_iff in Ha' as [_ Ha'].
    destruct (IH a' Ha Ha' Heq) as [-> ->]. split; reflexivity.
Qed.

(** Pieces without the delimiter come back one by one, whatever
    follows them. *)
Lemma getlines_joinedTo_any (delim : ascii) (pieces : list string) (last : string) :
  Forall (fun p => occurs delim p = false) pieces ->
  Text.getlines delim (joinedTo delim pieces last)
  = pieces ++ Text.getlines delim last.
Proof.
  intros Hp. unfold Text.getlines.
  induction Hp as [|p pieces Hx Hps IH]; cbn [joinedTo fold_right]; [reflexivity|].
  rewrite (split_aux_piece _ _ Hx). cbn [app]. f_equal. exact IH.
Qed.

(** X10. An order whose shipping address contains a comma does not come
    back from the order file as it was saved.  The address spills into
    the columns after it: what [loadFromFile] makes of the row is either
    nothing or an order whose address is the saved one cut at its first
    comma.  When the address has one comma only, the name of the status
    lands in the column of the status change time, is not a number, and
    the row is skipped. *)
Theorem comma_in_address_loses_the_order `{Runtime} `{Stream} (o : Order.t) :
  occurs "," (Order.orderId o) = false ->
  occurs "," (Order.userId o) = false ->
  Forall storableItem (Order.items o) ->
  occurs "," (Order.shippingAddress o) = true ->
  exists street rest,
    Order.shippingAddress o = (street ++ "," ++ rest)%string
    /\ occurs "," street = false
    /\ (occurs "," rest = false -> OrderManager.loadLine (OrderManager.row o) = None)
    /\ forall o',
         OrderManager.loadLine (OrderManager.row o) = Some o' ->
         Order.shippingAddress o' = Text.trim street
         /\ Order.shippingAddress o' <> Order.shippingAddress o.
Proof.
  intros Hid Huser Hitems Hcomma.
  destruct (occurs_split _ _ Hcomma) as (street & rest & Haddr & Hstreet).
  exists street, rest. split; [exact Haddr|]. split; [exact Hstreet|].
  assert (Hplain : Forall (fun p => occurs "," p = false)
                     [Order.orderId o; Order.userId o;
                      OrderManager.orderItemsToString (Order.items o);
                      Text.to_string (Order.orderTime o);
                      show_double (Order.totalAmount o); street]).
  { repeat constructor; try assumption.
    - apply items_plain; [now left | exact Hitems].
    - apply to_string_occurs; (reflexivity || discriminate).
    - now apply show_double_occurs. }
  split.
  - intros Hrest.
    assert (Hrow : OrderManager.row o
                   = joinedTo "," [Order.orderId o; Order.userId o;
                                   OrderManager.orderItemsToString (Order.items o);
                                   Text.to_string (Order.orderTime o);
                                   show_double (Order.totalAmount o);
                                   street; rest; Order.getStatusString o]
                       (Text.to_string (Order.statusChangeTime o))).
    { rewrite row_joined. cbn [joinedTo fold_right]. rewrite Haddr.
      rewrite !append_assoc. sapp. reflexivity. }
    assert (Hf : Text.parseCSVLine (OrderManager.row o)
                 = map Text.trim
                     [Order.orderId o; Order.userId o;
                      OrderManager.orderItemsToString (Order.items o);
                      Text.to_string (Order.orderTime o);
                      show_double (Order.totalAmount o);
                      street; rest; Order.getStatusString o;
                      Text.to_string (Order.statusChangeTime o)]).
    { unfold Text.parseCSVLine. rewrite Hrow, getlines_joinedTo.
      - pose proof (to_string_nonempty (Order.statusChangeTime o)) as Hne.
        apply String.eqb_neq in Hne. now rewrite Hne.
      - repeat constructor; try assumption.
        + apply items_plain; [now left | exact Hitems].
        + apply to_string_occurs; (reflexivity || discriminate).
        + now apply show_double_occurs.
        + apply status_name_plain. now left.
      - apply to_string_occurs; (reflexivity || discriminate). }
    unfold OrderManager.loadLine.
    destruct (String.eqb (OrderManager.row o) EmptyString); [reflexivity|].
    rewrite Hf. cbn [map List.length Nat.leb nth].
    assert (Hstatus : Text.stoll (Text.trim (Order.getStatusString o)) = None).
    { unfold Order.getStatusString. now destruct (Order.status o). }
    rewrite Hstatus.
    destruct (Text.stoll (Text.trim (Text.to_string (Order.orderTime o))));
      [|reflexivity].
    now destruct (std_stod (Text.trim (show_double (Order.totalAmount o)))).
  - intros o' Hload.
    assert (Hrow : OrderManager.row o
                   = joinedTo "," [Order.orderId o; Order.userId o;
                                   OrderManager.orderItemsToString (Order.items o);
                                   Text.to_string (Order.orderTime o);
                                   show_double (Order.totalAmount o); street]
                       (rest ++ "," ++ Order.getStatusString o ++ ","
                        ++ Text.to_string (Order.statusChangeTime o))).
    { rewrite row_joined. cbn [joinedTo fold_right]. rewrite Haddr.
      rewrite !append_assoc. sapp. reflexivity. }
    assert (Hcut : Order.shippingAddress o' = Text.trim street).
    { unfold OrderManager.loadLine in Hload.
      destruct (String.eqb (OrderManager.row o) EmptyString); [discriminate|].
      cbv zeta in Hload.
      destruct (8 <=? List.length (Text.parseCSVLine (OrderManager.row o)))%nat;
        [|discriminate].
      destruct (Text.stoll _) as [orderTime|]; [|discriminate].
      destruct (std_stod _) as [totalAmount|]; [|discriminate].
      destruct (Text.stoll _) as [statusChangeTime|]; [|discriminate].
      injection Hload as <-. cbn [Order.shippingAddress].
      unfold Text.parseCSVLine. rewrite Hrow, (getlines_joinedTo_any _ _ _ Hplain).
      reflexivity. }
    split; [exact Hcut|].
    intros Hsame. rewrite Hcut in Hsame.
    pose proof (trim_occurs "," street Hstreet) as Hnone.
    rewrite Hsame, Hcomma in Hnone. discriminate.
Qed.

Lemma comma_in_address_loses_the_order_witness :
  OrderManager.loadLine (H := demo_runtime) (OrderManager.row (H := demo_stream) Shop.mailed)
  = None
  /\ OrderManager.row (H := demo_stream) Shop.mailed
     = "ORD0000000000000007,u1,A:Apple:100:2,1000,200,Main Street 1, Springfield,待发货,1000".
Proof.
  split; [|reflexivity].
  assert (Hitems : Forall storableItem (Order.items Shop.mailed))
    by (repeat constructor; try reflexivity; vm_compute; congruence).
  destruct (@comma_in_address_loses_the_order demo_runtime demo_stream Shop.mailed
              eq_refl eq_refl Hitems eq_refl)
    as (street & rest & Haddr & Hstreet & Hlost & _).
  apply Hlost.
  destruct (first_split_unique "," street "Main Street 1" rest " Springfield"
              Hstreet eq_refl (eq_sym Haddr)) as [_ ->].
  reflexivity.
Defined.

(** * Further properties: the promotions file *)

Lemma discount_row_joined `{Stream} (p : Promotion.t) :
  Promotion.promotionType p = DISCOUNT ->
  PromotionManager.row p
  = joinedTo "," [Promotion.promotionId p; Promotion.promotionName p; "DISCOUNT"%string;
                  (if Promotion.isActive p then "1" else "0")%string;
                  PromotionManager.timeToString (Promotion.startTime p);
                  PromotionManager.timeToString (Promotion.endTime p);
                  Promotion.targetItemId p;
                  (show_double (Promotion.discountRate p) ++ "_")%string;
                  "_"%string]
      EmptyString.
Proof.
  intros Ht. unfold PromotionManager.row. rewrite Ht.
  rewrite !bool_decide_eq_true_2 by reflexivity.
  cbn [joinedTo fold_right]. rewrite ?append_assoc. sapp. reflexivity.
Qed.

Lemma full_reduction_row_joined `{Stream} (p : Promotion.t) :
  Promotion.promotionType p = FULL_REDUCTION ->
  PromotionManager.row p
  = joinedTo "," [Promotion.promotionId p; Promotion.promotionName p;
                  "FULL_REDUCTION"%string;
                  (if Promotion.isActive p then "1" else "0")%string;
                  PromotionManager.timeToString (Promotion.startTime p);
                  PromotionManager.timeToString (Promotion.endTime p);
                  EmptyString; "_"%string;
                  String "_" (show_double (Promotion.thresholdAmount p))]
      (show_double (Promotion.reductionAmount p)).
Proof.
  intros Ht. unfold PromotionManager.row. rewrite Ht.
  rewrite !bool_decide_eq_false_2 by discriminate.
  cbn [joinedTo fold_right]. rewrite ?append_assoc. sapp. reflexivity.
Qed.

Lemma active_flag_plain (c : ascii) (b : bool) :
  c = ","%char \/ c = "010"%char -> occurs c (if b then "1" else "0") = false.
Proof. intros [->| ->]; now destruct b. Qed.

Lemma promotion_row_plain `{Stream} (c : ascii) (p : Promotion.t) :
  c = ","%char \/ c = "010"%char ->
  occurs c (Promotion.promotionId p) = false ->
  occurs c (Promotion.promotionName p) = false ->
  occurs c (Promotion.targetItemId p) = false ->
  Forall (fun s => occurs c s = false)
    [Promotion.promotionId p; Promotion.promotionName p;
     (if Promotion.isActive p then "1" else "0")%string;
     PromotionManager.timeToString (Promotion.startTime p);
     PromotionManager.timeToString (Promotion.endTime p);
     Promotion.targetItemId p;
     show_double (Promotion.discountRate p);
     show_double (Promotion.thresholdAmount p);
     show_double (Promotion.reductionAmount p)].
Proof.
  intros Hc Hid Hname Htarget.
  assert (Hplain : Text.is_digit c = false /\ c <> "-"%char
                   /\ occurs c "0123456789+-.einfa" = false).
  { destruct Hc as [->| ->]; repeat split; discriminate. }
  destruct Hplain as (Hd & Hm & Ha).
  repeat constructor; try assumption;
    try (now apply active_flag_plain);
    try (now apply to_string_occurs);
    now apply show_double_occurs.
Qed.

Lemma tagged_rate_plain `{Stream} (c : ascii) (f : float) :
  c = ","%char \/ c = "010"%char -> occurs c (show_double f ++ "_") = false.
Proof.
  intros Hc. rewrite occurs_append, show_double_occurs.
  - now destruct Hc as [->| ->].
  - now destruct Hc as [->| ->].
Qed.

Lemma tagged_threshold_plain `{Stream} (c : ascii) (f : float) :
  c = ","%char \/ c = "010"%char -> occurs c (String "_" (show_double f)) = false.
Proof.
  intros Hc. cbn [occurs]. rewrite show_double_occurs.
  - now destruct Hc as [->| ->].
  - now destruct Hc as [->| ->].
Qed.

Lemma row_line_feed_free `{Stream} (p : Promotion.t) :
  plainPromotion p -> occurs "010" (PromotionManager.row p) = false.
Proof.
  intros ((_ & Hid) & (_ & Hname) & (_ & Htarget) & _).
  pose proof (promotion_row_plain "010" p (or_intror eq_refl) Hid Hname Htarget) as Hall.
  repeat match goal with
         | Hx : Forall _ (_ :: _) |- _ => apply Forall_cons_iff in Hx; destruct Hx
         end.
  destruct (Promotion.promotionType p) eqn:Ht.
  - rewrite (discount_row_joined _ Ht).
    apply occurs_joinedTo; [discriminate | | reflexivity].
    repeat constructor; try assumption; try reflexivity.
    all: apply tagged_rate_plain; now right.
  - rewrite (full_reduction_row_joined _ Ht).
    apply occurs_joinedTo; [discriminate | | assumption].
    repeat constructor; try assumption; try reflexivity.
    all: apply tagged_threshold_plain; now right.
Qed.

Lemma discount_row_is_skipped `{Runtime} `{Stream} (p : Promotion.t) :
  plainPromotion p -> Promotion.promotionType p = DISCOUNT ->
  PromotionManager.loadLine (PromotionManager.row p) = Return None.
Proof.
  intros ((Hid & _) & (Hname & _) & (Htarget & _) & _) Ht.
  pose proof (promotion_row_plain "," p (or_introl eq_refl) Hid Hname Htarget) as Hall.
  repeat match goal with
         | Hx : Forall _ (_ :: _) |- _ => apply Forall_cons_iff in Hx; destruct Hx
         end.
  unfold PromotionManager.loadLine.
  destruct (String.eqb (PromotionManager.row p) EmptyString
            || match PromotionManager.row p with
               | String c _ => Ascii.eqb c "#"
               | EmptyString => false
               end); [reflexivity|].
  unfold Text.parseCSVLine. rewrite (discount_row_joined _ Ht), getlines_joinedTo.
  - reflexivity.
  - repeat constructor; try assumption; try reflexivity.
    all: apply tagged_rate_plain; now left.
  - reflexivity.
Qed.

Lemma full_reduction_row_throws `{Runtime} `{Stream} (p : Promotion.t) :
  (forall s, std_stod (String "_" s) = None) ->
  plainPromotion p -> Promotion.promotionType p = FULL_REDUCTION ->
  PromotionManager.loadLine (PromotionManager.row p) = Throw (std_exception "stod").
Proof.
  intros Hstod ((Hid & _) & (Hname & _) & (Htarget & _) & Hmark) Ht.
  pose proof (promotion_row_plain "," p (or_introl eq_refl) Hid Hname Htarget) as Hall.
  repeat match goal with
         | Hx : Forall _ (_ :: _) |- _ => apply Forall_cons_iff in Hx; destruct Hx
         end.
  assert (Hfields : Text.parseCSVLine (PromotionManager.row p)
                    = map Text.trim
                        [Promotion.promotionId p; Promotion.promotionName p;
                         "FULL_REDUCTION"%string;
                         (if Promotion.isActive p then "1" else "0")%string;
                         PromotionManager.timeToString (Promotion.startTime p);
                         PromotionManager.timeToString (Promotion.endTime p);
                         EmptyString; "_"%string;
                         String "_" (show_double (Promotion.thresholdAmount p));
                         show_double (Promotion.reductionAmount p)]).
  { unfold Text.parseCSVLine. rewrite (full_reduction_row_joined _ Ht), getlines_joinedTo.
    - pose proof (show_double_nonempty (Promotion.reductionAmount p)) as Hne.
      apply String.eqb_neq in Hne. now rewrite Hne.
    - repeat constructor; try assumption; try reflexivity.
      all: apply tagged_threshold_plain; now left.
    - assumption. }
  unfold PromotionManager.loadLine.
  assert (Hstart : String.eqb (PromotionManager.row p) EmptyString
                   || match PromotionManager.row p with
                      | String c _ => Ascii.eqb c "#"
                      | EmptyString => false
                      end = false).
  { rewrite (full_reduction_row_joined _ Ht). cbn [joinedTo fold_right].
    destruct (Promotion.promotionId p) as [|c id]; sapp; [reflexivity|].
    cbn [String.eqb orb]. apply Ascii.eqb_neq. intros ->. now apply Hmark. }
  rewrite Hstart, Hfields. cbn [map List.length Nat.ltb Nat.leb nth].
  change (Text.trim "FULL_REDUCTION") with "FULL_REDUCTION"%string.
  cbn [String.eqb Ascii.eqb Bool.eqb].
  assert (Htrim : Text.trim (String "_" (show_double (Promotion.thresholdAmount p)))
                  = String "_" (show_double (Promotion.thresholdAmount p))).
  { apply trim_no_blank. intros c Hc. cbn [occurs].
    rewrite show_double_occurs by now apply blank_outside_alphabet.
    rewrite orb_false_r. apply Ascii.eqb_neq. intros <-. discriminate Hc. }
  rewrite Htrim. unfold PromotionManager.amountOr at 1.
  cbn [String.eqb]. now rewrite Hstod.
Qed.

Lemma promotions_fileText_joined `{Stream} (ps : PromotionManager.t) :
  PromotionManager.fileText ps
  = joinedTo "010" (PromotionManager.header :: map PromotionManager.row ps) EmptyString.
Proof.
  unfold PromotionManager.fileText, joinedTo. cbn [fold_right]. do 2 f_equal.
  induction ps as [|p ps IH]; [reflexivity|].
  cbn [map fold_right]. now rewrite IH.
Qed.

(** X11. The promotions file does not load back.  [saveToFile] glues
    the column fillers to the amounts: the row of a discount has nine
    fields, and [loadFromFile] skips a row of fewer than ten; the row of
    a full reduction has [_] in front of its threshold, so [std::stod]
    throws on it and nothing catches the exception.  A saved catalogue
    of discounts alone loads as the empty catalogue, and one with a full
    reduction in it makes [loadFromFile] throw, with the catalogue left
    empty. *)
Theorem saved_promotions_do_not_load_back `{Runtime} `{Stream}
    (ps old : PromotionManager.t) :
  (forall s, std_stod (String "_" s) = None) ->
  Forall plainPromotion ps ->
  PromotionManager.loadFromFile (Some (PromotionManager.fileText ps)) old
  = if forallb isDiscount ps then (Return true, [])
    else (Throw (std_exception "stod"), []).
Proof.
  intros Hstod Hps. unfold PromotionManager.loadFromFile.
  rewrite promotions_fileText_joined, getlines_joinedTo.
  - cbn [String.eqb app tail]. rewrite app_nil_r.
    induction Hps as [|p ps Hp Hps IH]; [reflexivity|].
    cbn [map PromotionManager.loadLines forallb]. unfold isDiscount at 1.
    destruct (Promotion.promotionType p) eqn:Ht.
    + rewrite (discount_row_is_skipped _ Hp Ht).
      rewrite bool_decide_eq_true_2 by reflexivity. exact IH.
    + rewrite (full_reduction_row_throws _ Hstod Hp Ht).
      rewrite bool_decide_eq_false_2 by discriminate. reflexivity.
  - constructor; [reflexivity|].
    apply Forall_map. eapply Forall_impl; [exact Hps|].
    intros p Hp. now apply row_line_feed_free.
  - reflexivity.
Qed.

Lemma saved_promotions_do_not_load_back_witness :
  PromotionManager.loadFromFile (H := demo_runtime)
    (Some (PromotionManager.fileText (H := demo_stream) [Catalogue.tenOff; Catalogue.twentyOff]))
    []
  = (Return true, [])
  /\ PromotionManager.loadFromFile (H := demo_runtime)
       (Some (PromotionManager.fileText (H := demo_stream)
                [Catalogue.tenOff; Catalogue.spend300]))
       []
     = (Throw (std_exception "stod"), []).
Proof.
  assert (Hstod : forall s, std_stod (Runtime := demo_runtime) (String "_" s) = None)
    by reflexivity.
  split.
  - refine (eq_trans (@saved_promotions_do_not_load_back demo_runtime demo_stream
                        [Catalogue.tenOff; Catalogue.twentyOff] [] Hstod _) eq_refl).
    repeat constructor; try reflexivity; vm_compute; congruence.
  - refine (eq_trans (@saved_promotions_do_not_load_back demo_runtime demo_stream
                        [Catalogue.tenOff; Catalogue.spend300] [] Hstod _) eq_refl).
    repeat constructor; try reflexivity; vm_compute; congruence.
Defined.

(** * Further properties: editing the catalogue of promotions *)

Lemma find_spec (promotionId : string) (ps : PromotionManager.t) :
  match PromotionManager.find promotionId ps with
  | Some (i, p) =>
      ps !! i = Some p /\ Promotion.promotionId p = promotionId
      /\ forall j q, (j < i)%nat -> ps !! j = Some q ->
                     Promotion.promotionId q <> promotionId
  | None => forall q, In q ps -> Promotion.promotionId q <> promotionId
  end.
Proof.
  induction ps as [|x ps IH]; cbn [PromotionManager.find]; [intros q []|].
  destruct (String.eqb_spec (Promotion.promotionId x) promotionId) as [He|Hne].
  - repeat split; [exact He|]. intros j q Hj. lia.
  - destruct (PromotionManager.find promotionId ps) as [[i p]|]; cbn.
    + destruct IH as (Hi & Hp & Hbefore). repeat split; try assumption.
      intros [|j] q Hj; cbn; [now intros [= <-]|].
      apply Hbefore. lia.
    + intros q [<-|Hin]; [exact Hne | now apply IH].
Qed.

Lemma find_other (promotionId other : string) (g : Promotion.t -> Promotion.t)
    (ps : PromotionManager.t) (i : nat) (p : Promotion.t) :
  (forall q, Promotion.promotionId (g q) = Promotion.promotionId q) ->
  PromotionManager.find promotionId ps = Some (i, p) ->
  other <> promotionId ->
  PromotionManager.find other (alter g i ps) = PromotionManager.find other ps.
Proof.
  intros Hg. revert i p. induction ps as [|x ps IH]; intros i p; [discriminate|].
  cbn [PromotionManager.find].
  destruct (String.eqb_spec (Promotion.promotionId x) promotionId) as [He|Hne].
  - intros [= <- <-] Ho.
    change (alter g 0%nat (x :: ps)) with (g x :: ps).
    cbn [PromotionManager.find]. rewrite Hg.
    assert (Hx : String.eqb (Promotion.promotionId x) other = false)
      by (apply String.eqb_neq; congruence).
    now rewrite Hx.
  - destruct (PromotionManager.find promotionId ps) as [[k q]|] eqn:Hf; [|discriminate].
    cbn [option_map fst snd]. intros [= <- <-] Ho.
    change (alter g (S k) (x :: ps)) with (x :: alter g k ps).
    cbn [PromotionManager.find].
    destruct (String.eqb (Promotion.promotionId x) other); [reflexivity|].
    f_equal. exact (IH k q eq_refl Ho).
Qed.

Lemma float_not_le_lt (x y : float) :
  isNumber x = true -> isNumber y = true ->
  (x <=? y)%float = false -> (y <? x)%float = true.
Proof.
  unfold isNumber. intros Hx Hy Hn. apply ltb_key.
  apply leb_key in Hx, Hy.
  assert (Hn' : ~ (x <=? y)%float = true) by (rewrite Hn; discriminate).
  rewrite leb_key in Hn'.
  destruct (floatKey x) as [[[a1 a2] a3]|], (floatKey y) as [[[b1 b2] b3]|];
    simpl in *; try tauto.
  destruct (Z.compare_spec b1 a1), (Z.compare_spec b2 a2), (Z.compare_spec b3 a3);
    try lia; exfalso; apply Hn'; try (left; lia); right; congruence.
Qed.

Lemma lt_numbers (x y : float) :
  (x <? y)%float = true -> isNumber x = true /\ isNumber y = true.
Proof.
  unfold isNumber. rewrite ltb_key, !leb_key.
  destruct (floatKey x) as [[[a1 a2] a3]|], (floatKey y) as [[[b1 b2] b3]|];
    try tauto; intros _; split; now right.
Qed.

Lemma sound_alter (g : Promotion.t -> Promotion.t) (i : nat) (p : Promotion.t)
    (ps : list Promotion.t) :
  ps !! i = Some p -> sound (g p) -> Forall sound ps -> Forall sound (alter g i ps).
Proof.
  intros Hi Hg Hps. apply Forall_lookup. intros j q Hj.
  destruct (decide (i = j)) as [<-|Hne].
  - rewrite list_lookup_alter_eq, Hi in Hj. injection Hj as <-. exact Hg.
  - rewrite list_lookup_alter_ne in Hj by exact Hne.
    exact (proj1 (Forall_lookup _ _) Hps j q Hj).
Qed.

Lemma saving_catalogue `{Stream} (ps : PromotionManager.t) (f : PromotionManager.File) :
  snd (fst (PromotionManager.saving ps f)) = ps
  /\ fst (fst (PromotionManager.saving ps f)) = PromotionManager.opens f
  /\ (PromotionManager.opens f = true ->
      PromotionManager.text (snd (PromotionManager.saving ps f))
      = PromotionManager.fileText ps)
  /\ (PromotionManager.opens f = false -> snd (PromotionManager.saving ps f) = f).
Proof.
  unfold PromotionManager.saving, PromotionManager.saveToFile.
  destruct (PromotionManager.opens f); repeat split; discriminate.
Qed.

(** X12. The edits of the amounts keep every promotion of the
    catalogue sound: after [updateDiscountRate],
    [updateFullReductionThreshold] or [updateFullReductionAmount] with an
    amount that is a number, whatever they return, every discount has a
    rate strictly between 0 and 1 and every full reduction a reduction
    strictly between 0 and its threshold, if that was so before. *)
Theorem amount_edits_keep_the_catalogue_sound `{Stream} (promotionId : string)
    (amount : float) (ps : PromotionManager.t) (f : PromotionManager.File) :
  isNumber amount = true ->
  Forall sound ps ->
  Forall sound (snd (fst (PromotionManager.updateDiscountRate promotionId amount ps f)))
  /\ Forall sound
       (snd (fst (PromotionManager.updateFullReductionThreshold promotionId amount ps f)))
  /\ Forall sound
       (snd (fst (PromotionManager.updateFullReductionAmount promotionId amount ps f))).
Proof.
  intros Hnum Hps.
  unfold PromotionManager.updateDiscountRate, PromotionManager.updateFullReductionThreshold,
    PromotionManager.updateFullReductionAmount.
  pose proof (find_spec promotionId ps) as Hfind.
  destruct (PromotionManager.find promotionId ps) as [[i p]|]; [|repeat split; exact Hps].
  destruct Hfind as (Hi & _ & _).
  pose proof (proj1 (Forall_lookup _ _) Hps i p Hi) as Hp.
  assert (H0 : isNumber 0 = true) by reflexivity.
  assert (H1 : isNumber 1 = true) by reflexivity.
  unfold sound in Hp.
  destruct (Promotion.promotionType p) eqn:Ht;
    change (bool_decide (DISCOUNT = DISCOUNT)) with true;
    change (bool_decide (FULL_REDUCTION = FULL_REDUCTION)) with true;
    change (bool_decide (DISCOUNT = FULL_REDUCTION)) with false;
    change (bool_decide (FULL_REDUCTION = DISCOUNT)) with false;
    cbn [negb].
  - split; [|split; exact Hps].
    destruct (amount <=? 0)%float eqn:Hlow; [exact Hps|].
    destruct (1 <=? amount)%float eqn:Hhigh; [exact Hps|]. cbn [orb].
    rewrite (proj1 (saving_catalogue _ f)).
    apply (sound_alter _ _ _ _ Hi); [|exact Hps].
    unfold sound. cbn. rewrite Ht. split; now apply float_not_le_lt.
  - destruct Hp as [Hred Hthr].
    destruct (lt_numbers _ _ Hthr) as [Hnr Hnt].
    split; [exact Hps|]. split.
    + destruct (amount <=? 0)%float eqn:Hlow; [exact Hps|].
      destruct (amount <=? Promotion.reductionAmount p)%float eqn:Hbelow; [exact Hps|].
      rewrite (proj1 (saving_catalogue _ f)).
      apply (sound_alter _ _ _ _ Hi); [|exact Hps].
      unfold sound. cbn. rewrite Ht. split; [exact Hred | now apply float_not_le_lt].
    + destruct (amount <=? 0)%float eqn:Hlow; [exact Hps|].
      destruct (Promotion.thresholdAmount p <=? amount)%float eqn:Habove; [exact Hps|].
      rewrite (proj1 (saving_catalogue _ f)).
      apply (sound_alter _ _ _ _ Hi); [|exact Hps].
      unfold sound. cbn. rewrite Ht. split; now apply float_not_le_lt.
Qed.

Lemma amount_edits_keep_the_catalogue_sound_witness :
  Forall sound
    (snd (fst (PromotionManager.updateFullReductionThreshold (H := demo_stream)
                 "PROMO005" 40 [Catalogue.tenOff; Catalogue.spend300] Shop.promotionsFile)))
  /\ snd (fst (PromotionManager.updateFullReductionThreshold (H := demo_stream)
                 "PROMO005" 40 [Catalogue.tenOff; Catalogue.spend300] Shop.promotionsFile))
     = [Catalogue.tenOff; Catalogue.spend300]
  /\ snd (fst (PromotionManager.updateFullReductionThreshold (H := demo_stream)
                 "PROMO005" 400 [Catalogue.tenOff; Catalogue.spend300] Shop.promotionsFile))
     = [Catalogue.tenOff; Promotion.setThresholdAmount 400 Catalogue.spend300].
Proof.
  split; [|split; reflexivity].
  refine (proj1 (proj2 (amount_edits_keep_the_catalogue_sound (H := demo_stream)
                          "PROMO005" 40 [Catalogue.tenOff; Catalogue.spend300]
                          Shop.promotionsFile _ _))).
  - reflexivity.
  - repeat constructor.
Defined.

Lemma findPromotionById_filter (promotionId other : string) (ps : list Promotion.t) :
  PromotionManager.findPromotionById other
    (List.filter (fun p => negb (String.eqb (Promotion.promotionId p) promotionId)) ps)
  = if String.eqb other promotionId then None
    else PromotionManager.findPromotionById other ps.
Proof.
  unfold PromotionManager.findPromotionById.
  induction ps as [|x ps IH]; cbn [List.filter PromotionManager.find].
  - now destruct (String.eqb other promotionId).
  - destruct (String.eqb_spec (Promotion.promotionId x) promotionId) as [He|Hne];
      cbn [negb].
    + rewrite IH. destruct (String.eqb_spec other promotionId) as [Ho|Ho]; [reflexivity|].
      destruct (String.eqb_spec (Promotion.promotionId x) other) as [Hx|Hx];
        [congruence|].
      now destruct (PromotionManager.find other ps).
    + cbn [PromotionManager.find].
      destruct (String.eqb_spec (Promotion.promotionId x) other) as [Hx|Hx].
      * destruct (String.eqb_spec other promotionId) as [Ho|Ho]; [congruence|reflexivity].
      * destruct (PromotionManager.find other
                    (List.filter (fun p => negb (String.eqb (Promotion.promotionId p)
                                                   promotionId)) ps)) as [[k q]|];
          destruct (PromotionManager.find other ps) as [[k' q']|];
          destruct (String.eqb other promotionId); cbn in *; congruence.
Qed.

Lemma filter_keeps_all (promotionId : string) (ps : list Promotion.t) :
  let kept :=
    List.filter (fun p => negb (String.eqb (Promotion.promotionId p) promotionId)) ps in
  (List.length kept <= List.length ps)%nat
  /\ (List.length kept = List.length ps <->
      forall p, In p ps -> Promotion.promotionId p <> promotionId).
Proof.
  induction ps as [|x ps [IHle IHeq]]; cbn [List.filter List.length].
  - split; [lia|]. split; [intros _ p [] | reflexivity].
  - destruct (String.eqb_spec (Promotion.promotionId x) promotionId) as [He|Hne];
      cbn [negb List.length].
    + split; [lia|]. split; [lia|].
      intros Hall. exfalso. apply (Hall x); [now left | exact He].
    + split; [lia|]. split.
      * intros Hlen p [<-|Hin]; [exact Hne|]. apply IHeq; [lia | exact Hin].
      * intros Hall. f_equal. apply IHeq. intros p Hp. apply Hall. now right.
Qed.

(** X13. [deletePromotion] removes every promotion that carries the id
    and keeps the others in their order: afterwards [findPromotionById]
    finds nothing under the id, and finds under every other id what it
    found before.  It returns false, with the catalogue and the file
    untouched, exactly when no promotion carried the id; otherwise its
    result is that of [saveToFile]. *)
Theorem deletePromotion_removes_the_id `{Stream} (promotionId : string)
    (ps : PromotionManager.t) (f : PromotionManager.File) :
  let r := PromotionManager.deletePromotion promotionId ps f in
  PromotionManager.findPromotionById promotionId (snd (fst r)) = None
  /\ (forall other, other <> promotionId ->
        PromotionManager.findPromotionById other (snd (fst r))
        = PromotionManager.findPromotionById other ps)
  /\ ((forall p, In p ps -> Promotion.promotionId p <> promotionId) -> r = (false, ps, f))
  /\ ((exists p, In p ps /\ Promotion.promotionId p = promotionId) ->
      snd (fst r)
      = List.filter (fun p => negb (String.eqb (Promotion.promotionId p) promotionId)) ps
      /\ fst (fst r) = PromotionManager.opens f
      /\ (PromotionManager.opens f = true ->
          PromotionManager.text (snd r) = PromotionManager.fileText (snd (fst r)))).
Proof.
  intros r. subst r. unfold PromotionManager.deletePromotion.
  destruct (filter_keeps_all promotionId ps) as [Hle Heq].
  pose proof (findPromotionById_filter promotionId) as Hfind.
  destruct (Nat.eqb_spec
              (List.length (List.filter (fun p => negb (String.eqb (Promotion.promotionId p)
                                                          promotionId)) ps))
              (List.length ps)) as [Hlen|Hlen].
  - pose proof (proj1 Heq Hlen) as Hnone.
    assert (Hsame : List.filter (fun p => negb (String.eqb (Promotion.promotionId p)
                                                  promotionId)) ps = ps).
    { clear -Hnone. induction ps as [|x ps IH]; [reflexivity|].
      cbn [List.filter].
      assert (Hx : String.eqb (Promotion.promotionId x) promotionId = false)
        by (apply String.eqb_neq, Hnone; now left).
      rewrite Hx. cbn [negb]. f_equal. apply IH. intros p Hp. apply Hnone. now right. }
    split; [|split; [|split]].
    + cbn [fst snd]. rewrite <- Hsame, Hfind. now rewrite String.eqb_refl.
    + reflexivity.
    + reflexivity.
    + intros (p & Hp & Hid). exfalso. exact (Hnone p Hp Hid).
  - destruct (saving_catalogue
                (List.filter (fun p => negb (String.eqb (Promotion.promotionId p)
                                               promotionId)) ps) f)
      as (Hps & Hok & Htext & _).
    split; [|split; [|split]].
    + rewrite Hps, Hfind. now rewrite String.eqb_refl.
    + intros other Ho. rewrite Hps, Hfind.
      apply String.eqb_neq in Ho. now rewrite Ho.
    + intros Hnone. exfalso. apply Hlen. now apply Heq.
    + intros _. split; [exact Hps|]. split; [exact Hok|].
      intros Hopen. rewrite Hps. now apply Htext.
Qed.

Lemma find_app_absent (promotionId : string) (ps : list Promotion.t) (p : Promotion.t) :
  (forall q, In q ps -> Promotion.promotionId q <> promotionId) ->
  Promotion.promotionId p = promotionId ->
  PromotionManager.findPromotionById promotionId (ps ++ [p]) = Some p.
Proof.
  intros Hnone Hp. unfold PromotionManager.findPromotionById.
  induction ps as [|x ps IH]; cbn [app PromotionManager.find].
  - apply String.eqb_eq in Hp. now rewrite Hp.
  - assert (Hx : String.eqb (Promotion.promotionId x) promotionId = false)
      by (apply String.eqb_neq, Hnone; now left).
    rewrite Hx.
    assert (IH' := IH (fun q Hq => Hnone q (or_intror Hq))).
    destruct (PromotionManager.find promotionId (ps ++ [p])) as [[k q]|];
      [exact IH' | discriminate IH'].
Qed.

(** X14. [addPromotion] keeps the ids of the catalogue distinct: it
    refuses a promotion whose id is already there (false, nothing
    changes) and a null pointer, and otherwise appends the promotion,
    which [findPromotionById] then finds.  Its result in that case is the
    result of [saveToFile]: when the file cannot be opened it returns
    false although the promotion is in the catalogue. *)
Theorem addPromotion_keeps_ids_distinct `{Stream} (promotion : Promotion.t)
    (ps : PromotionManager.t) (f : PromotionManager.File) :
  let r := PromotionManager.addPromotion (Some promotion) ps f in
  (NoDup (ids ps) -> NoDup (ids (snd (fst r))))
  /\ ((exists p, In p ps /\ Promotion.promotionId p = Promotion.promotionId promotion) ->
      r = (false, ps, f))
  /\ ((forall p, In p ps -> Promotion.promotionId p <> Promotion.promotionId promotion) ->
      snd (fst r) = ps ++ [promotion]
      /\ fst (fst r) = PromotionManager.opens f
      /\ (PromotionManager.opens f = false -> snd r = f)
      /\ PromotionManager.findPromotionById (Promotion.promotionId promotion) (snd (fst r))
         = Some promotion)
  /\ PromotionManager.addPromotion None ps f = (false, ps, f).
Proof.
  intros r. subst r. unfold PromotionManager.addPromotion.
  destruct (existsb (fun p => String.eqb (Promotion.promotionId p)
                                (Promotion.promotionId promotion)) ps) eqn:Hex.
  - apply existsb_exists in Hex as (p & Hp & Hid). apply String.eqb_eq in Hid.
    split; [intros Hnd; exact Hnd|]. split; [reflexivity|]. split; [|reflexivity].
    intros Hnone. exfalso. exact (Hnone p Hp Hid).
  - assert (Hnone : forall p, In p ps ->
                      Promotion.promotionId p <> Promotion.promotionId promotion).
    { intros p Hp Hid.
      assert (Ht : existsb (fun p => String.eqb (Promotion.promotionId p)
                                       (Promotion.promotionId promotion)) ps = true).
      { apply existsb_exists. exists p. split; [exact Hp | now apply String.eqb_eq]. }
      congruence. }
    destruct (saving_catalogue (ps ++ [promotion]) f) as (Hps & Hok & _ & Hclosed).
    split; [|split; [|split; [|reflexivity]]].
    + intros Hnd. rewrite Hps. unfold ids. rewrite map_app. cbn [map].
      apply NoDup_app. split; [exact Hnd|]. split; [|apply NoDup_singleton].
      intros id Hin Hin'. apply list_elem_of_In in Hin.
      apply in_map_iff in Hin as (p & Hid & Hp).
      apply list_elem_of_In in Hin'. destruct Hin' as [<-|[]].
      exact (Hnone p Hp Hid).
    + intros (p & Hp & Hid). exfalso. exact (Hnone p Hp Hid).
    + intros _. split; [exact Hps|]. split; [exact Hok|]. split; [exact Hclosed|].
      rewrite Hps. now apply find_app_absent.
Qed.

Lemma bestDiscountFrom_member (now : Z) (itemId : string) (ps : list Promotion.t) :
  forall best B p,
    PromotionManager.bestDiscountFrom now itemId ps best B = Some p ->
    best = Some p \/ (In p ps /\ Promotion.isValid now p = true).
Proof.
  induction ps as [|x ps IH]; intros best B p; cbn [PromotionManager.bestDiscountFrom].
  - intros ->. now left.
  - destruct (PromotionManager.isCandidate now itemId x) eqn:Hc.
    + destruct (Promotion.discountRate x <? B)%float.
      * intros Hr. destruct (IH _ _ _ Hr) as [[= <-]|[Hin Hv]].
        -- right. split; [now left|].
           unfold PromotionManager.isCandidate in Hc.
           apply andb_true_iff in Hc as [Hc _]. now apply andb_true_iff in Hc as [_ Hc].
        -- right. split; [now right | exact Hv].
      * intros Hr. destruct (IH _ _ _ Hr) as [Hb|[Hin Hv]]; [now left|].
        right. split; [now right | exact Hv].
    + intros Hr. destruct (IH _ _ _ Hr) as [Hb|[Hin Hv]]; [now left|].
      right. split; [now right | exact Hv].
Qed.

Lemma lookup_alter_cases {A : Type} (g : A -> A) (l : list A) (i j : nat) (x : A) :
  alter g i l !! j = Some x ->
  (i = j /\ exists y, l !! i = Some y /\ x = g y) \/ (i <> j /\ l !! j = Some x).
Proof.
  intros Hj. destruct (decide (i = j)) as [<-|Hne].
  - left. split; [reflexivity|]. rewrite list_lookup_alter_eq in Hj.
    destruct (l !! i) as [y|]; [|discriminate]. exists y. split; [reflexivity|].
    now injection Hj as <-.
  - right. split; [exact Hne|]. now rewrite list_lookup_alter_ne in Hj.
Qed.

(** X15. A promotion switched off by [setPromotionActive] is applied to
    nothing: in a catalogue of distinct ids, no item gets it from
    [getActiveDiscountForItem] and [getActiveFullReductions] does not
    list it, at any time; the promotions under other ids are found as
    before. *)
Theorem deactivated_promotion_is_not_applied `{Runtime} `{Stream} (promotionId : string)
    (ps : PromotionManager.t) (f : PromotionManager.File) (now : Z) :
  NoDup (ids ps) ->
  let ps' := snd (fst (PromotionManager.setPromotionActive promotionId false ps f)) in
  (forall itemId p,
     PromotionManager.getActiveDiscountForItem now itemId ps' = Some p ->
     Promotion.promotionId p <> promotionId)
  /\ (forall p, In p (PromotionManager.getActiveFullReductions now ps') ->
                Promotion.promotionId p <> promotionId)
  /\ (forall other, other <> promotionId ->
        PromotionManager.findPromotionById other ps'
        = PromotionManager.findPromotionById other ps).
Proof.
  intros Hnd ps'.
  assert (Hoff : forall p, In p ps' -> Promotion.promotionId p = promotionId ->
                           Promotion.isValid now p = false).
  { subst ps'. unfold PromotionManager.setPromotionActive.
    pose proof (find_spec promotionId ps) as Hfind.
    destruct (PromotionManager.find promotionId ps) as [[i q]|].
    - destruct Hfind as (Hi & Hq & _).
      rewrite (proj1 (saving_catalogue _ f)).
      intros p Hp Hid. apply list_elem_of_In, list_elem_of_lookup in Hp as (j & Hj).
      apply lookup_alter_cases in Hj as [(_ & y & _ & ->)|(Hne & Hj)]; [reflexivity|].
      exfalso. apply Hne.
      assert (Hids : forall k x, ps !! k = Some x ->
                       ids ps !! k = Some (Promotion.promotionId x)).
      { intros k x Hk. unfold ids. clear -Hk. revert k Hk.
        induction ps as [|z zs IH]; intros [|k]; cbn; try discriminate.
        - now intros [= ->].
        - apply IH. }
      apply (NoDup_lookup (ids ps) i j promotionId Hnd).
      + rewrite (Hids _ _ Hi). congruence.
      + rewrite (Hids _ _ Hj). congruence.
    - intros p Hp Hid. exfalso. exact (Hfind p Hp Hid). }
  split; [|split].
  - intros itemId p Hbest Hid.
    destruct (bestDiscountFrom_member _ _ _ _ _ _ Hbest) as [[=]|[Hin Hv]].
    rewrite (Hoff p Hin Hid) in Hv. discriminate.
  - intros p Hin Hid. apply activeFullReduction_sorted in Hin as [Hin Hact].
    unfold PromotionManager.isActiveFullReduction in Hact.
    apply andb_true_iff in Hact as [_ Hv].
    rewrite (Hoff p Hin Hid) in Hv. discriminate.
  - intros other Ho. subst ps'. unfold PromotionManager.setPromotionActive.
    destruct (PromotionManager.find promotionId ps) as [[i q]|] eqn:Hf; [|reflexivity].
    rewrite (proj1 (saving_catalogue _ f)).
    unfold PromotionManager.findPromotionById.
    f_equal.
    exact (find_other promotionId other (Promotion.setIsActive false) ps i q
             (fun _ => eq_refl) Hf Ho).
Qed.

Lemma deactivated_promotion_is_not_applied_witness :
  PromotionManager.getActiveDiscountForItem 1000 "A"
    [Catalogue.tenOff; Catalogue.twentyOff]
  = Some Catalogue.twentyOff
  /\ PromotionManager.getActiveDiscountForItem 1000 "A"
       (snd (fst (PromotionManager.setPromotionActive (H := demo_stream) "PROMO003" false
                    [Catalogue.tenOff; Catalogue.twentyOff] Shop.promotionsFile)))
     = Some Catalogue.tenOff
  /\ forall itemId p,
       PromotionManager.getActiveDiscountForItem 1000 itemId
         (snd (fst (PromotionManager.setPromotionActive (H := demo_stream) "PROMO003" false
                      [Catalogue.tenOff; Catalogue.twentyOff] Shop.promotionsFile)))
       = Some p ->
       Promotion.promotionId p <> "PROMO003"%string.
Proof.
  split; [reflexivity|]. split; [reflexivity|].
  refine (proj1 (@deactivated_promotion_is_not_applied demo_runtime demo_stream "PROMO003"
                   [Catalogue.tenOff; Catalogue.twentyOff] Shop.promotionsFile 1000 _)).
  unfold ids. cbn [map]. apply NoDup_cons. split; [|apply NoDup_singleton].
  intros Hin. apply list_elem_of_In in Hin. destruct Hin as [Hin|[]]. discriminate Hin.
Defined.

(** * Further properties: pricing and the cart *)

Lemma float_sub_zero (x : float) : (x - 0)%float = x.
Proof.
  apply Prim2SF_inj. rewrite sub_spec. unfold SF64sub.
  change (Prim2SF 0) with (S754_zero false).
  destruct (Prim2SF x) as [[]|[]| |[] m e]; reflexivity.
Qed.

Lemma bestDiscountFrom_none (now : Z) (itemId : string) (ps : list Promotion.t) :
  (forall p, In p ps -> Promotion.isValid now p = false) ->
  forall best B, PromotionManager.bestDiscountFrom now itemId ps best B = best.
Proof.
  intros Hnone. induction ps as [|x ps IH]; intros best B;
    cbn [PromotionManager.bestDiscountFrom]; [reflexivity|].
  assert (Hc : PromotionManager.isCandidate now itemId x = false).
  { unfold PromotionManager.isCandidate. rewrite (Hnone x (or_introl eq_refl)).
    now rewrite andb_false_r. }
  rewrite Hc. apply IH. intros p Hp. apply Hnone. now right.
Qed.

Lemma applyDiscounts_plain (now : Z) (ps : PromotionManager.t)
    (items : list (Item.t * Z)) :
  (forall p, In p ps -> Promotion.isValid now p = false) ->
  forall result,
    let result' := PromotionManager.applyDiscounts now ps items result in
    originalTotal result'
    = fold_left (fun acc line =>
                   (acc + Item.price (fst line) * CInt.to_double (snd line))%float)
        items (originalTotal result)
    /\ afterDiscountTotal result'
       = fold_left (fun acc line =>
                      (acc + Item.price (fst line) * CInt.to_double (snd line))%float)
           items (afterDiscountTotal result)
    /\ appliedPromotions result' = appliedPromotions result
    /\ itemDiscounts result' = itemDiscounts result
    /\ totalReduction result' = totalReduction result.
Proof.
  intros Hnone. induction items as [|[item quantity] items IH]; intros result.
  - repeat split.
  - cbn [PromotionManager.applyDiscounts]. cbv zeta.
    unfold PromotionManager.getActiveDiscountForItem.
    rewrite (bestDiscountFrom_none _ _ _ Hnone).
    cbn [fold_left fst snd].
    destruct (IH (mkPromotionResult
                    (originalTotal result + Item.price item * CInt.to_double quantity)
                    (afterDiscountTotal result + Item.price item * CInt.to_double quantity)
                    (finalTotal result) (totalSavings result) (appliedPromotions result)
                    (itemDiscounts result) (totalReduction result)))
      as (H1 & H2 & H3 & H4 & H5).
    repeat split; assumption.
Qed.

(** X16. With no promotion valid at the time of the call,
    [calculatePromotionResult] charges the plain sum: the original, the
    discounted and the final total are all the sum of price times
    quantity over the lines, no promotion is listed as applied, no item
    discount is recorded and the reduction is 0. *)
Theorem no_valid_promotion_charges_the_plain_sum `{Runtime} (now : Z)
    (ps : PromotionManager.t) (items : list (Item.t * Z)) :
  (forall p, In p ps -> Promotion.isValid now p = false) ->
  let r := PromotionManager.calculatePromotionResult now ps items in
  originalTotal r = sumLines items
  /\ afterDiscountTotal r = sumLines items
  /\ finalTotal r = sumLines items
  /\ appliedPromotions r = []
  /\ itemDiscounts r = []
  /\ totalReduction r = 0%float.
Proof.
  intros Hnone r. subst r. unfold PromotionManager.calculatePromotionResult.
  assert (Hred : PromotionManager.getActiveFullReductions now ps = []).
  { unfold PromotionManager.getActiveFullReductions.
    assert (Hf : List.filter (PromotionManager.isActiveFullReduction now) ps = []).
    { clear -Hnone. induction ps as [|x ps IH]; [reflexivity|].
      cbn [List.filter]. unfold PromotionManager.isActiveFullReduction at 1.
      rewrite (Hnone x (or_introl eq_refl)), andb_false_r.
      apply IH. intros p Hp. apply Hnone. now right. }
    rewrite Hf. apply Permutation_nil. symmetry. apply std_sort_perm. }
  rewrite Hred. cbn [PromotionManager.applyReductions]. cbv zeta.
  destruct (applyDiscounts_plain now ps items Hnone
              (mkPromotionResult 0 0 0 0 [] [] 0)) as (H1 & H2 & H3 & H4 & H5).
  cbn [originalTotal afterDiscountTotal finalTotal appliedPromotions itemDiscounts
         totalReduction] in *.
  rewrite H5, float_sub_zero. unfold sumLines. repeat split; assumption.
Qed.

Lemma no_valid_promotion_charges_the_plain_sum_witness :
  finalTotal (PromotionManager.calculatePromotionResult (H := demo_runtime) 5000
                (Catalogue.tenOff :: Priced.catalogue) [(Priced.sofa, 2)])
  = 1200%float.
Proof.
  refine (eq_trans (proj1 (proj2 (proj2 (no_valid_promotion_charges_the_plain_sum
                                           (H := demo_runtime) 5000
                                           (Catalogue.tenOff :: Priced.catalogue)
                                           [(Priced.sofa, 2)] _)))) eq_refl).
  intros p [<-|[<-|[<-|[]]]]; reflexivity.
Defined.

Lemma applyReductions_originalTotal (reductions : list Promotion.t) :
  forall result,
    originalTotal (PromotionManager.applyReductions reductions result)
    = originalTotal result.
Proof.
  induction reductions as [|x reductions IH]; intros result;
    cbn [PromotionManager.applyReductions]; [reflexivity|].
  cbv zeta.
  destruct (0 <? Promotion.calculateReduction (afterDiscountTotal result) x)%float;
    rewrite IH; reflexivity.
Qed.

Lemma applyDiscounts_originalTotal (now : Z) (ps : PromotionManager.t)
    (items : list (Item.t * Z)) :
  forall result,
    originalTotal (PromotionManager.applyDiscounts now ps items result)
    = fold_left (fun acc line =>
                   (acc + Item.price (fst line) * CInt.to_double (snd line))%float)
        items (originalTotal result).
Proof.
  induction items as [|[item quantity] items IH]; intros result; [reflexivity|].
  cbn [PromotionManager.applyDiscounts]. cbv zeta.
  destruct (PromotionManager.getActiveDiscountForItem now (Item.itemId item) ps);
    rewrite IH; reflexivity.
Qed.

Lemma fill_total (cartItems : Basket) :
  forall (h h0 : gmap positive Item.t) (items : list OrderItem.t) (total : float)
         (items' : list OrderItem.t) (total' : float) (h' : gmap positive Item.t),
    samePrices h h0 ->
    Order.fill cartItems h items total = (Return (items', total'), h') ->
    ShoppingCart.totalPriceFrom h0 cartItems total = Return total'
    /\ exists lines,
         resolve h0 cartItems = Some lines
         /\ fold_left (fun acc line =>
                         (acc + Item.price (fst line) * CInt.to_double (snd line))%float)
              lines total = total'.
Proof.
  induction cartItems as [|[p q] rest IH];
    intros h h0 items total items' total' h' Hsame;
    cbn [Order.fill ShoppingCart.totalPriceFrom resolve].
  - intros [= _ <- _]. split; [reflexivity|]. exists []. split; reflexivity.
  - pose proof (Hsame p) as Hp.
    destruct (h !! p) as [item|] eqn:Hh; [|discriminate].
    destruct (h0 !! p) as [item0|] eqn:Hh0; [|discriminate Hp].
    cbn in Hp. injection Hp as Hprice.
    destruct (Item.stock item <? q); [discriminate|].
    cbv zeta. intros Hfill.
    assert (Hsame' : samePrices
                       (<[p := Item.setStock (CInt.sub (Item.stock item) q) item]> h) h0).
    { intros p'. destruct (decide (p = p')) as [<-|Hne].
      - rewrite lookup_insert_eq, Hh0. cbn. now rewrite Hprice.
      - rewrite lookup_insert_ne by exact Hne. apply Hsame. }
    destruct (IH _ h0 _ _ _ _ _ Hsame' Hfill) as (Ht & lines & Hl & Hsum).
    rewrite <- Hprice. split; [exact Ht|].
    rewrite Hl. exists ((item0, q) :: lines). split; [reflexivity|].
    cbn [fold_left fst snd]. rewrite <- Hprice. exact Hsum.
Qed.

(** X17. The total an order records is the sum of price times quantity
    over the lines of the basket, as the items were priced when the
    order was created: it is what [ShoppingCart::getTotalPrice] gives for
    these lines and what [calculatePromotionResult] reports as
    [originalTotal], for any catalogue of promotions at any time; no
    discount and no reduction enters it. *)
Theorem order_total_is_the_undiscounted_sum `{Runtime} (userId shippingAddress : string)
    (cartItems : Basket) (hasManager : bool) (now : Z) (w w' : ItemWorld) (o : Order.t) :
  Order.create userId cartItems shippingAddress hasManager now w = (Return o, w') ->
  ShoppingCart.getTotalPrice (heap w) cartItems = Return (Order.totalAmount o)
  /\ exists lines,
       resolve (heap w) cartItems = Some lines
       /\ Order.totalAmount o = sumLines lines
       /\ forall t ps,
            originalTotal (PromotionManager.calculatePromotionResult t ps lines)
            = Order.totalAmount o.
Proof.
  unfold Order.create.
  destruct (Order.fill cartItems (heap w) [] 0%float) as [[[items total]|e|] h'] eqn:Hfill;
    intros [= <- _]; cbn [Order.totalAmount].
  destruct (fill_total cartItems (heap w) (heap w) [] 0%float items total h'
              (fun p => eq_refl) Hfill) as (Ht & lines & Hl & Hsum).
  split; [exact Ht|]. exists lines. split; [exact Hl|]. split; [now rewrite <- Hsum|].
  intros t ps. unfold PromotionManager.calculatePromotionResult.
  cbn [originalTotal]. rewrite applyReductions_originalTotal, applyDiscounts_originalTotal.
  exact Hsum.
Qed.

Lemma order_total_is_the_undiscounted_sum_witness :
  exists o,
    fst (Order.create (H := demo_runtime) "u1" Shop.basket2 "addr" true 1000 Sample.world)
    = Return o
    /\ Order.totalAmount o = 190%float
    /\ originalTotal
         (PromotionManager.calculatePromotionResult (H := demo_runtime) 1000
            [Catalogue.twentyOff] [(Sample.apple, 1); (Sample.berry, 3)])
       = Order.totalAmount o
    /\ finalTotal
         (PromotionManager.calculatePromotionResult (H := demo_runtime) 1000
            [Catalogue.twentyOff] [(Sample.apple, 1); (Sample.berry, 3)])
       = 170%float.
Proof.
  pose (r := Order.create (H := demo_runtime) "u1" Shop.basket2 "addr" true 1000
               Sample.world).
  assert (Hr : exists o, r = (Return o, snd r) /\ Order.totalAmount o = 190%float).
  { vm_compute. eexists. split; reflexivity. }
  destruct Hr as (o & Hr & Htotal).
  destruct (order_total_is_the_undiscounted_sum (H := demo_runtime) _ _ _ _ _ _ _ _ Hr)
    as (_ & lines & Hl & _ & Hprice).
  exists o. split; [fold r; now rewrite Hr at 1|]. split; [exact Htotal|].
  split; [|reflexivity].
  assert (Hlines : lines = [(Sample.apple, 1); (Sample.berry, 3)]).
  { vm_compute in Hl. now injection Hl as <-. }
  rewrite <- Hlines. apply Hprice.
Defined.

(** ** The cart *)

Lemma findItemById_spec (h : gmap positive Item.t) (itemId : string)
    (cartItems : Basket) :
  (forall p q, In (p, q) cartItems -> is_Some (h !! p)) ->
  exists it,
    ShoppingCart.findItemById h itemId cartItems = Return it
    /\ match it with
       | Some k =>
           exists p q item,
             cartItems !! k = Some (p, q) /\ h !! p = Some item
             /\ Item.itemId item = itemId
       | None =>
           forall p q item,
             In (p, q) cartItems -> h !! p = Some item -> Item.itemId item <> itemId
       end.
Proof.
  induction cartItems as [|[p q] rest IH]; intros Hrefs;
    cbn [ShoppingCart.findItemById].
  - exists None. split; [reflexivity|]. intros p q item [].
  - destruct (Hrefs p q (or_introl eq_refl)) as [item Hp]. rewrite Hp.
    destruct (String.eqb_spec (Item.itemId item) itemId) as [He|Hne].
    + exists (Some O). split; [reflexivity|]. exists p, q, item. repeat split; assumption.
    + destruct (IH (fun p' q' Hin => Hrefs p' q' (or_intror Hin))) as (it & Hfind & Hit).
      rewrite Hfind. cbn [bind]. exists (option_map S it). split; [reflexivity|].
      destruct it as [k|]; cbn [option_map].
      * destruct Hit as (p' & q' & item' & Hk & Hp' & Hid).
        exists p', q', item'. repeat split; assumption.
      * intros p' q' item' [[= <- <-]|Hin] Hp'; [congruence|].
        exact (Hit p' q' item' Hin Hp').
Qed.

Lemma cartOk_refs (h : gmap positive Item.t) (cartItems : Basket) :
  cartOk h cartItems -> forall p q, In (p, q) cartItems -> is_Some (h !! p).
Proof.
  intros [_ Hlines] p q Hin. destruct (Hlines p q Hin) as (item & Hp & _). eauto.
Qed.

Lemma delete_In {A : Type} (l : list A) :
  forall (k : nat) (x : A), In x (delete k l) -> In x l.
Proof.
  induction l as [|y l IH]; intros [|k] x; cbn; try tauto.
  intros [<-|Hin]; [now left | right; now apply (IH k)].
Qed.

Lemma map_delete {A B : Type} (g : A -> B) (l : list A) :
  forall k : nat, map g (delete k l) = delete k (map g l).
Proof.
  induction l as [|y l IH]; intros [|k]; cbn; try reflexivity.
  f_equal. apply IH.
Qed.

Lemma cartOk_delete (h : gmap positive Item.t) (cartItems : list (positive * Z))
    (k : nat) :
  cartOk h cartItems -> cartOk h (delete k cartItems).
Proof.
  intros [Hnd Hlines]. split.
  - rewrite map_delete.
    exact (sublist_NoDup _ _ Hnd (sublist_delete _ _)).
  - intros p q Hin. apply Hlines. now apply delete_In in Hin.
Qed.

Lemma cartOk_setQuantity (h : gmap positive Item.t) (cartItems : list (positive * Z))
    (k : nat) (p : positive) (q newQuantity : Z) (item : Item.t) :
  cartOk h cartItems ->
  cartItems !! k = Some (p, q) ->
  h !! p = Some item ->
  0 < newQuantity <= Item.stock item ->
  cartOk h (alter (ShoppingCart.setQuantity newQuantity) k cartItems).
Proof.
  intros [Hnd Hlines] Hk Hp Hq. split.
  - assert (Hfst : map fst (alter (ShoppingCart.setQuantity newQuantity) k cartItems)
                   = map fst cartItems).
    { clear -Hk. revert k Hk. induction cartItems as [|x l IH]; intros [|k] Hk;
        try discriminate; cbn; [reflexivity|].
      f_equal. now apply IH. }
    now rewrite Hfst.
  - intros p' q' Hin. apply list_elem_of_In, list_elem_of_lookup in Hin as (j & Hj).
    apply lookup_alter_cases in Hj as [(<- & y & Hy & Heq)|(_ & Hj)].
    + rewrite Hk in Hy. injection Hy as <-. injection Heq as -> ->.
      exists item. split; assumption.
    + apply Hlines. apply list_elem_of_In. now apply list_elem_of_lookup_2 in Hj.
Qed.

(** X18. The cart keeps its lines in order under the operations of
    [ShoppingCart]: one line per item, every line on an item of the
    catalogue, with a quantity that is positive and within that item's
    stock.  [addItem], [removeItem] and [updateItemQuantity] return (no
    null pointer is dereferenced) and leave such a cart, whatever their
    arguments and the user's answer.  Required: no two items share an
    id, and stocks are below 2^30, so that the sum [addItem] forms is an
    [int]. *)
Theorem cart_operations_keep_the_cart_in_order (h : gmap positive Item.t)
    (cartItems : Basket) :
  uniqueIds h ->
  smallStocks h ->
  cartOk h cartItems ->
  (forall item quantity choice,
     exists r, ShoppingCart.addItem h item quantity choice cartItems = Return r
               /\ cartOk h (snd r))
  /\ (forall itemId,
        exists r, ShoppingCart.removeItem h itemId cartItems = Return r
                  /\ cartOk h (snd r))
  /\ (forall itemId newQuantity choice,
        exists r, ShoppingCart.updateItemQuantity h itemId newQuantity choice cartItems
                  = Return r
                  /\ cartOk h (snd r)).
Proof.
  intros Huniq Hsmall Hok. pose proof (cartOk_refs _ _ Hok) as Hrefs.
  split; [|split].
  - intros item quantity choice. unfold ShoppingCart.addItem.
    destruct (h !! item) as [i|] eqn:Hitem; [|eexists; split; [reflexivity | exact Hok]].
    destruct (Z.leb_spec quantity 0); [eexists; split; [reflexivity | exact Hok]|].
    destruct (Z.ltb_spec (Item.stock i) quantity);
      [eexists; split; [reflexivity | exact Hok]|].
    destruct (findItemById_spec h (Item.itemId i) cartItems Hrefs) as (it & Hfind & Hit).
    rewrite Hfind. cbn [bind]. destruct it as [k|].
    + destruct Hit as (p & q & item' & Hk & Hp & Hid).
      assert (Heq : p = item) by exact (Huniq p item item' i Hp Hitem Hid).
      subst p. rewrite Hitem in Hp. injection Hp as <-.
      destruct (ShoppingCart.yes choice); [|eexists; split; [reflexivity | exact Hok]].
      cbv zeta. rewrite (nth_lookup_Some _ _ _ _ Hk). cbn [snd].
      destruct Hok as [Hnd Hlines].
      destruct (Hlines item q ltac:(apply list_elem_of_In; now apply list_elem_of_lookup_2 in Hk))
        as (i' & Hi' & Hq).
      rewrite Hitem in Hi'. injection Hi' as <-.
      pose proof (Hsmall item i Hitem) as Hs.
      assert (Hadd : CInt.add q quantity = q + quantity).
      { unfold CInt.add. apply wrap32_id.
        unfold CInt.in_int, CInt.INT_MIN, CInt.INT_MAX. lia. }
      rewrite Hadd.
      destruct (Z.ltb_spec (Item.stock i) (q + quantity));
        [eexists; split; [reflexivity | split; assumption]|].
      eexists. split; [reflexivity|]. cbn [snd].
      apply (cartOk_setQuantity h cartItems k item q (q + quantity) i);
        [split; assumption | exact Hk | exact Hitem | lia].
    + eexists. split; [reflexivity|]. cbn [snd].
      destruct Hok as [Hnd Hlines]. split.
      * rewrite map_app. cbn [map fst].
        apply NoDup_app. split; [exact Hnd|]. split; [|apply NoDup_singleton].
        intros p Hin Hin'. apply list_elem_of_In in Hin', Hin.
        destruct Hin' as [<-|[]].
        apply in_map_iff in Hin as ([p q] & Hfst & Hin). cbn in Hfst. subst p.
        exact (Hit item q i Hin Hitem eq_refl).
      * intros p q Hin. apply in_app_iff in Hin as [Hin|[[= <- <-]|[]]];
          [now apply Hlines|].
        exists i. split; [exact Hitem | lia].
  - intros itemId. unfold ShoppingCart.removeItem.
    destruct (findItemById_spec h itemId cartItems Hrefs) as (it & Hfind & Hit).
    rewrite Hfind. cbn [bind]. destruct it as [k|].
    + eexists. split; [reflexivity|]. now apply cartOk_delete.
    + eexists. split; [reflexivity | exact Hok].
  - intros itemId newQuantity choice. unfold ShoppingCart.updateItemQuantity.
    destruct (findItemById_spec h itemId cartItems Hrefs) as (it & Hfind & Hit).
    rewrite Hfind. cbn [bind].
    destruct it as [k|]; [|eexists; split; [reflexivity | exact Hok]].
    destruct Hit as (p & q & item & Hk & Hp & Hid).
    destruct (Z.eqb_spec newQuantity 0).
    { destruct (ShoppingCart.yes choice); eexists; (split; [reflexivity|]);
        [now apply cartOk_delete | exact Hok]. }
    destruct (Z.ltb_spec newQuantity 0); [eexists; split; [reflexivity | exact Hok]|].
    rewrite (nth_lookup_Some _ _ _ _ Hk). cbn [fst]. unfold stockOf. rewrite Hp.
    destruct (Z.ltb_spec (Item.stock item) newQuantity);
      [eexists; split; [reflexivity | exact Hok]|].
    eexists. split; [reflexivity|]. cbn [snd].
    apply (cartOk_setQuantity h cartItems k p q newQuantity item);
      [exact Hok | exact Hk | exact Hp | lia].
Qed.

Lemma demand_line (cartItems : Basket) (p : positive) :
  NoDup (map fst cartItems) ->
  (forall q, In (p, q) cartItems -> demand p cartItems = q)
  /\ (~ In p (map fst cartItems) -> demand p cartItems = 0).
Proof.
  induction cartItems as [|[p' q'] rest IH]; intros Hnd; cbn [demand map fst].
  - split; [intros q [] | reflexivity].
  - apply NoDup_cons in Hnd as [Hnotin Hnd]. destruct (IH Hnd) as [IHin IHout].
    destruct (decide (p' = p)) as [->|Hne].
    + assert (Hout : ~ In p (map fst rest))
        by (intros Hin; apply Hnotin; now apply list_elem_of_In).
      rewrite (IHout Hout). split.
      * intros q [[= <-]|Hin]; [lia|].
        exfalso. apply Hout. apply in_map_iff. exists (p, q). split; [reflexivity|exact Hin].
      * intros Hout'. exfalso. apply Hout'. now left.
    + split.
      * intros q [[= Hp _]|Hin]; [congruence|]. rewrite (IHin q Hin). lia.
      * intros Hout. rewrite IHout; [lia|]. intros Hin. apply Hout. now right.
Qed.

(** X19. Checking out a cart that is in order succeeds: over a heap
    whose stocks are [int]s that are not negative, [createOrder] on the
    lines of such a cart returns the order, with one order line per cart
    line at the cart's quantity, and takes from the stock of every item
    of the cart exactly the quantity of its line, leaving no stock
    negative. *)
Theorem checkout_of_a_cart_in_order_succeeds `{Runtime} (userId shippingAddress : string)
    (cartItems : Basket) (now : Z) (m : OrderManager.t) (w : ItemWorld) :
  cartOk (heap w) cartItems ->
  (forall p i, heap w !! p = Some i -> 0 <= Item.stock i <= CInt.INT_MAX) ->
  let r := OrderManager.createOrder userId cartItems shippingAddress now m w in
  exists order,
    fst (fst r) = Return (Some order)
    /\ map OrderItem.quantity (Order.items order) = map snd cartItems
    /\ (forall p q, In (p, q) cartItems ->
          stockOf (heap (snd r)) p = stockOf (heap w) p - q
          /\ 0 <= stockOf (heap (snd r)) p)
    /\ forall p, ~ In p (map fst cartItems) ->
                 stockOf (heap (snd r)) p = stockOf (heap w) p.
Proof.
  intros Hok Hstocks r. subst r. destruct Hok as [Hnd Hlines].
  assert (Hwf : wellFormed cartItems (heap w)).
  { split.
    - intros p q Hin. destruct (Hlines p q Hin) as (item & Hp & _). eauto.
    - intros p q Hin. destruct (Hlines p q Hin) as (item & _ & Hq). lia.
    - intros p i Hp. pose proof (Hstocks p i Hp).
      unfold CInt.in_int, CInt.INT_MIN, CInt.INT_MAX in *. lia. }
  assert (Hdemand : forall p, demand p cartItems <= stockOf (heap w) p).
  { intros p. destruct (demand_line cartItems p Hnd) as [Hin Hout].
    destruct (In_dec Pos.eq_dec p (map fst cartItems)) as [Hp|Hp].
    - apply in_map_iff in Hp as ([p' q] & Hfst & Hp). cbn in Hfst. subst p'.
      rewrite (Hin q Hp). destruct (Hlines p q Hp) as (item & Hitem & Hq).
      unfold stockOf. rewrite Hitem. lia.
    - rewrite (Hout Hp). unfold stockOf.
      destruct (heap w !! p) as [i|] eqn:Hi; [|lia].
      pose proof (Hstocks p i Hi). lia. }
  destruct (fill_returns cartItems (heap w) [] 0%float Hwf Hdemand)
    as (items' & total' & h' & Hfill & Hqs & Hst).
  unfold OrderManager.createOrder, Order.create. rewrite Hfill.
  eexists. split; [reflexivity|]. cbn [Order.items]. split; [exact Hqs|].
  assert (Hheap : forall p,
             stockOf (heap (snd (Return (Some (Order.mk (Order.generateOrderId userId now)
                        userId items' now total' shippingAddress PENDING now)),
                      snd (OrderManager.saveToFile
                             (OrderManager.with_orders
                                (OrderManager.orders m
                                 ++ [Order.mk (Order.generateOrderId userId now) userId
                                       items' now total' shippingAddress PENDING now]) m)),
                      if OrderManager.hasItemManager m
                      then ItemManager_saveToFile (mkItemWorld h' (catalogue w) (itemFile w))
                      else mkItemWorld h' (catalogue w) (itemFile w)))) p
             = stockOf (heap w) p - demand p cartItems).
  { intros p. cbn [snd]. destruct (OrderManager.hasItemManager m); cbn; apply Hst. }
  split.
  - intros p q Hin. rewrite Hheap.
    rewrite (proj1 (demand_line cartItems p Hnd) q Hin).
    split; [reflexivity|]. destruct (Hlines p q Hin) as (item & Hitem & Hq).
    unfold stockOf. rewrite Hitem. lia.
  - intros p Hp. rewrite Hheap, (proj2 (demand_line cartItems p Hnd) Hp). lia.
Qed.

Lemma sample_heap (p : positive) (i : Item.t) :
  heap Sample.world !! p = Some i ->
  (p = 1%positive /\ i = Sample.apple) \/ (p = 2%positive /\ i = Sample.berry).
Proof.
  unfold Sample.world. cbn [heap]. intros Hp.
  destruct (decide (p = 1%positive)) as [->|H1].
  - rewrite lookup_insert_eq in Hp. injection Hp as <-. now left.
  - rewrite lookup_insert_ne in Hp by congruence.
    destruct (decide (p = 2%positive)) as [->|H2].
    + rewrite lookup_insert_eq in Hp. injection Hp as <-. now right.
    + rewrite lookup_insert_ne in Hp by congruence.
      rewrite lookup_empty in Hp. discriminate.
Qed.

Lemma cart_operations_keep_the_cart_in_order_witness :
  ShoppingCart.addItem (heap Sample.world) 1%positive 3 "y" [(1%positive, 2)]
  = Return (true, [(1%positive, 5)])
  /\ cartOk (heap Sample.world) [(1%positive, 5)].
Proof.
  assert (Hok : cartOk (heap Sample.world) [(1%positive, 2)]).
  { split.
    - apply NoDup_singleton.
    - intros p q [[= <- <-]|[]]. exists Sample.apple. split; [reflexivity | vm_compute].
      split; [reflexivity | discriminate]. }
  assert (Huniq : uniqueIds (heap Sample.world)).
  { intros p p' i i' Hp Hp' Hid.
    destruct (sample_heap p i Hp) as [[-> ->]|[-> ->]],
      (sample_heap p' i' Hp') as [[-> ->]|[-> ->]];
      try reflexivity; discriminate Hid. }
  assert (Hsmall : smallStocks (heap Sample.world)).
  { intros p i Hp. destruct (sample_heap p i Hp) as [[-> ->]|[-> ->]]; vm_compute;
      discriminate. }
  destruct (proj1 (cart_operations_keep_the_cart_in_order (heap Sample.world)
                     [(1%positive, 2)] Huniq Hsmall Hok) 1%positive 3 "y"%char)
    as (r & Hr & Hcart).
  assert (Hrun : ShoppingCart.addItem (heap Sample.world) 1%positive 3 "y" [(1%positive, 2)]
                 = Return (true, [(1%positive, 5)])) by reflexivity.
  split; [exact Hrun|].
  rewrite Hrun in Hr. injection Hr as <-. exact Hcart.
Defined.

Lemma checkout_of_a_cart_in_order_succeeds_witness :
  exists order,
    fst (fst (OrderManager.createOrder (H := demo_runtime) "u1"
                [(1%positive, 2); (2%positive, 3)] "addr" 1000 Sample.manager Sample.world))
    = Return (Some order)
    /\ stockOf (heap (snd (OrderManager.createOrder (H := demo_runtime) "u1"
                             [(1%positive, 2); (2%positive, 3)] "addr" 1000
                             Sample.manager Sample.world))) 2%positive
       = 0.
Proof.
  destruct (checkout_of_a_cart_in_order_succeeds (H := demo_runtime) "u1" "addr"
              [(1%positive, 2); (2%positive, 3)] 1000 Sample.manager Sample.world)
    as (order & Hr & _ & Hstock & _).
  - split.
    + apply NoDup_cons. split; [|apply NoDup_singleton].
      intros Hin. apply list_elem_of_In in Hin. destruct Hin as [Hin|[]]. discriminate Hin.
    + intros p q [[= <- <-]|[[= <- <-]|[]]].
      * exists Sample.apple. split; [reflexivity | vm_compute].
        split; [reflexivity | discriminate].
      * exists Sample.berry. split; [reflexivity | vm_compute].
        split; [reflexivity | discriminate].
  - intros p i Hp. destruct (sample_heap p i Hp) as [[-> ->]|[-> ->]]; vm_compute;
      split; discriminate.
  - exists order. split; [exact Hr|].
    destruct (Hstock 2%positive 3 ltac:(right; now left)) as [Hs _].
    rewrite Hs. reflexivity.
Defined.

(** * Further properties: what the operations leave alone *)

Lemma ids_alter (g : Promotion.t -> Promotion.t) (i : nat) (ps : list Promotion.t) :
  (forall q, Promotion.promotionId (g q) = Promotion.promotionId q) ->
  ids (alter g i ps) = ids ps.
Proof.
  intros Hg. unfold ids. revert i.
  induction ps as [|x ps IH]; intros [|i]; cbn; try reflexivity.
  - now rewrite Hg.
  - f_equal. apply IH.
Qed.

Lemma ids_insert (i : nat) (p q : Promotion.t) (ps : list Promotion.t) :
  ps !! i = Some q -> Promotion.promotionId p = Promotion.promotionId q ->
  ids (<[i := p]> ps) = ids ps.
Proof.
  unfold ids. revert i.
  induction ps as [|x ps IH]; intros [|i]; cbn; try discriminate.
  - intros [= ->] ->. reflexivity.
  - intros Hi Hid. f_equal. now apply IH.
Qed.

Lemma ids_filter (promotionId : string) (ps : list Promotion.t) :
  NoDup (ids ps) ->
  NoDup (ids (List.filter (fun p => negb (String.eqb (Promotion.promotionId p)
                                            promotionId)) ps)).
Proof.
  unfold ids. induction ps as [|x ps IH]; cbn [List.filter map]; [intros; constructor|].
  intros Hnd. apply NoDup_cons in Hnd as [Hx Hnd].
  destruct (negb (String.eqb (Promotion.promotionId x) promotionId)); [|now apply IH].
  cbn [map]. apply NoDup_cons. split; [|now apply IH].
  intros Hin. apply Hx. apply list_elem_of_In in Hin. apply list_elem_of_In.
  apply in_map_iff in Hin as (q & Hq & Hin). apply filter_In in Hin as [Hin _].
  apply in_map_iff. exists q. split; assumption.
Qed.

(** X20. No edit of a promotion changes an id, adds a promotion or
    removes one: after each of the editors of [PromotionManager], and
    after [updatePromotion], the ids of the catalogue are the same, in
    the same order, whether the edit was accepted or refused; and
    [deletePromotion] keeps distinct ids distinct. *)
Theorem edits_keep_the_ids `{Stream} (promotionId : string) (ps : PromotionManager.t)
    (f : PromotionManager.File) :
  (forall newName,
     ids (snd (fst (PromotionManager.updatePromotionName promotionId newName ps f)))
     = ids ps)
  /\ (forall newStartTime newEndTime,
        ids (snd (fst (PromotionManager.updatePromotionTime promotionId newStartTime
                         newEndTime ps f)))
        = ids ps)
  /\ (forall newRate,
        ids (snd (fst (PromotionManager.updateDiscountRate promotionId newRate ps f)))
        = ids ps)
  /\ (forall newItemId,
        ids (snd (fst (PromotionManager.updateDiscountTargetItem promotionId newItemId
                         ps f)))
        = ids ps)
  /\ (forall newThreshold,
        ids (snd (fst (PromotionManager.updateFullReductionThreshold promotionId
                         newThreshold ps f)))
        = ids ps)
  /\ (forall newReduction,
        ids (snd (fst (PromotionManager.updateFullReductionAmount promotionId
                         newReduction ps f)))
        = ids ps)
  /\ (forall isActive,
        ids (snd (fst (PromotionManager.setPromotionActive promotionId isActive ps f)))
        = ids ps)
  /\ (forall promotion,
        ids (snd (fst (PromotionManager.updatePromotion promotion ps f))) = ids ps)
  /\ (NoDup (ids ps) ->
      NoDup (ids (snd (fst (PromotionManager.deletePromotion promotionId ps f))))).
Proof.
  assert (Hsave : forall ps', ids (snd (fst (PromotionManager.saving ps' f))) = ids ps').
  { intros ps'. now rewrite (proj1 (saving_catalogue ps' f)). }
  split; [|split; [|split; [|split; [|split; [|split; [|split; [|split]]]]]]].
  - intros newName. unfold PromotionManager.updatePromotionName.
    destruct (PromotionManager.find promotionId ps) as [[i p]|]; [|reflexivity].
    rewrite Hsave. now apply ids_alter.
  - intros s e. unfold PromotionManager.updatePromotionTime.
    destruct (PromotionManager.find promotionId ps) as [[i p]|]; [|reflexivity].
    destruct (e <=? s); [reflexivity|]. rewrite Hsave. now apply ids_alter.
  - intros newRate. unfold PromotionManager.updateDiscountRate.
    destruct (PromotionManager.find promotionId ps) as [[i p]|]; [|reflexivity].
    destruct (negb (bool_decide (Promotion.promotionType p = DISCOUNT))); [reflexivity|].
    destruct ((newRate <=? 0)%float || (1 <=? newRate)%float); [reflexivity|].
    rewrite Hsave. now apply ids_alter.
  - intros newItemId. unfold PromotionManager.updateDiscountTargetItem.
    destruct (PromotionManager.find promotionId ps) as [[i p]|]; [|reflexivity].
    destruct (negb (bool_decide (Promotion.promotionType p = DISCOUNT))); [reflexivity|].
    rewrite Hsave. now apply ids_alter.
  - intros newThreshold. unfold PromotionManager.updateFullReductionThreshold.
    destruct (PromotionManager.find promotionId ps) as [[i p]|]; [|reflexivity].
    destruct (negb (bool_decide (Promotion.promotionType p = FULL_REDUCTION)));
      [reflexivity|].
    destruct (newThreshold <=? 0)%float; [reflexivity|].
    destruct (newThreshold <=? Promotion.reductionAmount p)%float; [reflexivity|].
    rewrite Hsave. now apply ids_alter.
  - intros newReduction. unfold PromotionManager.updateFullReductionAmount.
    destruct (PromotionManager.find promotionId ps) as [[i p]|]; [|reflexivity].
    destruct (negb (bool_decide (Promotion.promotionType p = FULL_REDUCTION)));
      [reflexivity|].
    destruct (newReduction <=? 0)%float; [reflexivity|].
    destruct (Promotion.thresholdAmount p <=? newReduction)%float; [reflexivity|].
    rewrite Hsave. now apply ids_alter.
  - intros isActive. unfold PromotionManager.setPromotionActive.
    destruct (PromotionManager.find promotionId ps) as [[i p]|]; [|reflexivity].
    rewrite Hsave. now apply ids_alter.
  - intros [promotion|]; [|reflexivity]. unfold PromotionManager.updatePromotion.
    pose proof (find_spec (Promotion.promotionId promotion) ps) as Hfind.
    destruct (PromotionManager.find (Promotion.promotionId promotion) ps) as [[i p]|];
      [|reflexivity].
    destruct Hfind as (Hi & Hp & _). rewrite Hsave.
    apply (ids_insert i promotion p); [exact Hi | now rewrite Hp].
  - intros Hnd. unfold PromotionManager.deletePromotion.
    destruct (List.length _ =? List.length ps)%nat; [exact Hnd|].
    rewrite Hsave. now apply ids_filter.
Qed.

(** ** Loading a cart and emptying it *)

(** X21. [addItemDirect] ignores a null item and a quantity that is not
    positive, and otherwise appends the line without looking for the
    item in the cart: called for an item that has a line already it
    leaves two lines for one item, a cart the other operations never
    produce. *)
Theorem addItemDirect_can_double_a_line (h : gmap positive Item.t) (item : positive)
    (quantity : Z) (cartItems : Basket) :
  (h !! item = None \/ quantity <= 0 ->
   ShoppingCart.addItemDirect h item quantity cartItems = cartItems)
  /\ (is_Some (h !! item) /\ 0 < quantity ->
      ShoppingCart.addItemDirect h item quantity cartItems
      = cartItems ++ [(item, quantity)]
      /\ (In item (map fst cartItems) ->
          ~ cartOk h (ShoppingCart.addItemDirect h item quantity cartItems))).
Proof.
  unfold ShoppingCart.addItemDirect. split.
  - intros [Hnull|Hq].
    + rewrite bool_decide_eq_false_2; [reflexivity|]. rewrite Hnull. now intros [x Hx].
    + destruct (Z.ltb_spec 0 quantity); [lia|]. now rewrite andb_false_r.
  - intros [Hitem Hq]. rewrite bool_decide_eq_true_2 by exact Hitem.
    destruct (Z.ltb_spec 0 quantity); [|lia]. cbn [andb].
    split; [reflexivity|]. intros Hin [Hnd _].
    rewrite map_app in Hnd. cbn [map fst] in Hnd.
    apply NoDup_app in Hnd as (_ & Hdisj & _).
    apply (Hdisj item); [now apply list_elem_of_In | now left].
Qed.

Lemma delete_line_gone (l : list (positive * Z)) :
  forall (k : nat) (p : positive) (q : Z),
    NoDup (map fst l) -> l !! k = Some (p, q) -> ~ In p (map fst (delete k l)).
Proof.
  induction l as [|[p' q'] l IH]; intros [|k] p q Hnd; cbn; try discriminate.
  - intros [= -> ->]. apply NoDup_cons in Hnd as [Hx _].
    intros Hin. apply Hx. now apply list_elem_of_In.
  - intros Hk. apply NoDup_cons in Hnd as [Hx Hnd].
    intros [->|Hin].
    + apply Hx. apply list_elem_of_In. apply in_map_iff. exists (p, q).
      split; [reflexivity|]. apply list_elem_of_In. now apply list_elem_of_lookup_2 in Hk.
    + exact (IH k p q Hnd Hk Hin).
Qed.

Lemma length_delete_line {A : Type} (l : list A) :
  forall (k : nat) (x : A), l !! k = Some x -> S (List.length (delete k l)) = List.length l.
Proof.
  induction l as [|y l IH]; intros [|k] x; cbn; try discriminate; [reflexivity|].
  intros Hk. f_equal. exact (IH k x Hk).
Qed.

Lemma removeItem_spec (h : gmap positive Item.t) (itemId : string)
    (cartItems : list (positive * Z)) :
  uniqueIds h -> cartOk h cartItems ->
  exists removed cart',
    ShoppingCart.removeItem h itemId cartItems = Return (removed, cart')
    /\ cartOk h cart'
    /\ (forall line, In line cart' -> In line cartItems)
    /\ (forall p q item, In (p, q) cart' -> h !! p = Some item ->
                         Item.itemId item <> itemId)
    /\ (List.length cart' + (if removed then 1 else 0) = List.length cartItems)%nat.
Proof.
  intros Huniq Hok. unfold ShoppingCart.removeItem.
  destruct (findItemById_spec h itemId cartItems (cartOk_refs _ _ Hok))
    as (it & Hfind & Hit).
  rewrite Hfind. cbn [bind]. destruct it as [k|].
  - destruct Hit as (p & q & item & Hk & Hp & Hid).
    exists true, (delete k cartItems). split; [reflexivity|].
    split; [now apply cartOk_delete|]. split; [intros line; apply delete_In|]. split.
    + intros p' q' item' Hin Hp' Hid'.
      assert (Heq : p' = p) by (apply (Huniq p' p item' item Hp' Hp); congruence).
      subst p'. apply (delete_line_gone cartItems k p q (proj1 Hok) Hk).
      apply in_map_iff. exists (p, q'). split; [reflexivity | exact Hin].
    + pose proof (length_delete_line cartItems k _ Hk). lia.
  - exists false, cartItems. split; [reflexivity|]. split; [exact Hok|].
    split; [tauto|]. split; [exact Hit | lia].
Qed.

(** X22. [removeMultipleItems] returns the number of lines it removed:
    on a cart in order (items with distinct ids) the count and the
    length of the cart left add up to the length of the cart before,
    the cart left is in order and made of lines of the cart before, and
    no line of an item whose id was listed is left.  (The list holds
    fewer ids than INT_MAX, the range of the counter.) *)
Theorem removeMultipleItems_counts_the_removed_lines (h : gmap positive Item.t)
    (itemIds : list string) (cartItems : Basket) :
  uniqueIds h ->
  cartOk h cartItems ->
  Z.of_nat (List.length itemIds) <= CInt.INT_MAX ->
  exists successCount cart',
    ShoppingCart.removeMultipleItems h itemIds 0 cartItems = Return (successCount, cart')
    /\ 0 <= successCount <= Z.of_nat (List.length itemIds)
    /\ Z.of_nat (List.length cart') + successCount = Z.of_nat (List.length cartItems)
    /\ cartOk h cart'
    /\ (forall line, In line cart' -> In line cartItems)
    /\ forall itemId p q item,
         In itemId itemIds -> In (p, q) cart' -> h !! p = Some item ->
         Item.itemId item <> itemId.
Proof.
  intros Huniq Hok Hlen.
  assert (Hgen : forall (listed : list string) (count : Z) (cart : list (positive * Z)),
             cartOk h cart -> 0 <= count ->
             count + Z.of_nat (List.length listed) <= CInt.INT_MAX ->
             exists successCount cart',
               ShoppingCart.removeMultipleItems h listed count cart
               = Return (successCount, cart')
               /\ count <= successCount <= count + Z.of_nat (List.length listed)
               /\ Z.of_nat (List.length cart') + successCount
                  = Z.of_nat (List.length cart) + count
               /\ cartOk h cart'
               /\ (forall line, In line cart' -> In line cart)
               /\ forall itemId p q item,
                    In itemId listed -> In (p, q) cart' -> h !! p = Some item ->
                    Item.itemId item <> itemId).
  { induction listed as [|id listed IH]; intros count cart Hcart Hcount Hmax;
      cbn [ShoppingCart.removeMultipleItems].
    - exists count, cart. cbn [List.length].
      split; [reflexivity|]. split; [lia|]. split; [lia|]. split; [exact Hcart|].
      split; [tauto|]. intros itemId p q item [].
    - destruct (removeItem_spec h id cart Huniq Hcart)
        as (removed & cart1 & Hrem & Hok1 & Hsub1 & Hgone1 & Hlen1).
      rewrite Hrem. cbn [bind fst snd]. cbn [List.length] in Hmax.
      assert (Hadd : CInt.add count 1 = count + 1).
      { unfold CInt.add. apply wrap32_id.
        unfold CInt.in_int, CInt.INT_MIN, CInt.INT_MAX in *. lia. }
      destruct (IH (if removed then CInt.add count 1 else count) cart1 Hok1)
        as (n & cart' & Hrun & Hn & Hsum & Hok' & Hsub & Hgone).
      { destruct removed; lia. }
      { destruct removed; lia. }
      exists n, cart'. split; [exact Hrun|]. cbn [List.length].
      split; [destruct removed; lia|]. split; [destruct removed; lia|].
      split; [exact Hok'|]. split; [intros line Hin; apply Hsub1, Hsub, Hin|].
      intros itemId p q item [<-|Hin] Hline Hp.
      + apply (Hgone1 p q item); [apply Hsub, Hline | exact Hp].
      + exact (Hgone itemId p q item Hin Hline Hp). }
  destruct (Hgen itemIds 0 cartItems Hok ltac:(lia) ltac:(lia))
    as (n & cart' & Hrun & Hn & Hsum & Hok' & Hsub & Hgone).
  exists n, cart'. split; [exact Hrun|]. split; [lia|]. split; [lia|].
  split; [exact Hok'|]. split; assumption.
Qed.

Lemma removeMultipleItems_counts_the_removed_lines_witness :
  ShoppingCart.removeMultipleItems (heap Sample.world) ["B"; "Z"; "B"]%string 0
    [(1%positive, 2); (2%positive, 3)]
  = Return (1, [(1%positive, 2)]).
Proof.
  assert (Hok : cartOk (heap Sample.world) [(1%positive, 2); (2%positive, 3)]).
  { split.
    - apply NoDup_cons. split; [|apply NoDup_singleton].
      intros Hin. apply list_elem_of_In in Hin. destruct Hin as [Hin|[]]. discriminate Hin.
    - intros p q [[= <- <-]|[[= <- <-]|[]]].
      + exists Sample.apple. split; [reflexivity | vm_compute].
        split; [reflexivity | discriminate].
      + exists Sample.berry. split; [reflexivity | vm_compute].
        split; [reflexivity | discriminate]. }
  assert (Huniq : uniqueIds (heap Sample.world)).
  { intros p p' i i' Hp Hp' Hid.
    destruct (sample_heap p i Hp) as [[-> ->]|[-> ->]],
      (sample_heap p' i' Hp') as [[-> ->]|[-> ->]];
      try reflexivity; discriminate Hid. }
  destruct (removeMultipleItems_counts_the_removed_lines (heap Sample.world)
              ["B"; "Z"; "B"]%string [(1%positive, 2); (2%positive, 3)] Huniq Hok)
    as (n & cart' & Hrun & _).
  - vm_compute. discriminate.
  - rewrite Hrun. vm_compute in Hrun. symmetry. exact Hrun.
Defined.

(** * Further properties: the cart file *)

Lemma commaSeparated_cons (x : Z) (rest : list Z) :
  ShoppingCartManager.commaSeparated (x :: rest)
  = (Text.to_string x ++ match rest with
                         | [] => EmptyString
                         | _ :: _ => String "," (ShoppingCartManager.commaSeparated rest)
                         end)%string.
Proof. cbn [ShoppingCartManager.commaSeparated]. now destruct rest. Qed.

Lemma commaSeparated_occurs (c : ascii) (vec : list Z) :
  Text.is_digit c = false -> c <> "-"%char -> c <> ","%char ->
  occurs c (ShoppingCartManager.commaSeparated vec) = false.
Proof.
  intros Hd Hm Hc. induction vec as [|x rest IH]; [reflexivity|].
  rewrite commaSeparated_cons, occurs_append, (to_string_occurs c x Hd Hm).
  destruct rest; [reflexivity|]. cbn [occurs orb]. rewrite IH, orb_false_r.
  apply Ascii.eqb_neq. congruence.
Qed.

Lemma getlines_commaSeparated (vec : list Z) :
  Text.getlines "," (ShoppingCartManager.commaSeparated vec) = map Text.to_string vec.
Proof.
  unfold Text.getlines. induction vec as [|x rest IH]; [reflexivity|].
  assert (Hfree : occurs "," (Text.to_string x) = false)
    by (apply to_string_occurs; (reflexivity || discriminate)).
  rewrite commaSeparated_cons. cbn [map]. destruct rest as [|y rest].
  - rewrite (split_aux_prefix _ _ Hfree). cbn [Text.split_aux]. sapp.
    pose proof (to_string_nonempty x) as Hne.
    apply String.eqb_neq in Hne. now rewrite Hne.
  - rewrite (split_aux_piece _ _ Hfree). sapp. f_equal. exact IH.
Qed.

Lemma commaSeparated_nonempty (x : Z) (rest : list Z) :
  ShoppingCartManager.commaSeparated (x :: rest) <> EmptyString.
Proof.
  rewrite commaSeparated_cons. pose proof (to_string_nonempty x) as Hne.
  destruct (Text.to_string x); [contradiction | sapp; discriminate].
Qed.

Lemma parse_items (vec : list Z) :
  Forall CInt.in_int vec ->
  omap (fun item =>
          let item := Text.trim item in
          if String.eqb item EmptyString then None else Text.stoi item)
    (map Text.to_string vec)
  = vec.
Proof.
  set (read := fun item : string => _).
  induction 1 as [|x rest Hx Hrest IH]; [reflexivity|].
  assert (Hread : read (Text.to_string x) = Some x).
  { unfold read. cbv zeta. rewrite trim_to_string.
    pose proof (to_string_nonempty x) as Hne. apply String.eqb_neq in Hne. rewrite Hne.
    unfold Text.stoi. now rewrite parse_to_string by exact Hx. }
  cbn [map]. rewrite omap_step, Hread. now rewrite IH.
Qed.

Lemma to_string_ends (z : Z) (c : ascii) :
  Text.front (Text.to_string z) = Some c \/ Text.back (Text.to_string z) = Some c ->
  Text.is_digit c = true \/ c = "-"%char.
Proof.
  intros Hc.
  assert (Ho : occurs c (Text.to_string z) = true)
    by (destruct Hc; [now apply firstChar_occurs | now apply lastChar_occurs]).
  destruct (Text.is_digit c) eqn:Hd; [now left|].
  destruct (Ascii.eqb_spec c "-") as [->|Hm]; [now right|].
  rewrite (to_string_occurs c z Hd Hm) in Ho. discriminate.
Qed.

Lemma front_append (a b : string) :
  a <> EmptyString -> Text.front (a ++ b) = Text.front a.
Proof. destruct a; [contradiction | reflexivity]. Qed.

Lemma take_all_but (a b : string) :
  Text.take (String.length (a ++ b) - String.length b) (a ++ b) = a.
Proof.
  rewrite length_append.
  replace (String.length a + String.length b - String.length b)%nat
    with (String.length a) by lia.
  apply take_append.
Qed.

(** What is between the brackets is read back. *)
Lemma parse_bracketed (x : Z) (rest : list Z) :
  Forall CInt.in_int (x :: rest) ->
  let str := ("[" ++ ShoppingCartManager.commaSeparated (x :: rest) ++ "]")%string in
  Text.front str = Some "["%char
  /\ Text.back str = Some "]"%char
  /\ Text.trim str = str
  /\ omap (fun item =>
             let item := Text.trim item in
             if String.eqb item EmptyString then None else Text.stoi item)
       (Text.getlines ","
          (Text.take (String.length str - 2) (Text.drop 1 str)))
     = x :: rest
  /\ String.eqb (Text.trim (Text.take (String.length str - 2) (Text.drop 1 str)))
       EmptyString = false.
Proof.
  intros Hvec str. subst str. sapp.
  set (body := ShoppingCartManager.commaSeparated (x :: rest)).
  assert (Hbody : body <> EmptyString) by apply commaSeparated_nonempty.
  assert (Hback : Text.back (String "[" (body ++ "]")) = Some "]"%char).
  { rewrite lastChar_cons by (destruct body; discriminate).
    now rewrite lastChar_append by discriminate. }
  assert (Hinner : Text.take (String.length (String "[" (body ++ "]")) - 2)
                     (Text.drop 1 (String "[" (body ++ "]"))) = body).
  { cbn [Text.drop String.length].
    replace (S (String.length (body ++ "]")) - 2)%nat
      with (String.length (body ++ "]") - String.length "]")%nat by (simpl; lia).
    apply take_all_but. }
  assert (Htrim : Text.trim body = body).
  { apply trim_no_blank. intros c Hc. destruct (blank_not_digit c Hc) as [Hd Hm].
    apply commaSeparated_occurs; try assumption.
    intros ->. discriminate Hc. }
  split; [reflexivity|]. split; [exact Hback|]. split.
  - apply trim_fixed.
    + now intros c [= <-].
    + intros c Hc. rewrite Hback in Hc. now injection Hc as <-.
  - rewrite Hinner, Htrim. split.
    + unfold body. rewrite getlines_commaSeparated. now apply parse_items.
    + now apply String.eqb_neq.
Qed.

(** X23. [parseArrayString] reads back what [vectorToArrayString]
    wrote, for every vector of [int]s, with or without the quotes that
    [saveToFile] puts around it. *)
Theorem array_text_round_trip (vec : list Z) :
  Forall CInt.in_int vec ->
  ShoppingCartManager.parseArrayString (ShoppingCartManager.vectorToArrayString vec) = vec
  /\ ShoppingCartManager.parseArrayString
       (String ShoppingCartManager.quote
          (ShoppingCartManager.vectorToArrayString vec
           ++ String ShoppingCartManager.quote EmptyString))
     = vec.
Proof.
  intros Hvec. destruct vec as [|x rest]; [split; reflexivity|].
  destruct (parse_bracketed x rest Hvec) as (Hfront & Hback & Htrim & Hitems & Hne).
  cbn [ShoppingCartManager.vectorToArrayString].
  set (str := ("[" ++ ShoppingCartManager.commaSeparated (x :: rest) ++ "]")%string) in *.
  assert (Hstr : str <> EmptyString) by (intros He; rewrite He in Hfront; discriminate).
  split.
  - unfold ShoppingCartManager.parseArrayString. cbv zeta. rewrite Htrim, Hfront.
    rewrite (bool_decide_eq_false_2 (Some "["%char = Some ShoppingCartManager.quote))
      by discriminate.
    rewrite Hback.
    rewrite (bool_decide_eq_false_2 (Some "]"%char = Some ShoppingCartManager.quote))
      by discriminate.
    rewrite Hfront, Hback.
    rewrite (bool_decide_eq_true_2 (Some "["%char = Some "["%char)) by reflexivity.
    rewrite (bool_decide_eq_true_2 (Some "]"%char = Some "]"%char)) by reflexivity.
    apply String.eqb_neq in Hstr. rewrite Hstr. cbn [negb orb].
    now rewrite Hne.
  - unfold ShoppingCartManager.parseArrayString. cbv zeta.
    assert (Hq : Text.back (str ++ String ShoppingCartManager.quote EmptyString)
                 = Some ShoppingCartManager.quote)
      by now rewrite lastChar_append by discriminate.
    assert (Hwhole : Text.trim (String ShoppingCartManager.quote
                                  (str ++ String ShoppingCartManager.quote EmptyString))
                     = String ShoppingCartManager.quote
                         (str ++ String ShoppingCartManager.quote EmptyString)).
    { apply trim_fixed.
      - now intros c [= <-].
      - intros c. rewrite lastChar_cons by (destruct str; discriminate).
        rewrite Hq. now intros [= <-]. }
    rewrite Hwhole. cbn [Text.front].
    rewrite (bool_decide_eq_true_2 (Some ShoppingCartManager.quote
                                    = Some ShoppingCartManager.quote)) by reflexivity.
    change (Text.drop 1 (String ShoppingCartManager.quote
                           (str ++ String ShoppingCartManager.quote EmptyString)))
      with (str ++ String ShoppingCartManager.quote EmptyString)%string.
    rewrite Hq.
    rewrite (bool_decide_eq_true_2 (Some ShoppingCartManager.quote
                                    = Some ShoppingCartManager.quote)) by reflexivity.
    replace (String.length (str ++ String ShoppingCartManager.quote EmptyString) - 1)%nat
      with (String.length (str ++ String ShoppingCartManager.quote EmptyString)
            - String.length (String ShoppingCartManager.quote EmptyString))%nat
      by reflexivity.
    rewrite take_all_but.
    rewrite Hfront, Hback.
    rewrite (bool_decide_eq_true_2 (Some "["%char = Some "["%char)) by reflexivity.
    rewrite (bool_decide_eq_true_2 (Some "]"%char = Some "]"%char)) by reflexivity.
    apply String.eqb_neq in Hstr. rewrite Hstr. cbn [negb orb].
    now rewrite Hne.
Qed.

Lemma array_text_round_trip_witness :
  ShoppingCartManager.vectorToArrayString [3; -12; 0] = "[3,-12,0]"%string
  /\ ShoppingCartManager.parseArrayString "[3,-12,0]" = [3; -12; 0].
Proof.
  split; [reflexivity|].
  refine (proj1 (array_text_round_trip [3; -12; 0] _)).
  repeat constructor; vm_compute; congruence.
Defined.

Lemma untilDelim_prefix (delim : ascii) (p t : string) :
  occurs delim p = false -> Text.untilDelim delim (p ++ String delim t) = (p, t).
Proof.
  intros Hp. induction p as [|x p IH]; sapp; cbn [Text.untilDelim].
  - now rewrite Ascii.eqb_refl.
  - simpl in Hp. apply orb_false_iff in Hp as [Hx Hp].
    rewrite Hx, (IH Hp). reflexivity.
Qed.

Lemma getlineFrom_prefix (delim : ascii) (p t : string) :
  occurs delim p = false ->
  Text.getlineFrom delim (p ++ String delim t) = Some (p, t).
Proof.
  intros Hp. unfold Text.getlineFrom. rewrite (untilDelim_prefix _ _ _ Hp).
  now destruct p.
Qed.

(** A text that does not begin with the quote or the bracket holds no
    array. *)
Lemma parseArrayString_unopened (s : string) (c : ascii) :
  Text.trim s = s -> Text.front s = Some c ->
  c <> ShoppingCartManager.quote -> c <> "["%char ->
  ShoppingCartManager.parseArrayString s = [].
Proof.
  intros Htrim Hfront Hq Hb. unfold ShoppingCartManager.parseArrayString. cbv zeta.
  rewrite Htrim, Hfront.
  rewrite (bool_decide_eq_false_2 (Some c = Some ShoppingCartManager.quote))
    by congruence.
  set (str := if bool_decide (Text.back s = Some ShoppingCartManager.quote)
              then Text.take (String.length s - 1) s else s).
  assert (Hstr : str = EmptyString \/ Text.front str = Some c).
  { subst str. destruct (bool_decide (Text.back s = Some ShoppingCartManager.quote));
      [|now right].
    destruct s as [|x r]; [discriminate Hfront|]. injection Hfront as ->.
    cbn [String.length]. rewrite Nat.sub_1_r. cbn [Nat.pred].
    destruct r; [now left | now right]. }
  destruct Hstr as [-> | Hf]; [reflexivity|].
  rewrite Hf.
  rewrite (bool_decide_eq_false_2 (Some c = Some "["%char)) by congruence.
  cbn [negb]. now rewrite orb_true_r.
Qed.

(** A quoted text whose bracket is not closed holds no array. *)
Lemma parseArrayString_unclosed (s : string) (c : ascii) :
  Text.trim (String ShoppingCartManager.quote s) = String ShoppingCartManager.quote s ->
  Text.back s = Some c ->
  c <> ShoppingCartManager.quote -> c <> "]"%char ->
  ShoppingCartManager.parseArrayString (String ShoppingCartManager.quote s) = [].
Proof.
  intros Htrim Hback Hq Hb. unfold ShoppingCartManager.parseArrayString. cbv zeta.
  rewrite Htrim. cbn [Text.front].
  rewrite (bool_decide_eq_true_2 (Some ShoppingCartManager.quote
                                  = Some ShoppingCartManager.quote)) by reflexivity.
  change (Text.drop 1 (String ShoppingCartManager.quote s)) with s.
  rewrite Hback.
  rewrite (bool_decide_eq_false_2 (Some c = Some ShoppingCartManager.quote))
    by congruence.
  cbv iota. rewrite Hback.
  rewrite (bool_decide_eq_false_2 (Some c = Some "]"%char)) by congruence.
  cbn [negb]. now rewrite orb_true_r.
Qed.

Lemma vectorsOf_lengths (h : gmap positive Item.t) (items : Basket) :
  forall (itemIds quantities ids qs : list Z),
    ShoppingCartManager.vectorsOf h items itemIds quantities = Return (ids, qs) ->
    List.length ids = (List.length itemIds + List.length items)%nat
    /\ List.length qs = (List.length quantities + List.length items)%nat.
Proof.
  induction items as [|[p q] rest IH]; intros itemIds quantities ids qs;
    cbn [ShoppingCartManager.vectorsOf].
  - intros [= <- <-]. cbn [List.length]. lia.
  - destruct (h !! p) as [item|]; [|discriminate].
    destruct (Text.stoi (Item.itemId item)) as [id|]; [|discriminate].
    intros Hrest. destruct (IH _ _ _ _ Hrest) as [H1 H2].
    rewrite length_app in H1, H2. cbn [List.length] in *. lia.
Qed.

Lemma array_back (x : Z) (rest : list Z) (tail : string) :
  Text.back (ShoppingCartManager.vectorToArrayString (x :: rest)
             ++ String ShoppingCartManager.quote tail)
  = Text.back (String ShoppingCartManager.quote tail).
Proof. now rewrite lastChar_append by discriminate. Qed.

Lemma row_of_several_loads_empty (w : ItemWorld) (username : string)
    (n1 n2 q1 q2 : Z) (ids qs : list Z) :
  occurs "," username = false ->
  ShoppingCartManager.loadLine (Some w)
    (username
     ++ String "," (String ShoppingCartManager.quote
          (ShoppingCartManager.vectorToArrayString (n1 :: n2 :: ids)
           ++ String ShoppingCartManager.quote
                (String "," (String ShoppingCartManager.quote
                   (ShoppingCartManager.vectorToArrayString (q1 :: q2 :: qs)
                    ++ String ShoppingCartManager.quote EmptyString))))))
  = Return (ShoppingCartManager.Store (Text.trim username) []).
Proof.
  intros Huser.
  set (V := ShoppingCartManager.vectorToArrayString (q1 :: q2 :: qs)).
  set (B := ShoppingCartManager.commaSeparated (n2 :: ids)).
  set (tail := (B ++ String "]" (String ShoppingCartManager.quote
                  (String "," (String ShoppingCartManager.quote
                     (V ++ String ShoppingCartManager.quote EmptyString)))))%string).
  assert (Hids : (ShoppingCartManager.vectorToArrayString (n1 :: n2 :: ids)
                  ++ String ShoppingCartManager.quote
                       (String "," (String ShoppingCartManager.quote
                          (V ++ String ShoppingCartManager.quote EmptyString))))%string
                 = (String "[" (Text.to_string n1) ++ String "," tail)%string).
  { cbn [ShoppingCartManager.vectorToArrayString]. rewrite commaSeparated_cons.
    fold B. subst tail. rewrite ?append_assoc. sapp. now rewrite ?append_assoc. }
  rewrite Hids.
  unfold ShoppingCartManager.loadLine.
  rewrite (getlineFrom_prefix _ _ _ Huser).
  change (String ShoppingCartManager.quote
            (String "[" (Text.to_string n1) ++ String "," tail))%string
    with (String ShoppingCartManager.quote (String "[" (Text.to_string n1))
          ++ String "," tail)%string.
  rewrite getlineFrom_prefix.
  2:{ cbn [occurs]. rewrite to_string_occurs by (reflexivity || discriminate).
      reflexivity. }
  cbv zeta.
  assert (Hplain : forall z c, Text.is_blank c = true ->
                     occurs c (Text.to_string z) = false).
  { intros z c Hc. destruct (blank_not_digit c Hc). now apply to_string_occurs. }
  assert (Hfirst : ShoppingCartManager.parseArrayString
                     (String ShoppingCartManager.quote (String "[" (Text.to_string n1)))
                   = []).
  { pose proof (to_string_nonempty n1) as Hne.
    destruct (Text.back (Text.to_string n1)) as [c|] eqn:Hc.
    - destruct (to_string_ends n1 c (or_intror Hc)) as [Hd| ->].
      + apply (parseArrayString_unclosed _ c).
        * apply trim_no_blank. intros b Hb. cbn [occurs]. rewrite (Hplain n1 b Hb).
          destruct b as [[] [] [] [] [] [] [] []]; try discriminate Hb; reflexivity.
        * now rewrite lastChar_cons.
        * intros ->. discriminate Hd.
        * intros ->. discriminate Hd.
      + apply (parseArrayString_unclosed _ "-"%char).
        * apply trim_no_blank. intros b Hb. cbn [occurs]. rewrite (Hplain n1 b Hb).
          destruct b as [[] [] [] [] [] [] [] []]; try discriminate Hb; reflexivity.
        * now rewrite lastChar_cons.
        * discriminate.
        * discriminate.
    - exfalso. destruct (Text.to_string n1) as [|x r]; [contradiction|].
      clear -Hc. revert x Hc. induction r as [|y r IH]; intros x Hc; [discriminate|].
      exact (IH y Hc). }
  assert (Hsecond : ShoppingCartManager.parseArrayString tail = []).
  { assert (HB : B = (Text.to_string n2
                      ++ match ids with
                         | [] => EmptyString
                         | _ :: _ => String "," (ShoppingCartManager.commaSeparated ids)
                         end)%string) by apply commaSeparated_cons.
    pose proof (to_string_nonempty n2) as Hne.
    destruct (Text.to_string n2) as [|c r] eqn:Hn2; [contradiction|].
    assert (Hc : Text.is_digit c = true \/ c = "-"%char).
    { apply (to_string_ends n2). left. now rewrite Hn2. }
    assert (Hfront : Text.front tail = Some c).
    { subst tail. rewrite HB. now sapp. }
    apply (parseArrayString_unopened _ c).
    - apply trim_fixed.
      + rewrite Hfront. intros b [= <-].
        destruct Hc as [Hd| ->]; [|reflexivity].
        destruct c as [[] [] [] [] [] [] [] []]; try discriminate Hd; reflexivity.
      + subst tail. rewrite lastChar_append by discriminate.
        rewrite !lastChar_cons by discriminate.
        subst V. rewrite array_back. now intros b [= <-].
    - exact Hfront.
    - destruct Hc as [Hd| ->]; [intros ->; discriminate Hd | discriminate].
    - destruct Hc as [Hd| ->]; [intros ->; discriminate Hd | discriminate]. }
  rewrite Hfirst, Hsecond. reflexivity.
Qed.

(** X24. The cart file does not keep a cart of several lines.
    [saveToFile] writes the two arrays with commas inside, and
    [loadFromFile] cuts the row at its first two commas: of the row of a
    cart of two lines or more it reads two texts that hold no array, so
    the cart it stores for the user is empty.  Loading the file
    [saveToFile] wrote for such a cart gives the user an empty cart. *)
Theorem saved_cart_of_several_lines_loads_empty (w : ItemWorld)
    (h : gmap positive Item.t) (username : string) (items : Basket) (text : string) :
  occurs "," username = false ->
  (2 <= List.length items)%nat ->
  ShoppingCartManager.row h username items = Return text ->
  ShoppingCartManager.loadLine (Some w) text
  = Return (ShoppingCartManager.Store (Text.trim username) [])
  /\ forall carts,
       ShoppingCartManager.loadFromFile (Some w)
         (Some ["username,item_ids,quantities"%string; text]) carts
       = (Return true, {[Text.trim username := []]}).
Proof.
  intros Huser Hlen Hrow.
  assert (Hload : ShoppingCartManager.loadLine (Some w) text
                  = Return (ShoppingCartManager.Store (Text.trim username) [])).
  { unfold ShoppingCartManager.row in Hrow.
    destruct items as [|l1 items]; [cbn in Hlen; lia|].
    destruct (ShoppingCartManager.vectorsOf h (l1 :: items) [] []) as [[ids qs]|e|] eqn:Hv;
      cbn [bind] in Hrow; try discriminate Hrow.
    injection Hrow as <-. cbn [fst snd].
    destruct (vectorsOf_lengths _ _ _ _ _ _ Hv) as [Hi Hq].
    cbn [List.length] in Hi, Hq, Hlen.
    destruct ids as [|n1 [|n2 ids]]; cbn [List.length] in Hi; try lia.
    destruct qs as [|q1 [|q2 qs]]; cbn [List.length] in Hq; try lia.
    now apply row_of_several_loads_empty. }
  split; [exact Hload|].
  intros carts. unfold ShoppingCartManager.loadFromFile.
  cbn [ShoppingCartManager.loadLines]. cbn [String.eqb Ascii.eqb Bool.eqb].
  assert (Hne : String.eqb text EmptyString = false).
  { apply String.eqb_neq. intros ->. discriminate Hload. }
  rewrite Hne, Hload. reflexivity.
Qed.

Lemma saved_cart_of_several_lines_loads_empty_witness :
  ShoppingCartManager.row (heap Numbered.world) "u1" [(1%positive, 3); (2%positive, 1)]
  = Return ("u1," ++ String ShoppingCartManager.quote
              ("[1,2]" ++ String ShoppingCartManager.quote
                 ("," ++ String ShoppingCartManager.quote
                    ("[3,1]" ++ String ShoppingCartManager.quote EmptyString))))%string
  /\ ShoppingCartManager.loadLine (Some Numbered.world)
       ("u1," ++ String ShoppingCartManager.quote
          ("[1,2]" ++ String ShoppingCartManager.quote
             ("," ++ String ShoppingCartManager.quote
                ("[3,1]" ++ String ShoppingCartManager.quote EmptyString))))%string
     = Return (ShoppingCartManager.Store "u1" [])
  /\ ShoppingCartManager.loadLine (Some Numbered.world)
       ("u1," ++ String ShoppingCartManager.quote
          ("[1]" ++ String ShoppingCartManager.quote
             ("," ++ String ShoppingCartManager.quote
                ("[3]" ++ String ShoppingCartManager.quote EmptyString))))%string
     = Return (ShoppingCartManager.Store "u1" [(1%positive, 3)]).
Proof.
  assert (Hrow : ShoppingCartManager.row (heap Numbered.world) "u1"
                   [(1%positive, 3); (2%positive, 1)]
                 = Return ("u1," ++ String ShoppingCartManager.quote
                             ("[1,2]" ++ String ShoppingCartManager.quote
                                ("," ++ String ShoppingCartManager.quote
                                   ("[3,1]" ++ String ShoppingCartManager.quote
                                      EmptyString))))%string)
    by reflexivity.
  split; [exact Hrow|]. split; [|reflexivity].
  refine (proj1 (saved_cart_of_several_lines_loads_empty Numbered.world
                   (heap Numbered.world) "u1" [(1%positive, 3); (2%positive, 1)] _
                   _ _ Hrow)).
  - reflexivity.
  - cbn [List.length]. lia.
Defined.

(** * Further properties: the purchase report *)

Lemma countLine_glimpse (itemManager : option ItemWorld) (line : OrderItem.t)
    (s s' : CustomerReportService.Scan) (itemId : string) :
  CustomerReportService.countLine itemManager line s = Return s' ->
  glimpse itemId s'
  = if isLineOf itemId line then tally (glimpse itemId s) (OrderItem.quantity line)
    else glimpse itemId s.
Proof.
  unfold CustomerReportService.countLine. cbv zeta.
  destruct (CustomerReportService.categoryOf itemManager (OrderItem.itemId line))
    as [category|e|]; cbn [bind]; try discriminate.
  intros [= <-]. unfold glimpse, isLineOf, tally.
  cbn [CustomerReportService.itemStats CustomerReportService.itemsInOrder fst snd].
  destruct (String.eqb_spec (OrderItem.itemId line) itemId) as [->|Hne].
  - destruct (bool_decide (itemId ∈ CustomerReportService.itemsInOrder s)) eqn:Hseen.
    + destruct (CustomerReportService.itemStats s !! itemId) as [st|];
        rewrite lookup_insert_eq; cbn [option_map]; rewrite Hseen; reflexivity.
    + assert (Hin : bool_decide (itemId ∈ ({[itemId]} ∪ CustomerReportService.itemsInOrder s
                                            : gset string)) = true).
      { apply bool_decide_eq_true_2. apply elem_of_union_l. now apply elem_of_singleton. }
      rewrite Hin.
      destruct (CustomerReportService.itemStats s !! itemId) as [st|];
        rewrite lookup_alter_eq, lookup_insert_eq; reflexivity.
  - assert (Hset : bool_decide
                     (itemId ∈ (if bool_decide (OrderItem.itemId line
                                                ∈ CustomerReportService.itemsInOrder s)
                                then CustomerReportService.itemsInOrder s
                                else {[OrderItem.itemId line]}
                                     ∪ CustomerReportService.itemsInOrder s))
                   = bool_decide (itemId ∈ CustomerReportService.itemsInOrder s)).
    { destruct (bool_decide (OrderItem.itemId line
                             ∈ CustomerReportService.itemsInOrder s)); [reflexivity|].
      apply bool_decide_ext. rewrite elem_of_union, elem_of_singleton.
      split; [intros [He|Hin]; [congruence | exact Hin] | now right]. }
    rewrite Hset. f_equal.
    destruct (bool_decide (OrderItem.itemId line ∈ CustomerReportService.itemsInOrder s));
      destruct (CustomerReportService.itemStats s !! OrderItem.itemId line) as [st|];
      rewrite ?lookup_alter_ne by exact Hne;
      rewrite lookup_insert_ne by exact Hne; reflexivity.
Qed.

Lemma countLines_glimpse (itemManager : option ItemWorld) (lines : list OrderItem.t)
    (itemId : string) :
  forall s s',
    CustomerReportService.countLines itemManager lines s = Return s' ->
    glimpse itemId s'
    = fold_left tally (map OrderItem.quantity (List.filter (isLineOf itemId) lines))
        (glimpse itemId s).
Proof.
  induction lines as [|line lines IH]; intros s s';
    cbn [CustomerReportService.countLines List.filter].
  - now intros [= <-].
  - destruct (CustomerReportService.countLine itemManager line s) as [s1|e|] eqn:H1;
      cbn [bind]; try discriminate.
    intros Hrest. rewrite (IH _ _ Hrest), (countLine_glimpse _ _ _ _ itemId H1).
    now destruct (isLineOf itemId line).
Qed.

Lemma analyzeOrders_entry (itemManager : option ItemWorld) (orders : list Order.t)
    (itemId : string) :
  forall cs stats cs' stats',
    CustomerReportService.analyzeOrders itemManager orders cs stats = Return (cs', stats') ->
    entryOf itemId stats'
    = fold_left tallyOrder (map (quantitiesOf itemId) orders) (entryOf itemId stats).
Proof.
  induction orders as [|order orders IH]; intros cs stats cs' stats';
    cbn [CustomerReportService.analyzeOrders].
  - now intros [= <- <-].
  - destruct (CustomerReportService.countLines itemManager (Order.items order)
                (CustomerReportService.mkScan cs stats ∅ ∅)) as [s1|e|] eqn:H1;
      cbn [bind]; try discriminate.
    intros Hrest. rewrite (IH _ _ _ _ Hrest). cbn [map fold_left]. f_equal.
    pose proof (countLines_glimpse _ _ itemId _ _ H1) as Hg.
    unfold tallyOrder, quantitiesOf. unfold glimpse in Hg.
    cbn [CustomerReportService.itemStats CustomerReportService.itemsInOrder] in Hg.
    rewrite (bool_decide_eq_false_2 (itemId ∈ (∅ : gset string))) in Hg
      by apply not_elem_of_empty.
    unfold entryOf. rewrite <- Hg. reflexivity.
Qed.

Lemma wrap_add (a b : Z) : CInt.add (CInt.wrap 32 a) b = CInt.wrap 32 (a + b).
Proof.
  unfold CInt.add, CInt.wrap.
  change (2 ^ (32 - 1)) with 2147483648. change (2 ^ 32) with 4294967296.
  set (x := (a + 2147483648) mod 4294967296).
  replace (x - 2147483648 + b + 2147483648) with (x + b) by lia.
  subst x. rewrite Z.add_mod_idemp_l by lia.
  replace (a + 2147483648 + b) with (a + b + 2147483648) by lia. reflexivity.
Qed.

Lemma tally_seen (qs : list Z) :
  forall a f,
    fold_left tally qs (Some (CInt.wrap 32 a, f), true)
    = (Some (CInt.wrap 32 (a + fold_right Z.add 0 qs), f), true).
Proof.
  induction qs as [|q qs IH]; intros a f; cbn [fold_left fold_right].
  - now rewrite Z.add_0_r.
  - unfold tally at 2. cbn [fst snd]. rewrite wrap_add, IH.
    now rewrite Z.add_assoc.
Qed.

(** One order on the entry of an item: nothing without a line of the
    item, else the quantities are added and the frequency goes up by
    one. *)
Lemma tallyOrder_spec (e : option (Z * Z)) (qs : list Z) (a n : Z) :
  Forall CInt.in_int qs ->
  (e = None /\ a = 0 /\ n = 0) \/ e = Some (CInt.wrap 32 a, CInt.wrap 32 n) ->
  match qs with
  | [] => tallyOrder e qs = e
  | _ :: _ =>
      tallyOrder e qs
      = Some (CInt.wrap 32 (a + fold_right Z.add 0 qs), CInt.wrap 32 (n + 1))
  end.
Proof.
  intros Hqs He. destruct qs as [|q qs]; [reflexivity|].
  apply Forall_cons_iff in Hqs as [Hq _].
  unfold tallyOrder. cbn [fold_left fold_right].
  destruct He as [(-> & -> & ->)| ->]; unfold tally at 2; cbn [fst snd].
  - rewrite <- (wrap32_id q Hq) at 1. rewrite tally_seen. cbn [fst].
    do 2 f_equal.
  - rewrite !wrap_add, tally_seen. cbn [fst]. do 3 f_equal. lia.
Qed.

Lemma tallyOrders_spec (qss : list (list Z)) :
  forall (e : option (Z * Z)) (a n : Z),
    Forall (Forall CInt.in_int) qss ->
    (e = None /\ a = 0 /\ n = 0) \/ (e = Some (CInt.wrap 32 a, CInt.wrap 32 n)) ->
    let total := a + fold_right Z.add 0 (concat qss) in
    let count :=
      n + Z.of_nat (List.length (List.filter (fun qs => negb (Nat.eqb (List.length qs) 0))
                                   qss)) in
    match fold_left tallyOrder qss e with
    | None => e = None /\ concat qss = []
    | Some (quantity, frequency) =>
        quantity = CInt.wrap 32 total /\ frequency = CInt.wrap 32 count
    end.
Proof.
  induction qss as [|qs qss IH]; intros e a n Hall He; cbn [fold_left concat List.filter].
  - cbn [fold_right List.length]. rewrite !Z.add_0_r.
    destruct He as [(-> & -> & ->)| ->]; [split; reflexivity | split; reflexivity].
  - apply Forall_cons_iff in Hall as [Hqs Hall].
    pose proof (tallyOrder_spec e qs a n Hqs He) as Hstep.
    destruct qs as [|q qs].
    + rewrite Hstep. cbn [List.length Nat.eqb negb app]. exact (IH e a n Hall He).
    + rewrite Hstep. cbn [List.length Nat.eqb negb].
      specialize (IH (Some (CInt.wrap 32 (a + fold_right Z.add 0 (q :: qs)),
                            CInt.wrap 32 (n + 1)))
                     (a + fold_right Z.add 0 (q :: qs)) (n + 1) Hall
                     (or_intror eq_refl)).
      cbv zeta in IH.
      destruct (fold_left tallyOrder qss
                  (Some (CInt.wrap 32 (a + fold_right Z.add 0 (q :: qs)),
                         CInt.wrap 32 (n + 1)))) as [[quantity frequency]|].
      * destruct IH as [-> ->]. split; f_equal.
        -- rewrite fold_right_app.
           assert (Hsum : forall (l : list Z) (b : Z),
                     fold_right Z.add b l = fold_right Z.add 0 l + b).
           { induction l as [|x l IHl]; intros b; cbn [fold_right]; [lia|].
             rewrite IHl. lia. }
           rewrite (Hsum (q :: qs) (fold_right Z.add 0 (concat qss))). lia.
        -- cbn [List.length]. lia.
      * destruct IH as [[=] _].
Qed.

(** Orders without a line of the item leave its entry as it is. *)
Lemma tallyOrders_none (qss : list (list Z)) (e : option (Z * Z)) :
  concat qss = [] -> fold_left tallyOrder qss e = e.
Proof.
  revert e. induction qss as [|qs qss IH]; intros e Hempty; [reflexivity|].
  cbn [concat] in Hempty. apply app_eq_nil in Hempty as [-> Hrest].
  cbn [fold_left]. now apply IH.
Qed.

Lemma ordersWith_length (itemId : string) (orders : list Order.t) :
  List.length (List.filter (fun qs => negb (Nat.eqb (List.length qs) 0))
                 (map (quantitiesOf itemId) orders))
  = List.length (ordersWith itemId orders).
Proof.
  unfold ordersWith. induction orders as [|o orders IH]; [reflexivity|].
  cbn [map List.filter].
  assert (Hsame : negb (Nat.eqb (List.length (quantitiesOf itemId o)) 0)
                  = existsb (isLineOf itemId) (Order.items o)).
  { unfold quantitiesOf. generalize (Order.items o). intros lines.
    induction lines as [|line lines IHl]; [reflexivity|].
    cbn [List.filter existsb]. destruct (isLineOf itemId line); [reflexivity | exact IHl]. }
  rewrite Hsame. destruct (existsb (isLineOf itemId) (Order.items o));
    cbn [List.length]; now rewrite IH.
Qed.

(** X25. The purchase report counts orders, not lines: after
    [analyzeOrders] on fresh maps, an item has an entry exactly when some
    order has a line of it; its purchase frequency is then the number of
    the orders with at least one line of it, however many lines of it an
    order has, and its purchase quantity the sum of the quantities of
    all its lines (both as [int]s). *)
Theorem report_counts_orders_not_lines (itemManager : option ItemWorld)
    (orders : list Order.t)
    (categoryStats : gmap string CategoryStatistics.t)
    (itemStats : gmap string ItemStatistics.t) (itemId : string) :
  CustomerReportService.analyzeOrders itemManager orders ∅ ∅
  = Return (categoryStats, itemStats) ->
  (forall order line, In order orders -> In line (Order.items order) ->
                      CInt.in_int (OrderItem.quantity line)) ->
  (is_Some (itemStats !! itemId)
   <-> exists order line,
         In order orders /\ In line (Order.items order)
         /\ OrderItem.itemId line = itemId)
  /\ forall st,
       itemStats !! itemId = Some st ->
       ItemStatistics.purchaseFrequency st
       = CInt.wrap 32 (Z.of_nat (List.length (ordersWith itemId orders)))
       /\ ItemStatistics.purchaseQuantity st
          = CInt.wrap 32 (totalQuantity itemId orders).
Proof.
  intros Hrun Hq.
  pose proof (analyzeOrders_entry _ _ itemId _ _ _ _ Hrun) as Hentry.
  unfold entryOf in Hentry at 2. rewrite lookup_empty in Hentry. cbn [option_map] in Hentry.
  assert (Hall : Forall (Forall CInt.in_int) (map (quantitiesOf itemId) orders)).
  { apply Forall_forall. intros qs Hin. apply list_elem_of_In in Hin.
    apply in_map_iff in Hin as (o & <- & Ho).
    apply Forall_forall. intros q Hin. apply list_elem_of_In in Hin.
    unfold quantitiesOf in Hin. apply in_map_iff in Hin as (line & <- & Hline).
    apply filter_In in Hline as [Hline _]. exact (Hq o line Ho Hline). }
  pose proof (tallyOrders_spec _ None 0 0 Hall (or_introl (conj eq_refl (conj eq_refl eq_refl))))
    as Hspec.
  cbv zeta in Hspec. rewrite <- Hentry in Hspec. unfold entryOf in Hspec.
  pose proof (tallyOrders_none (map (quantitiesOf itemId) orders) None) as Hnone.
  rewrite <- Hentry in Hnone. unfold entryOf in Hnone.
  split.
  - split.
    + intros [st Hst]. rewrite Hst in Hnone. cbn [option_map] in Hnone.
      destruct (concat (map (quantitiesOf itemId) orders)) as [|q qs] eqn:Hqs;
        [specialize (Hnone eq_refl); discriminate Hnone|].
      assert (Hin : In q (concat (map (quantitiesOf itemId) orders)))
        by (rewrite Hqs; now left).
      apply in_concat in Hin as (l & Hl & Hql).
      apply in_map_iff in Hl as (order & <- & Ho).
      unfold quantitiesOf in Hql. apply in_map_iff in Hql as (line & _ & Hline).
      apply filter_In in Hline as [Hline Hid].
      exists order, line. split; [exact Ho|]. split; [exact Hline|].
      unfold isLineOf in Hid. now apply String.eqb_eq in Hid.
    + intros (order & line & Ho & Hline & Hid).
      destruct (itemStats !! itemId) as [st|]; [now exists st|].
      cbn [option_map] in Hspec. destruct Hspec as [_ Hempty].
      assert (Hin : In (OrderItem.quantity line)
                      (concat (map (quantitiesOf itemId) orders))).
      { apply in_concat. exists (quantitiesOf itemId order). split.
        - apply in_map_iff. exists order. split; [reflexivity | exact Ho].
        - unfold quantitiesOf. apply in_map_iff. exists line. split; [reflexivity|].
          apply filter_In. split; [exact Hline|]. unfold isLineOf.
          now apply String.eqb_eq. }
      rewrite Hempty in Hin. destruct Hin.
  - intros st Hst. rewrite Hst in Hspec. cbn [option_map] in Hspec.
    destruct Hspec as [Hquantity Hfrequency]. split.
    + rewrite Hfrequency, ordersWith_length. reflexivity.
    + rewrite Hquantity. reflexivity.
Qed.

Lemma report_counts_orders_not_lines_witness :
  exists categoryStats itemStats st,
    CustomerReportService.analyzeOrders None Bought.orders ∅ ∅
    = Return (categoryStats, itemStats)
    /\ itemStats !! "A"%string = Some st
    /\ ItemStatistics.purchaseFrequency st = 2
    /\ ItemStatistics.purchaseQuantity st = 6.
Proof.
  assert (Hq : forall order line,
             In order Bought.orders -> In line (Order.items order) ->
             CInt.in_int (OrderItem.quantity line)).
  { intros order line [<-|[<-|[]]]; cbn [Bought.first Bought.second Order.items];
      intros [<-|[<-|[]]]; cbn [OrderItem.quantity];
      unfold CInt.in_int, CInt.INT_MIN, CInt.INT_MAX; lia. }
  destruct (CustomerReportService.analyzeOrders None Bought.orders ∅ ∅)
    as [[categoryStats itemStats]|e|] eqn:Hrun;
    [|vm_compute in Hrun; discriminate Hrun..].
  destruct (report_counts_orders_not_lines None Bought.orders categoryStats itemStats
              "A" Hrun Hq) as [Hentry Hcounts].
  exists categoryStats, itemStats.
  destruct (proj2 Hentry) as [st Hst].
  { exists Bought.first, (OrderItem.mk "A" "Apple" 100 2).
    split; [left; reflexivity|]. split; [left; reflexivity | reflexivity]. }
  exists st. destruct (Hcounts st Hst) as [-> ->].
  split; [reflexivity|]. split; [exact Hst|]. split; reflexivity.
Defined.
